(** * Bank statement parser: detector, extractors and normaliser

    A shallow embedding of the repository's Python modules
    ([parsers/detector.py] and the per-format parsers) together with the
    properties stated about them.

    Conventions of the embedding.
    - A Python [str] is a [string] of bytes.  The text handled here is
      ASCII, apart from the rupee sign, which is its three UTF-8 bytes;
      the classes [\d], [\w], [\s] and [str.lower]/[str.upper]/[str.strip]
      are the ASCII ones.
    - A Python [float] is a primitive binary64 float, with the hardware
      operations Python uses; decimal literals denote the nearest double,
      as they do in Python.
    - A transaction [dict] is a finite map from keys to Python values.
    - Lists that the Python code extends in place ([transactions]) are
      threaded through the functions and returned. *)

From Stdlib Require Import ZArith List String Ascii Bool Floats Lia.
From stdpp Require Import gmap strings.

Set Warnings "-inexact-float".

(** ** Characters and strings *)

Module Str.

Definition code (c : ascii) : N := N_of_ascii c.

Definition between (lo hi : N) (c : ascii) : bool :=
  (lo <=? code c)%N && (code c <=? hi)%N.

Definition is_digit : ascii -> bool := between 48 57.
Definition is_upper : ascii -> bool := between 65 90.
Definition is_lower : ascii -> bool := between 97 122.
Definition is_alpha (c : ascii) : bool := is_upper c || is_lower c.

(** [\w] *)
Definition is_word (c : ascii) : bool :=
  is_alpha c || is_digit c || (code c =? 95)%N.

(** [\s], and what [str.strip] removes: tab to carriage return, the four
    separators 28-31, and the space. *)
Definition is_space (c : ascii) : bool :=
  between 9 13 c || between 28 31 c || (code c =? 32)%N.

Definition lower_char (c : ascii) : ascii :=
  if is_upper c then ascii_of_N (code c + 32) else c.

Definition upper_char (c : ascii) : ascii :=
  if is_lower c then ascii_of_N (code c - 32) else c.

Fixpoint map_chars (f : ascii -> ascii) (s : string) : string :=
  match s with
  | EmptyString => EmptyString
  | String c s' => String (f c) (map_chars f s')
  end.

(** [s.lower()] and [s.upper()] *)
Definition lower : string -> string := map_chars lower_char.
Definition upper : string -> string := map_chars upper_char.

Definition is_empty (s : string) : bool :=
  match s with EmptyString => true | _ => false end.

Fixpoint starts_with (p s : string) : bool :=
  match p, s with
  | EmptyString, _ => true
  | String a p', String b s' => Ascii.eqb a b && starts_with p' s'
  | String _ _, EmptyString => false
  end.

(** [sub in s] *)
Fixpoint contains (sub s : string) : bool :=
  starts_with sub s ||
  match s with
  | EmptyString => false
  | String _ s' => contains sub s'
  end.

(** [any(kw in s for kw in kws)] *)
Definition contains_any (kws : list string) (s : string) : bool :=
  existsb (fun kw => contains kw s) kws.

Fixpoint drop (n : nat) (s : string) : string :=
  match n, s with
  | O, _ => s
  | S n', String _ s' => drop n' s'
  | S _, EmptyString => EmptyString
  end.

Fixpoint take (n : nat) (s : string) : string :=
  match n, s with
  | S n', String c s' => String c (take n' s')
  | _, _ => EmptyString
  end.

(** [s[i:j]] for [0 <= i <= j] *)
Definition slice (i j : nat) (s : string) : string := take (j - i) (drop i s).

Fixpoint lstrip (s : string) : string :=
  match s with
  | String c s' => if is_space c then lstrip s' else s
  | EmptyString => EmptyString
  end.

Fixpoint rstrip (s : string) : string :=
  match s with
  | EmptyString => EmptyString
  | String c s' =>
      let r := rstrip s' in
      if is_empty r && is_space c then EmptyString else String c r
  end.

(** [s.strip()] *)
Definition strip (s : string) : string := rstrip (lstrip s).

(** [s.lstrip(chars)] for a one-character [chars] *)
Fixpoint lstrip_char (x : ascii) (s : string) : string :=
  match s with
  | String c s' => if Ascii.eqb c x then lstrip_char x s' else s
  | EmptyString => EmptyString
  end.

(** [s.replace(old, new)] and [s.replace(old, new, 1)], for a non-empty
    [old] (every call in the parsers passes one).  [skip] counts the
    characters of the occurrence being replaced that are still to pass. *)
Fixpoint replace_from (old new : string) (skip : nat) (s : string) : string :=
  match s with
  | EmptyString => EmptyString
  | String c s' =>
      match skip with
      | S k => replace_from old new k s'
      | O =>
          if starts_with old s
          then new +:+ replace_from old new (String.length old - 1) s'
          else String c (replace_from old new 0 s')
      end
  end.

Definition replace (old new s : string) : string :=
  if is_empty old then s else replace_from old new 0 s.

Fixpoint replace_first (old new s : string) : string :=
  match s with
  | EmptyString => EmptyString
  | String c s' =>
      if is_empty old then s
      else if starts_with old s then new +:+ drop (String.length old) s
      else String c (replace_first old new s')
  end.

(** [s.split(sep)] for a one-character separator *)
Fixpoint split_char (sep : ascii) (s : string) : list string :=
  match s with
  | EmptyString => [EmptyString]
  | String c s' =>
      let rest := split_char sep s' in
      if Ascii.eqb c sep then EmptyString :: rest
      else match rest with
           | cur :: more => String c cur :: more
           | [] => [String c EmptyString]
           end
  end.

Definition newline : ascii := ascii_of_N 10.

(** [s.split('\n')] *)
Definition lines (s : string) : list string := split_char newline s.

(** [sep.join(parts)] *)
Fixpoint join (sep : string) (parts : list string) : string :=
  match parts with
  | [] => EmptyString
  | [p] => p
  | p :: rest => p +:+ sep +:+ join sep rest
  end.


(** Counting in characters.  A slice bound of Python counts characters,
    and the rupee sign is one character of three bytes: a byte in the
    range 128-191 continues the character begun before it. *)
Definition is_continuation (c : ascii) : bool := between 128 191 c.

(** [len(s)] *)
Fixpoint count_chars (s : string) : nat :=
  match s with
  | EmptyString => 0
  | String c s' => if is_continuation c then count_chars s' else S (count_chars s')
  end.

(** [s[:n]] *)
Fixpoint take_chars (n : nat) (s : string) : string :=
  match s with
  | EmptyString => EmptyString
  | String c s' =>
      if is_continuation c then String c (take_chars n s')
      else match n with
           | O => EmptyString
           | S n' => String c (take_chars n' s')
           end
  end.

(** [s[n:]] *)
Fixpoint drop_chars (n : nat) (s : string) : string :=
  match s with
  | EmptyString => EmptyString
  | String c s' =>
      if is_continuation c then drop_chars n s'
      else match n with
           | O => s
           | S n' => drop_chars n' s'
           end
  end.

(** [s[max(0, len(s) - n):]] *)
Definition last_chars (n : nat) (s : string) : string :=
  drop_chars (count_chars s - n) s.

End Str.

(** ** Python numbers

    [float] is binary64.  The two library routines the normaliser relies
    on, [float(str)] and [round(x, 2)], are correctly rounded in CPython;
    they are defined here through exact integer arithmetic and the
    correctly rounded division and normalisation of [SpecFloat]. *)

Module PyFloat.

Definition zero : float := 0%float.
Definition neg_zero : float := (-0)%float.

Definition with_sign (neg : bool) (x : float) : float :=
  if neg then PrimFloat.opp x else x.

(** The double nearest to [m * 10^e10] for [m >= 0] (ties to even), with
    the sign [neg]; [nd] bounds the number of decimal digits of [m]. *)
Definition of_decimal (neg : bool) (m : Z) (nd : Z) (e10 : Z) : float :=
  if (m =? 0)%Z then with_sign neg zero
  else if (310 <? e10)%Z then with_sign neg infinity
  else if (e10 + nd <? -330)%Z then with_sign neg zero
  else
    with_sign neg
      (SF2Prim
         (if (0 <=? e10)%Z
          then binary_normalize prec emax (m * 10 ^ e10) 0 false
          else SFdiv prec emax
                 (S754_finite false (Z.to_pos m) 0)
                 (S754_finite false (Z.to_pos (10 ^ (- e10))) 0))).

(** [float(n)] for an [int] *)
Definition of_Z (z : Z) : float :=
  with_sign (z <? 0)%Z
    (SF2Prim (binary_normalize prec emax (Z.abs z) 0 false)).

(** Nearest integer to [a / b] for [b > 0], ties to even. *)
Definition div_half_even (a b : Z) : Z :=
  let q := (a / b)%Z in
  let r := (a mod b)%Z in
  if (2 * r <? b)%Z then q
  else if (b <? 2 * r)%Z then (q + 1)%Z
  else if Z.even q then q else (q + 1)%Z.

(** [round(x, 2)]: NaN, the infinities and the zeros are returned as they
    are; a finite [x = m * 2^e] is rounded to the nearest multiple of 0.01
    (ties to even, on the exact value of [x]) and that decimal is
    converted back to the nearest double. *)
Definition round2 (x : float) : float :=
  match Prim2SF x with
  | S754_finite s m e =>
      let n := if (0 <=? e)%Z
               then (Z.pos m * 2 ^ e * 100)%Z
               else div_half_even (Z.pos m * 100) (2 ^ (- e)) in
      of_decimal s n 0 (-2)
  | _ => x
  end.

(** *** [float(s)] for a [str] *)

Definition digit_val (c : ascii) : Z := Z.of_N (Str.code c) - 48.

Fixpoint digits_val (acc : Z) (s : string) : Z :=
  match s with
  | EmptyString => acc
  | String c s' => digits_val (10 * acc + digit_val c) s'
  end.

Fixpoint all_digits (s : string) : bool :=
  match s with
  | EmptyString => true
  | String c s' => Str.is_digit c && all_digits s'
  end.

(** The leading run of digits and what follows it. *)
Fixpoint span_digits (s : string) : string * string :=
  match s with
  | String c s' =>
      if Str.is_digit c
      then let '(d, r) := span_digits s' in (String c d, r)
      else (EmptyString, s)
  | EmptyString => (EmptyString, EmptyString)
  end.

(** Underscores may only stand between two digits; they are dropped.
    [prev] tells whether the previous character was a digit. *)
Fixpoint drop_underscores (prev : bool) (s : string) : option string :=
  match s with
  | EmptyString => Some EmptyString
  | String c s' =>
      if (Str.code c =? 95)%N then
        match s' with
        | String d _ =>
            if prev && Str.is_digit d then drop_underscores false s' else None
        | EmptyString => None
        end
      else
        match drop_underscores (Str.is_digit c) s' with
        | Some r => Some (String c r)
        | None => None
        end
  end.

Definition split_sign (s : string) : bool * string :=
  match s with
  | String "-" s' => (true, s')
  | String "+" s' => (false, s')
  | _ => (false, s)
  end.

(** The exponent part: empty, or [e]/[E], an optional sign and digits. *)
Definition parse_exponent (s : string) : option Z :=
  match s with
  | EmptyString => Some 0%Z
  | String c s' =>
      if Ascii.eqb (Str.lower_char c) "e" then
        let '(neg, ds) := split_sign s' in
        if negb (Str.is_empty ds) && all_digits ds
        then Some (if neg then (- digits_val 0 ds)%Z else digits_val 0 ds)
        else None
      else None
  end.

Definition parse_number (neg : bool) (s : string) : option float :=
  let '(ip, r1) := span_digits s in
  let '(fp, r2) :=
    match r1 with
    | String "." r => span_digits r
    | _ => (EmptyString, r1)
    end in
  if Str.is_empty ip && Str.is_empty fp then None
  else
    match parse_exponent r2 with
    | Some ex =>
        let ds := ip +:+ fp in
        Some (of_decimal neg (digits_val 0 ds)
                (Z.of_nat (String.length ds))
                (ex - Z.of_nat (String.length fp)))
    | None => None
    end.

(** [float(s)]: [Some x] when Python returns [x], [None] when it raises
    [ValueError]. *)
Definition of_string (s : string) : option float :=
  match drop_underscores false (Str.strip s) with
  | None => None
  | Some t =>
      let '(neg, body) := split_sign t in
      let low := Str.lower body in
      if String.eqb low "inf" || String.eqb low "infinity"
      then Some (with_sign neg infinity)
      else if String.eqb low "nan" then Some nan
      else parse_number neg body
  end.


(** [round(x)] for a [float]: the nearest integer, ties to even; [None]
    where Python raises, on NaN and on the infinities. *)
Definition round_int (x : float) : option Z :=
  match Prim2SF x with
  | S754_zero _ => Some 0%Z
  | S754_finite s m e =>
      let n := if (0 <=? e)%Z then (Z.pos m * 2 ^ e)%Z
               else div_half_even (Z.pos m) (2 ^ (- e)) in
      Some (if s then (- n)%Z else n)
  | _ => None
  end.

End PyFloat.

(** ** Python values and transaction dictionaries *)

Inductive pyval : Type :=
| PNone
| PStr (s : string)
| PInt (z : Z)
| PFloat (f : float).

(** A transaction record is a [dict]; the parsers build it with the keys
    [date], [description], [debit], [credit], [balance] and [ledger], and
    the dispatcher adds [serial]. *)
Abbreviation transaction := (gmap string pyval).

Module Py.

(** [d.get(k, default)]; [d.get(k)] is [get d k PNone]. *)
Definition get (d : transaction) (k : string) (dflt : pyval) : pyval :=
  default dflt (d !! k).

Definition empty_str : pyval := PStr EmptyString.

(** [v == 0] *)
Definition eq_zero (v : pyval) : bool :=
  match v with
  | PInt z => (z =? 0)%Z
  | PFloat f => PrimFloat.eqb f PyFloat.zero
  | _ => false
  end.

(** [v == s] for a string [s] *)
Definition eq_str (s : string) (v : pyval) : bool :=
  match v with
  | PStr t => String.eqb t s
  | _ => false
  end.

Definition is_none (v : pyval) : bool :=
  match v with PNone => true | _ => false end.

(** Truth value of [v] in a condition. *)
Definition truthy (v : pyval) : bool :=
  match v with
  | PNone => false
  | PStr s => negb (Str.is_empty s)
  | PInt z => negb (z =? 0)%Z
  | PFloat f => negb (PrimFloat.eqb f PyFloat.zero)
  end.

(** The six-key record every parser appends. *)
Definition record (date description : string) (debit credit balance : pyval)
    (ledger : string) : transaction :=
  <["date" := PStr date]>
    (<["description" := PStr description]>
       (<["debit" := debit]>
          (<["credit" := credit]>
             (<["balance" := balance]>
                (<["ledger" := PStr ledger]> ∅))))).

(** [transactions[-1]['description'] += ' ' + extra] *)
Definition extend_description (extra : string) (t : transaction) : transaction :=
  match t !! "description" with
  | Some (PStr d) => <["description" := PStr (d +:+ " " +:+ extra)]> t
  | _ => t
  end.

Fixpoint extend_last (extra : string) (transactions : list transaction)
    : list transaction :=
  match transactions with
  | [] => []
  | [t] => [extend_description extra t]
  | t :: rest => t :: extend_last extra rest
  end.

Definition is_nil {A : Type} (l : list A) : bool :=
  match l with [] => true | _ => false end.

End Py.

(** ** [parsers/detector.py]: the normaliser *)

Module Normalizer.

(** The rupee sign, U+20B9, as its UTF-8 bytes. *)
Definition rupee : string :=
  String (ascii_of_N 226) (String (ascii_of_N 130) (String (ascii_of_N 185) EmptyString)).

(** [str(val).replace(',', '').replace('₹', '').replace('Rs.', '').strip()]
    on a string value. *)
Definition clean_amount (s : string) : string :=
  Str.strip
    (Str.replace "Rs." EmptyString
       (Str.replace rupee EmptyString (Str.replace "," EmptyString s))).

(** [_to_float].  For a [float] or an [int] the text [str(val)] holds no
    comma or currency mark and [float] reads it back: to the same float,
    and to the nearest double of the integer. *)
Definition _to_float (val : pyval) : float :=
  if Py.is_none val || Py.eq_str EmptyString val || Py.eq_zero val
  then PyFloat.zero
  else
    match val with
    | PNone => PyFloat.zero
    | PStr s => default PyFloat.zero (PyFloat.of_string (clean_amount s))
    | PInt z => PyFloat.of_Z z
    | PFloat f => f
    end.

(** [v in (None, '', '0', 0)] *)
Definition blank_balance (v : pyval) : bool :=
  Py.is_none v || Py.eq_str EmptyString v || Py.eq_str "0" v || Py.eq_zero v.

(** [has_balance]: some record's [balance] is outside that tuple. *)
Definition has_balance (transactions : list transaction) : bool :=
  existsb (fun t => negb (blank_balance (Py.get t "balance" PNone))) transactions.

(** One turn of the loop: [running = running - debit + credit]. *)
Definition step (running : float) (t : transaction) : float :=
  let debit := _to_float (Py.get t "debit" (PInt 0)) in
  let credit := _to_float (Py.get t "credit" (PInt 0)) in
  PrimFloat.add (PrimFloat.sub running debit) credit.

(** The loop of [_fill_running_balance], from the running total so far. *)
Fixpoint fill_from (running : float) (transactions : list transaction) : list transaction :=
  match transactions with
  | [] => []
  | t :: rest =>
      let running' := step running t in
      <["balance" := PFloat (PyFloat.round2 running')]> t :: fill_from running' rest
  end.

(** [_fill_running_balance]: the list after the call. *)
Definition _fill_running_balance (transactions : list transaction) : list transaction :=
  if has_balance transactions then transactions
  else fill_from PyFloat.zero transactions.

(** The running total after the given records. *)
Definition running_total (transactions : list transaction) : float :=
  fold_left step transactions PyFloat.zero.

End Normalizer.

(** ** Regular expressions

    The patterns of the parsers are written as terms of [regex] and run by
    a backtracking matcher with the choices of Python's [re]: alternatives
    left to right, greedy repetition, [^] at the start of the string, [$]
    at its end or before a final newline, [\b] between a word character
    and a non-word one. *)

Module Re.

Inductive regex : Type :=
| Eps
| Chr (p : ascii -> bool)
| Seq (a b : regex)
| Alt (a b : regex)
| Star (a : regex)
| Bol
| Eol
| WordB
| Group (n : nat) (a : regex).

(** *** Derived forms *)

Definition Plus (a : regex) : regex := Seq a (Star a).
Definition Opt (a : regex) : regex := Alt a Eps.

(** [a{n}] *)
Fixpoint Rep (n : nat) (a : regex) : regex :=
  match n with
  | O => Eps
  | S n' => Seq a (Rep n' a)
  end.

(** [a{0,n}] *)
Fixpoint UpTo (n : nat) (a : regex) : regex :=
  match n with
  | O => Eps
  | S n' => Opt (Seq a (UpTo n' a))
  end.

(** [a{m,n}] *)
Definition Range (m n : nat) (a : regex) : regex := Seq (Rep m a) (UpTo (n - m) a).

Fixpoint Seqs (l : list regex) : regex :=
  match l with
  | [] => Eps
  | [a] => a
  | a :: rest => Seq a (Seqs rest)
  end.

Fixpoint Alts (l : list regex) : regex :=
  match l with
  | [] => Chr (fun _ => false)
  | [a] => a
  | a :: rest => Alt a (Alts rest)
  end.

Definition char (c : ascii) : regex := Chr (Ascii.eqb c).

(** A character regardless of case ([re.I]). *)
Definition char_ci (c : ascii) : regex :=
  Chr (fun x => Ascii.eqb (Str.lower_char x) (Str.lower_char c)).

Fixpoint Lit (s : string) : regex :=
  match s with
  | EmptyString => Eps
  | String c EmptyString => char c
  | String c s' => Seq (char c) (Lit s')
  end.

Fixpoint LitCI (s : string) : regex :=
  match s with
  | EmptyString => Eps
  | String c EmptyString => char_ci c
  | String c s' => Seq (char_ci c) (LitCI s')
  end.

Fixpoint mem_char (c : ascii) (s : string) : bool :=
  match s with
  | EmptyString => false
  | String x s' => Ascii.eqb x c || mem_char c s'
  end.

(** [[...]] listing its characters *)
Definition OneOf (s : string) : regex := Chr (fun c => mem_char c s).

Definition digit : regex := Chr Str.is_digit.   (* \d *)
Definition word : regex := Chr Str.is_word.     (* \w *)
Definition space : regex := Chr Str.is_space.   (* \s *)
Definition nonspace : regex := Chr (fun c => negb (Str.is_space c)).  (* \S *)
Definition dot : regex := Chr (fun c => negb (Ascii.eqb c Str.newline)).

(** *** The matcher *)

(** Where the matcher stands: the text still to read, the character
    before it, its offset, and the groups closed so far (latest first). *)
Record mstate : Type := MState {
  rest : string;
  prev : option ascii;
  pos : nat;
  caps : list (nat * (nat * nat))
}.

Definition word_before (st : mstate) : bool :=
  match prev st with Some c => Str.is_word c | None => false end.

Definition word_after (st : mstate) : bool :=
  match rest st with String c _ => Str.is_word c | EmptyString => false end.

Definition at_end (st : mstate) : bool :=
  match rest st with
  | EmptyString => true
  | String c EmptyString => Ascii.eqb c Str.newline
  | _ => false
  end.

Section Matcher.
Context {A : Type}.

(** [run fuel r st k]: match [r] from [st], then go on with [k]; the first
    way that makes [k] succeed is taken.  [fuel] bounds the turns of a
    [Star]; each turn must read at least one character. *)
Fixpoint run (fuel : nat) : regex -> mstate -> (mstate -> option A) -> option A :=
  fix go (r : regex) (st : mstate) (k : mstate -> option A) {struct r} : option A :=
    match r with
    | Eps => k st
    | Chr p =>
        match rest st with
        | String c s' =>
            if p c then k (MState s' (Some c) (S (pos st)) (caps st)) else None
        | EmptyString => None
        end
    | Seq a b => go a st (fun st' => go b st' k)
    | Alt a b =>
        match go a st k with
        | Some x => Some x
        | None => go b st k
        end
    | Star a =>
        match fuel with
        | O => k st
        | S fuel' =>
            match go a st (fun st' =>
                    if (pos st' =? pos st)%nat then None
                    else run fuel' (Star a) st' k) with
            | Some x => Some x
            | None => k st
            end
        end
    | Bol => if (pos st =? 0)%nat then k st else None
    | Eol => if at_end st then k st else None
    | WordB => if xorb (word_before st) (word_after st) then k st else None
    | Group n a =>
        go a st (fun st' =>
          k (MState (rest st') (prev st') (pos st')
               ((n, (pos st, pos st')) :: caps st')))
    end.

End Matcher.

(** A match: its span and its groups. *)
Record rmatch : Type := RMatch {
  m_start : nat;
  m_end : nat;
  m_caps : list (nat * (nat * nat))
}.

(** Try [r] at one position; [advance] asks for a non-empty match. *)
Definition match_here (advance : bool) (r : regex) (s : string)
    (before : option ascii) (at_pos : nat) : option rmatch :=
  run (S (String.length s)) r (MState s before at_pos [])
    (fun st =>
       if advance && (pos st =? at_pos)%nat then None
       else Some (RMatch at_pos (pos st) (caps st))).

(** [re.match(r, s)] *)
Definition rmatch_start (r : regex) (s : string) : option rmatch :=
  match_here false r s None 0.

Fixpoint search_from (r : regex) (s : string) (before : option ascii)
    (at_pos : nat) : option rmatch :=
  match match_here false r s before at_pos with
  | Some m => Some m
  | None =>
      match s with
      | EmptyString => None
      | String c s' => search_from r s' (Some c) (S at_pos)
      end
  end.

(** [re.search(r, s)] *)
Definition search (r : regex) (s : string) : option rmatch :=
  search_from r s None 0.

(** The matches at one position: an empty match may be followed by a
    non-empty one that starts at the same place. *)
Definition matches_here (r : regex) (s : string) (before : option ascii)
    (at_pos : nat) : list rmatch :=
  match match_here false r s before at_pos with
  | None => []
  | Some m =>
      if (m_end m =? at_pos)%nat then
        match match_here true r s before at_pos with
        | Some m' => [m; m']
        | None => [m]
        end
      else [m]
  end.

Definition span_of (ms : list rmatch) (at_pos : nat) : nat :=
  fold_left (fun acc m => Nat.max acc (m_end m - at_pos)) ms 0.

(** The successive non-overlapping matches, left to right; [skip] counts
    the characters of the last match still to pass. *)
Fixpoint finditer_from (r : regex) (skip : nat) (s : string)
    (before : option ascii) (at_pos : nat) : list rmatch :=
  match skip with
  | S k =>
      match s with
      | EmptyString => []
      | String c s' => finditer_from r k s' (Some c) (S at_pos)
      end
  | O =>
      let here := matches_here r s before at_pos in
      here ++
      match s with
      | EmptyString => []
      | String c s' =>
          finditer_from r (span_of here at_pos - 1) s' (Some c) (S at_pos)
      end
  end.

(** [re.finditer(r, s)] *)
Definition finditer (r : regex) (s : string) : list rmatch :=
  finditer_from r 0 s None 0.

(** [m.group(n)] on the text [s] that was searched; [None] when the group
    took no part in the match. *)
Definition group (s : string) (m : rmatch) (n : nat) : option string :=
  match n with
  | O => Some (Str.slice (m_start m) (m_end m) s)
  | _ =>
      match List.find (fun c => (fst c =? n)%nat) (m_caps m) with
      | Some (_, (i, j)) => Some (Str.slice i j s)
      | None => None
      end
  end.

(** [m.group(n) or ''] *)
Definition group_or_empty (s : string) (m : rmatch) (n : nat) : string :=
  default EmptyString (group s m n).

(** [re.findall(r, s)] for a pattern with one group, and with none. *)
Definition findall1 (r : regex) (s : string) : list string :=
  map (fun m => group_or_empty s m 1) (finditer r s).

Definition findall0 (r : regex) (s : string) : list string :=
  map (fun m => group_or_empty s m 0) (finditer r s).

(** Rebuild [s] with [repl] in place of each match. *)
Fixpoint rebuild (repl : string) (ms : list rmatch) (skip : nat) (s : string)
    (at_pos : nat) : string :=
  let here := List.filter (fun m => (m_start m =? at_pos)%nat) ms in
  let out := Str.join EmptyString (map (fun _ => repl) here) in
  let skip' := Nat.max skip (span_of here at_pos) in
  match s with
  | EmptyString => out
  | String c s' =>
      out +:+
      match skip' with
      | O => String c (rebuild repl ms 0 s' (S at_pos))
      | S k => rebuild repl ms k s' (S at_pos)
      end
  end.

(** [re.sub(r, repl, s)] for a replacement text without group references *)
Definition sub (r : regex) (repl s : string) : string :=
  rebuild repl (finditer r s) 0 s 0.

(** [bool(re.match(r, s))] and [bool(re.search(r, s))] *)
Definition matches (r : regex) (s : string) : bool :=
  match rmatch_start r s with Some _ => true | None => false end.

Definition found (r : regex) (s : string) : bool :=
  match search r s with Some _ => true | None => false end.

End Re.

(** ** [parsers/detector.py]: format detection and dispatch *)

(** The labels [detect_bank_type] returns. *)
Inductive bank_type : Type :=
| sbi_bank | sbi_credit | hdfc_bank | hdfc_credit | yes_bank | yes_credit
| rbl_bank | rbl_credit | indusind_credit | one_credit | standard_bank
| unknown.

(** What a call does: raise an exception (kept as its message) or return. *)
Inductive outcome (A : Type) : Type :=
| Raises (msg : string)
| Returns (a : A).
Arguments Raises {A} msg.
Arguments Returns {A} a.

Module Detector.

(** [kw in s], written in the order of the source. *)
Definition has (s kw : string) : bool := Str.contains kw s.

(** [first_page_text or text] *)
Definition or_text (first_page_text : option string) (text : string) : string :=
  match first_page_text with
  | Some fp => if Str.is_empty fp then text else fp
  | None => text
  end.

(** Tier 1: credit card statements. *)
Definition tier1 (text_lower fp_lower : string) : option bank_type :=
  if has text_lower "one credit card" then Some one_credit
  else if has fp_lower "indusind"
          && (has fp_lower "credit card" || has fp_lower "indusind bank")
          && (has fp_lower "previous balance" || has fp_lower "card statement"
              || has fp_lower "purchases")
  then Some indusind_credit
  else if has fp_lower "credit card statement" && has fp_lower "yes bank"
  then Some yes_credit
  else if has fp_lower "yes bank" && has fp_lower "card number"
          && has fp_lower "credit limit"
  then Some yes_credit
  else if has fp_lower "sbi card"
          && (has fp_lower "credit limit" || has fp_lower "stmt no")
  then Some sbi_credit
  else if (has fp_lower "xxxx xxxx xxxx" || has fp_lower "stmt no")
          && has fp_lower "sbi" && has fp_lower "credit limit"
  then Some sbi_credit
  else if has fp_lower "neucoins" || has fp_lower "tata neu"
  then Some hdfc_credit
  else if has fp_lower "hdfc bank credit card"
          || (has fp_lower "hdfc" && has fp_lower "credit card"
              && (has fp_lower "card no" || has fp_lower "statement date"))
  then Some hdfc_credit
  else if has fp_lower "rbl bank"
          && (has fp_lower "credit limit" || has fp_lower "min. amt"
              || has fp_lower "the month gone by" || has fp_lower "account summary")
  then Some rbl_credit
  else None.

(** [\b([A-Z]{4}0[A-Z0-9]{6})\b] *)
Definition ifsc_re : Re.regex :=
  Re.Seqs
    [Re.WordB;
     Re.Group 1
       (Re.Seqs [Re.Rep 4 (Re.Chr Str.is_upper);
                 Re.char "0";
                 Re.Rep 6 (Re.Chr (fun c => Str.is_upper c || Str.is_digit c))]);
     Re.WordB].

(** [ifsc_prefix]: the first four letters of the first code found, or ['']. *)
Definition ifsc_prefix (source : string) : string :=
  match Re.findall1 ifsc_re source with
  | code :: _ => Str.upper (Str.take 4 code)
  | [] => EmptyString
  end.

Definition ifsc_bank_map (prefix : string) : option bank_type :=
  if String.eqb prefix "SBIN" then Some sbi_bank
  else if String.eqb prefix "YESB" then Some yes_bank
  else if String.eqb prefix "SCBL" then Some standard_bank
  else if String.eqb prefix "HDFC" then Some hdfc_bank
  else if String.eqb prefix "RATN" then Some rbl_bank
  else if String.eqb prefix "INDB" then Some indusind_credit
  else None.

Definition is_hdfc_bank (b : bank_type) : bool :=
  match b with hdfc_bank => true | _ => false end.

(** Tier 2: the IFSC code of the first page. *)
Definition tier2 (source fp_lower : string) : option bank_type :=
  match ifsc_bank_map (ifsc_prefix source) with
  | Some bank =>
      if is_hdfc_bank bank && has fp_lower "credit card" && has fp_lower "credit limit"
      then Some hdfc_credit
      else Some bank
  | None => None
  end.

(** Tier 3: keyword fallback. *)
Definition tier3 (fp_lower : string) : bank_type :=
  if (has fp_lower "state bank" || has fp_lower "sbin")
     && (has fp_lower "account statement" || has fp_lower "txn date"
         || has fp_lower "regular sb")
  then sbi_bank
  else if has fp_lower "hdfc"
          && (has fp_lower "account statement" || has fp_lower "savings"
              || has fp_lower "current account")
  then hdfc_bank
  else if (has fp_lower "yes bank" || has fp_lower "yesb")
          && (has fp_lower "saving"
              || has fp_lower "transaction details for your account"
              || has fp_lower "statement of account")
  then yes_bank
  else if has fp_lower "rbl bank" && has fp_lower "account" then rbl_bank
  else if has fp_lower "standard chartered" then standard_bank
  else if has fp_lower "sbi" && has fp_lower "credit limit" then sbi_credit
  else if has fp_lower "hdfc" then hdfc_bank
  else if has fp_lower "yes bank" then yes_bank
  else unknown.

(** [detect_bank_type(text, first_page_text)] *)
Definition detect_bank_type (text : string) (first_page_text : option string)
    : bank_type :=
  let text_lower := Str.lower text in
  let fp_lower := Str.lower (or_text first_page_text text) in
  match tier1 text_lower fp_lower with
  | Some label => label
  | None =>
      match tier2 (or_text first_page_text text) fp_lower with
      | Some label => label
      | None => tier3 fp_lower
      end
  end.

(** The value [detect_and_parse] returns on success. *)
Record parsed : Type := Parsed {
  bank_label : string;
  transactions : list transaction;
  account_info : string
}.

(** [for i, txn in enumerate(transactions): txn['serial'] = i + 1] *)
Fixpoint assign_serials (i : Z) (txns : list transaction) : list transaction :=
  match txns with
  | [] => []
  | t :: rest => <["serial" := PInt (i + 1)]> t :: assign_serials (i + 1) rest
  end.

Section Dispatch.

(** The PDF reader and the format parsers stand outside this module: a
    file opens to its pages or raises, a page gives its text (possibly
    [None]) or raises, and each format's parser returns its records or
    raises. *)
Variable file : Type.
Variable page : Type.
Variable open_pdf : file -> outcome (list page).
Variable extract_text : page -> outcome (option string).
Variable parser_func : bank_type -> file -> outcome (list transaction).

(** The loop over [pdf.pages[:3]]: the texts joined with newlines, and
    the text of the first page. *)
Fixpoint read_pages (i : nat) (pages : list page) (full_text first_page_text : string)
    : outcome (string * string) :=
  match pages with
  | [] => Returns (full_text, first_page_text)
  | p :: rest =>
      match extract_text p with
      | Raises e => Raises e
      | Returns t =>
          let page_text := default EmptyString t in
          read_pages (S i) rest
            (full_text +:+ page_text +:+ String Str.newline EmptyString)
            (if (i =? 0)%nat then page_text else first_page_text)
      end
  end.

(** The [try] block. *)
Definition sample_text (f : file) : outcome (string * string) :=
  match open_pdf f with
  | Raises e => Raises e
  | Returns pages => read_pages 0 (firstn 3 pages) EmptyString EmptyString
  end.

Definition password_message : string :=
  "This PDF is password-protected. Please provide the password.".

Definition parser_map (b : bank_type) : option (string * (file -> outcome (list transaction))) :=
  match b with
  | sbi_bank => Some ("SBI Bank", parser_func sbi_bank)
  | sbi_credit => Some ("SBI Credit Card", parser_func sbi_credit)
  | hdfc_bank => Some ("HDFC Bank", parser_func hdfc_bank)
  | hdfc_credit => Some ("HDFC Credit Card", parser_func hdfc_credit)
  | yes_bank => Some ("Yes Bank", parser_func yes_bank)
  | yes_credit => Some ("Yes Credit Card", parser_func yes_credit)
  | rbl_bank => Some ("RBL Bank", parser_func rbl_bank)
  | rbl_credit => Some ("RBL Credit Card", parser_func rbl_credit)
  | indusind_credit => Some ("IndusInd Credit Card", parser_func indusind_credit)
  | one_credit => Some ("One Credit Card", parser_func one_credit)
  | standard_bank => Some ("Standard Chartered Bank", parser_func standard_bank)
  | unknown => None
  end.

(** [detect_and_parse(filepath, password)]; [None] is the no-match value.
    The [print] of the detected label is not modelled. *)
Definition detect_and_parse (f : file) : outcome (option parsed) :=
  match sample_text f with
  | Raises e =>
      if has (Str.lower e) "password" || has (Str.lower e) "encrypted"
      then Raises password_message
      else Raises e
  | Returns (full_text, first_page_text) =>
      if Str.is_empty (Str.strip full_text) then Returns None
      else
        let bank := detect_bank_type full_text (Some first_page_text) in
        match parser_map bank with
        | None => Returns None
        | Some (label, parse) =>
            match parse f with
            | Raises e => Raises e
            | Returns txns =>
                match txns with
                | [] => Returns None
                | _ =>
                    Returns (Some
                      (Parsed label
                         (Normalizer._fill_running_balance (assign_serials 0 txns))
                         EmptyString))
                end
            end
        end
  end.

End Dispatch.

Arguments read_pages {page} extract_text i pages full_text first_page_text.
Arguments sample_text {file page} open_pdf extract_text f.
Arguments parser_map {file} parser_func b.
Arguments detect_and_parse {file page} open_pdf extract_text parser_func f.

End Detector.

(** ** Pattern pieces several parsers write alike *)

Module Pat.

(** [\d{1,2}/\d{1,2}/\d{4}] *)
Definition date_slash : Re.regex :=
  Re.Seqs [Re.Range 1 2 Re.digit; Re.char "/"; Re.Range 1 2 Re.digit; Re.char "/";
           Re.Rep 4 Re.digit].

(** [\d{1,2}\s+\w{3}\s+\d{4}] *)
Definition date_month : Re.regex :=
  Re.Seqs [Re.Range 1 2 Re.digit; Re.Plus Re.space; Re.Rep 3 Re.word;
           Re.Plus Re.space; Re.Rep 4 Re.digit].

(** [[\d,]+\.\d{2}] *)
Definition amount : Re.regex :=
  Re.Seqs [Re.Plus (Re.Chr (fun c => Str.is_digit c || Ascii.eqb c ","));
           Re.char "."; Re.Rep 2 Re.digit].

(** [re.sub(r'\s+', ' ', s)] *)
Definition collapse_spaces (s : string) : string :=
  Re.sub (Re.Plus Re.space) " " s.

(** [s.split(sep)[-1]] for a non-empty [sep]: what follows the last
    occurrence met when reading left to right. *)
Fixpoint split_from (sep : string) (skip : nat) (s : string) : list string :=
  match s with
  | EmptyString => [EmptyString]
  | String c s' =>
      match skip with
      | S k => split_from sep k s'
      | O =>
          if Str.starts_with sep s
          then EmptyString :: split_from sep (String.length sep - 1) s'
          else match split_from sep 0 s' with
               | p :: ps => String c p :: ps
               | [] => [String c EmptyString]
               end
      end
  end.

Definition last_piece (sep s : string) : string :=
  List.last (split_from sep 0 s) EmptyString.

End Pat.

(** ** [parsers/sbi_credit.py] *)

(** The open candidate of the credit-card parsers that read a trailing
    amount with an optional Dr/Cr mark. *)
Record candidate : Type := Candidate {
  c_date : string;
  c_description : string;
  c_amount : string;
  c_dr_cr : string
}.

(** ** What the credit-card parsers write alike *)

Module CardLine.

(** The opening of a candidate, written alike in [yes_credit],
    [rbl_credit] and [indusind_credit]: the date is group 1 of the date
    match, the amount and its Dr/Cr mark are cut from the end of what
    follows the date, and the rest is the description. *)
Definition dated_candidate (amount_pattern : Re.regex) (line : string)
    (date_match : Re.rmatch) : candidate :=
  let date_str := Re.group_or_empty line date_match 1 in
  let rest := Str.strip (Str.drop (Re.m_end date_match) line) in
  match Re.search amount_pattern rest with
  | Some amt_match =>
      Candidate date_str (Str.strip (Str.take (Re.m_start amt_match) rest))
        (Re.group_or_empty rest amt_match 1)
        (Str.upper (Re.group_or_empty rest amt_match 2))
  | None => Candidate date_str rest EmptyString EmptyString
  end.

(** A later line gives the candidate its amount: the amount, the mark,
    and the text before the amount as more description. *)
Definition take_amount (c : candidate) (line : string) (amt_match : Re.rmatch)
    : candidate :=
  let desc_part := Str.strip (Str.take (Re.m_start amt_match) line) in
  Candidate (c_date c)
    (if Str.is_empty desc_part then c_description c
     else c_description c +:+ " " +:+ desc_part)
    (Re.group_or_empty line amt_match 1)
    (Str.upper (Re.group_or_empty line amt_match 2)).

(** [description += ' ' + line] *)
Definition more_description (c : candidate) (line : string) : candidate :=
  Candidate (c_date c) (c_description c +:+ " " +:+ line) (c_amount c) (c_dr_cr c).

End CardLine.

Module SbiCredit.

Definition _determine_ledger (description : string) : string :=
  let desc := Str.upper description in
  if Str.contains_any ["ZOMATO"; "SWIGGY"; "FOOD"; "RESTAURANT"; "CAFE"; "PIZZA";
                       "BURGER"; "DOMINOS"; "STARBUCKS"; "TACO"; "BARBEQUE"] desc
  then "Food & Dining"
  else if Str.contains_any ["AMAZON"; "FLIPKART"; "MYNTRA"; "AJIO"; "MEESHO"] desc
  then "Shopping Online"
  else if Str.contains_any ["NETFLIX"; "SPOTIFY"; "HOTSTAR"; "PRIME VIDEO"; "YOUTUBE"] desc
  then "Entertainment"
  else if Str.contains_any ["PETROL"; "DIESEL"; "FUEL"; "PETROLEUM"; "HP "; "BPCL"; "IOCL";
                            "AUTO FILLS"; "OIL"; "BHARAT PETRO"] desc
  then "Fuel"
  else if Str.contains_any ["AIRTEL"; "JIO"; "VODAFONE"; "RECHARGE"; "ELECTRICITY"; "WATER";
                            "GAS"; "BROADBAND"; "BILL PAY"] desc
  then "Utilities"
  else if Str.contains_any ["HOSPITAL"; "MEDICAL"; "PHARMACY"; "CHEMIST"; "DOCTOR";
                            "HEALTH"; "APOLLO"; "FORTIS"; "MEDIC"] desc
  then "Medical"
  else if Str.contains_any ["UBER"; "OLA"; "RAPIDO"; "IRCTC"; "MAKEMYTRIP"; "YATRA";
                            "AIRLINES"; "FLIGHT"; "TRAIN"; "CAB"; "TRAVEL"] desc
  then "Travel"
  else if Str.contains_any ["GROCERY"; "BIGBASKET"; "BLINKIT"; "ZEPTO"; "DMART";
                            "SUPERMARKET"; "GROFERS"; "NATURE"; "BASKET"] desc
  then "Groceries"
  else if Str.contains_any ["EMI"; "LOAN"] desc then "EMI/Loan"
  else if Str.contains_any ["INSURANCE"; "LIC"; "POLICY"] desc then "Insurance"
  else if Str.contains_any ["PAYMENT RECEIVED"; "PAYMENT"; "REVERSAL"; "REFUND"] desc
  then "Payment/Refund"
  else if Str.contains_any ["FEE"; "CHARGE"; "ANNUAL"; "SURCHARGE"; "GST"; "TAX";
                            "SERVICE TAX"] desc
  then "Fees & Charges"
  else if Str.contains_any ["APPAREL"; "CLOTHING"; "FASHION"; "MARKS AND SPENCER";
                            "H AND M"; "ZARA"; "BATA"; "JOCKEY"; "LEVI"] desc
  then "Clothing"
  else "General".

(** [\s*-\s*Ref\s*No\s*:\s*\S+], ignoring case *)
Definition ref_no_re : Re.regex :=
  Re.Seqs [Re.Star Re.space; Re.char "-"; Re.Star Re.space; Re.LitCI "Ref";
           Re.Star Re.space; Re.LitCI "No"; Re.Star Re.space; Re.char ":";
           Re.Star Re.space; Re.Plus Re.nonspace].

Definition clean_description (description : string) : string :=
  Re.sub ref_no_re EmptyString (Str.strip (Pat.collapse_spaces description)).

(** The test that makes the record a credit. *)
Definition is_credit (dr desc : string) : bool :=
  String.eqb dr "CR" || String.eqb dr "C"
  || Str.contains "PAYMENT RECEIVED" (Str.upper desc)
  || Str.contains "REVERSAL" (Str.upper desc)
  || Str.contains "REFUND" (Str.upper desc).

(** [_finalize_sbi_credit_txn(txn, transactions)]: the list afterwards. *)
Definition _finalize_sbi_credit_txn (txn : candidate) (transactions : list transaction)
    : list transaction :=
  if Str.is_empty (c_amount txn) || Str.is_empty (c_date txn) then transactions
  else
    match PyFloat.of_string (Str.replace "," EmptyString (c_amount txn)) with
    | None => transactions
    | Some amount_float =>
        let desc := clean_description (c_description txn) in
        let '(debit, credit) :=
          if is_credit (c_dr_cr txn) desc
          then (Py.empty_str, PFloat amount_float)
          else (PFloat amount_float, Py.empty_str) in
        if PrimFloat.eqb amount_float PyFloat.zero then transactions
        else
          transactions ++
          [Py.record (c_date txn) desc debit credit Py.empty_str
             (_determine_ledger desc)]
    end.

(** [^(\d{1,2}/\d{1,2}/\d{4}|\d{1,2}\s+\w{3}\s+\d{4}|\d{1,2}\s\w{3}\s\d{2})] *)
Definition date_pattern : Re.regex :=
  Re.Seq Re.Bol
    (Re.Group 1
       (Re.Alts [Pat.date_slash; Pat.date_month;
                 Re.Seqs [Re.Range 1 2 Re.digit; Re.space; Re.Rep 3 Re.word;
                          Re.space; Re.Rep 2 Re.digit]])).

(** [([\d,]+\.\d{2})\s*(Dr|Cr|DR|CR|D|C)?\.?\s*$] *)
Definition amount_pattern : Re.regex :=
  Re.Seqs [Re.Group 1 Pat.amount; Re.Star Re.space;
           Re.Opt (Re.Group 2 (Re.Alts [Re.Lit "Dr"; Re.Lit "Cr"; Re.Lit "DR";
                                        Re.Lit "CR"; Re.Lit "D"; Re.Lit "C"]));
           Re.Opt (Re.char "."); Re.Star Re.space; Re.Eol].

Definition section_end_keywords : list string :=
  ["account summary"; "statement summary"; "payment due"; "credit limit";
   "available credit"; "shop & smile"; "reward"; "points expiry"; "gstin";
   "hsn code"; "important information"; "useful links"; "page "].

(** The loop state of [_process_sbi_credit_text]. *)
Record scan : Type := Scan {
  in_transaction_section : bool;
  current_txn : option candidate;
  emitted : list transaction
}.

(** [s.isdigit()] *)
Definition isdigit (s : string) : bool :=
  negb (Str.is_empty s) && PyFloat.all_digits s.

(** A line that starts with a date: close the open candidate, open a new one. *)
Definition open_candidate (st : scan) (line : string) (date_match : Re.rmatch) : scan :=
  let out :=
    match current_txn st with
    | Some c => _finalize_sbi_credit_txn c (emitted st)
    | None => emitted st
    end in
  let date_str := Re.group_or_empty line date_match 1 in
  let rest := Str.strip (Str.drop (Re.m_end date_match) line) in
  let '(amount, dr_cr, rest) :=
    match Re.search amount_pattern rest with
    | Some amt_match =>
        (Re.group_or_empty rest amt_match 1,
         Str.upper (Re.group_or_empty rest amt_match 2),
         Str.strip (Str.take (Re.m_start amt_match) rest))
    | None => (EmptyString, EmptyString, rest)
    end in
  Scan true (Some (Candidate date_str rest amount dr_cr)) out.

(** A line without a date while a candidate is open. *)
Definition continue_candidate (c : candidate) (line : string) : candidate :=
  match Re.search amount_pattern line with
  | Some amt_match =>
      if Str.is_empty (c_amount c) then
        let desc_part := Str.strip (Str.take (Re.m_start amt_match) line) in
        Candidate (c_date c)
          (if Str.is_empty desc_part then c_description c
           else c_description c +:+ " " +:+ desc_part)
          (Re.group_or_empty line amt_match 1)
          (Str.upper (Re.group_or_empty line amt_match 2))
      else c
  | None =>
      if negb (isdigit (Str.replace "-" EmptyString (Str.replace " " EmptyString line)))
         && negb (Str.starts_with "ref no" (Str.lower line))
      then Candidate (c_date c) (c_description c +:+ " " +:+ line) (c_amount c) (c_dr_cr c)
      else c
  end.

(** One turn of the loop over the lines. *)
Definition scan_line (st : scan) (raw_line : string) : scan :=
  let line := Str.strip raw_line in
  if Str.is_empty line then st
  else
    let lower := Str.lower line in
    if Str.contains "transaction details" lower
       || Str.contains "domestic transaction" lower
       || Str.contains "international transaction" lower
    then Scan true (current_txn st) (emitted st)
    else if Str.contains_any section_end_keywords lower then
      if Str.contains "page " lower then st
      else Scan false (current_txn st) (emitted st)
    else
      let in_section :=
        in_transaction_section st
        || (Re.matches date_pattern line && Re.found amount_pattern line) in
      if negb in_section then st
      else
        let st := Scan in_section (current_txn st) (emitted st) in
        match Re.rmatch_start date_pattern line with
        | Some date_match => open_candidate st line date_match
        | None =>
            match current_txn st with
            | Some c => Scan in_section (Some (continue_candidate c line)) (emitted st)
            | None => st
            end
        end.

(** [_process_sbi_credit_text(text, transactions)]: the list afterwards. *)
Definition _process_sbi_credit_text (text : string) (transactions : list transaction)
    : list transaction :=
  let st := fold_left scan_line (Str.lines text) (Scan false None transactions) in
  match current_txn st with
  | Some c => _finalize_sbi_credit_txn c (emitted st)
  | None => emitted st
  end.


(** [parse_sbi_credit], given the text of each page ([None]: the page has
    none). *)
Definition parse_sbi_credit (pages : list (option string)) : list transaction :=
  fold_left
    (fun transactions text =>
       _process_sbi_credit_text (default EmptyString text) transactions)
    pages [].

End SbiCredit.

(** ** [parsers/hdfc_credit.py] *)

(** Its candidate carries the amount as a number and the sign read from
    the line. *)
Record hdfc_candidate : Type := HdfcCandidate {
  h_date : string;
  h_description : string;
  h_amount : float;
  h_is_credit : bool
}.

Module HdfcCredit.

Definition _determine_ledger (description : string) : string :=
  let desc := Str.upper description in
  if Str.contains_any ["ZOMATO"; "SWIGGY"; "FOOD"; "RESTAURANT"; "STARBUCKS"; "TACO";
                       "BARBEQUE"; "MCDONALDS"; "KFC"; "CAFE"; "DOMINOS"; "PIZZA"] desc
  then "Food & Dining"
  else if Str.contains_any ["PETROL"; "DIESEL"; "FUEL"; "AUTO FILLS"; "HP "; "BPCL"] desc
  then "Fuel"
  else if Str.contains_any ["AMAZON"; "FLIPKART"; "MYNTRA"; "AJIO"] desc
  then "Shopping Online"
  else if Str.contains_any ["NETFLIX"; "SPOTIFY"; "HOTSTAR"] desc then "Entertainment"
  else if Str.contains_any ["BLINKIT"; "ZEPTO"; "BIGBASKET"; "GROCERY"; "DMART"] desc
  then "Groceries"
  else if Str.contains_any ["H AND M"; "ZARA"; "BATA"; "JOCKEY"; "MARKS AND SPENCER";
                            "CLOTHING"; "APPAREL"; "INDIVINITY"; "BANGLES"] desc
  then "Clothing & Accessories"
  else if Str.contains_any ["FITNESS"; "GYM"] desc then "Health & Fitness"
  else if Str.contains_any ["SURCHARGE WAIVER"; "REVERSAL"; "REFUND"] desc
  then "Adjustment"
  else "General".

(** [\s*l\s*$] and [^\+\s*] *)
Definition trailing_l_re : Re.regex :=
  Re.Seqs [Re.Star Re.space; Re.char "l"; Re.Star Re.space; Re.Eol].

Definition leading_plus_re : Re.regex :=
  Re.Seqs [Re.Bol; Re.char "+"; Re.Star Re.space].

Definition clean_description (description : string) : string :=
  Re.sub leading_plus_re EmptyString
    (Re.sub trailing_l_re EmptyString
       (Str.strip (Pat.collapse_spaces description))).

(** The keyword tests that set [is_credit]. *)
Definition credit_keyword (desc : string) : bool :=
  Str.contains "SURCHARGE WAIVER" (Str.upper desc)
  || Str.contains "REVERSAL" (Str.upper desc)
  || Str.contains "REFUND" (Str.upper desc)
  || (Str.contains "PAYMENT" (Str.upper desc) && Str.contains "RECEIVED" (Str.upper desc)).

(** [_finalize_hdfc_credit_txn(txn, transactions)] *)
Definition _finalize_hdfc_credit_txn (txn : hdfc_candidate)
    (transactions : list transaction) : list transaction :=
  let amount := h_amount txn in
  if PrimFloat.eqb amount PyFloat.zero then transactions
  else
    let desc := clean_description (h_description txn) in
    if Str.is_empty desc then transactions
    else
      let is_credit := h_is_credit txn || credit_keyword desc in
      let '(debit, credit) :=
        if is_credit then (Py.empty_str, PFloat amount)
        else (PFloat amount, Py.empty_str) in
      transactions ++
      [Py.record (h_date txn) desc debit credit Py.empty_str (_determine_ledger desc)].


(** [^(\d{1,2}/\d{1,2}/\d{4})\s*\|?\s*(\d{1,2}:\d{2})?] *)
Definition date_pattern : Re.regex :=
  Re.Seqs [Re.Bol; Re.Group 1 Pat.date_slash; Re.Star Re.space; Re.Opt (Re.char "|");
           Re.Star Re.space;
           Re.Opt (Re.Group 2 (Re.Seqs [Re.Range 1 2 Re.digit; Re.char ":";
                                        Re.Rep 2 Re.digit]))].

(** [[₹C]]: the rupee sign or the letter C *)
Definition currency_mark : Re.regex :=
  Re.Alt (Re.Lit Normalizer.rupee) (Re.char "C").

(** [[₹C]?\s*([\d,]+\.\d{2})] *)
Definition amount_pattern : Re.regex :=
  Re.Seqs [Re.Opt currency_mark; Re.Star Re.space; Re.Group 1 Pat.amount].

(** [[+\-]?\s*[₹C]\s*([\d,]+\.\d{2})] *)
Definition signed_amount_re : Re.regex :=
  Re.Seqs [Re.Opt (Re.OneOf "+-"); Re.Star Re.space; currency_mark; Re.Star Re.space;
           Re.Group 1 Pat.amount].

(** [[+\-]?\s*\d+\s*$] and [^[+\-]?\s*\d+\s*$] *)
Definition neucoins_tail_re : Re.regex :=
  Re.Seqs [Re.Opt (Re.OneOf "+-"); Re.Star Re.space; Re.Plus Re.digit; Re.Star Re.space;
           Re.Eol].

Definition neucoins_only_re : Re.regex := Re.Seq Re.Bol neucoins_tail_re.

(** [[₹C+\-l]\s*$] *)
Definition tail_mark_re : Re.regex :=
  Re.Seqs [Re.Alt (Re.Lit Normalizer.rupee) (Re.OneOf "C+-l"); Re.Star Re.space; Re.Eol].

Definition section_end_keywords : list string :=
  ["important information"; "useful links"; "note:"; "benefits on your card";
   "offers on your card"; "how to read gst"].

(** [float(a.replace(',', ''))] for a text the amount pattern matched; such
    a text always reads as a number. *)
Definition amount_value (a : string) : float :=
  default PyFloat.zero (PyFloat.of_string (Str.replace "," EmptyString a)).

(** The loop state of [_process_hdfc_credit_text]. *)
Record scan : Type := Scan {
  in_transactions : bool;
  current_txn : option hdfc_candidate;
  emitted : list transaction
}.

(** [if current_txn: _finalize_hdfc_credit_txn(current_txn, transactions)] *)
Definition flush (st : scan) : list transaction :=
  match current_txn st with
  | Some c => _finalize_hdfc_credit_txn c (emitted st)
  | None => emitted st
  end.

(** The candidate a dated line opens.  With an amount that carries its
    currency mark, the sign is looked for in the five characters before
    the last such amount; without one, the plain amounts are cut from the
    text and the sign is looked for in the first twenty characters of the
    line. *)
Definition dated_line (line : string) (date_match : Re.rmatch) : hdfc_candidate :=
  let date_str := Re.group_or_empty line date_match 1 in
  let rest := Str.strip (Str.drop (Re.m_end date_match) line) in
  let rest := Str.strip (Str.lstrip_char "|" rest) in
  match Re.finditer signed_amount_re rest with
  | first_amt :: more =>
      let last_amt := List.last more first_amt in
      let is_credit :=
        Str.contains "+" (Str.last_chars 5 (Str.take (Re.m_start last_amt) rest)) in
      let desc := Str.strip (Str.take (Re.m_start first_amt) rest) in
      let desc := Str.strip (Re.sub neucoins_tail_re EmptyString desc) in
      HdfcCandidate date_str desc (amount_value (Re.group_or_empty rest last_amt 1))
        is_credit
  | [] =>
      let plain_amounts := Re.findall1 amount_pattern rest in
      let desc :=
        fold_left (fun d a => Str.strip (Str.replace a EmptyString d)) plain_amounts rest in
      let desc := Str.strip (Re.sub tail_mark_re EmptyString desc) in
      let desc := Str.strip (Pat.collapse_spaces desc) in
      match plain_amounts with
      | [] => HdfcCandidate date_str desc PyFloat.zero false
      | a :: more =>
          HdfcCandidate date_str desc (amount_value (List.last more a))
            (Str.contains "+" (Str.take_chars 20 line))
      end
  end.

(** A line without a date while a candidate is open. *)
Definition continuation (c : hdfc_candidate) (line : string) : hdfc_candidate :=
  if Str.contains_any ["page "; "note:"; "neucoins"] (Str.lower line) then c
  else
    let described :=
      if negb (Re.matches neucoins_only_re line)
      then HdfcCandidate (h_date c) (h_description c +:+ " " +:+ line) (h_amount c)
             (h_is_credit c)
      else c in
    match Re.finditer signed_amount_re line with
    | first_amt :: more =>
        if PrimFloat.eqb (h_amount c) PyFloat.zero then
          let last_amt := List.last more first_amt in
          let desc_part := Str.strip (Str.take (Re.m_start first_amt) line) in
          HdfcCandidate (h_date c)
            (if Str.is_empty desc_part then h_description c
             else h_description c +:+ " " +:+ desc_part)
            (amount_value (Re.group_or_empty line last_amt 1))
            (Str.contains "+" (Str.take_chars 10 line))
        else described
    | [] => described
    end.

(** One turn of the loop over the lines. *)
Definition scan_line (st : scan) (raw_line : string) : scan :=
  let line := Str.strip raw_line in
  if Str.is_empty line then st
  else
    let lower := Str.lower line in
    if Str.contains "domestic transaction" lower
       || Str.contains "international transaction" lower
    then Scan true (current_txn st) (emitted st)
    else if Str.contains_any section_end_keywords lower
    then Scan false (current_txn st) (emitted st)
    else if Str.contains "date & time" lower
            || Str.contains "transaction description" lower
    then st
    else if negb (in_transactions st) then st
    else
      match Re.rmatch_start date_pattern line with
      | Some date_match => Scan true (Some (dated_line line date_match)) (flush st)
      | None =>
          match current_txn st with
          | Some c => Scan true (Some (continuation c line)) (emitted st)
          | None => st
          end
      end.

(** [_process_hdfc_credit_text(text, transactions)]: the list afterwards. *)
Definition _process_hdfc_credit_text (text : string) (transactions : list transaction)
    : list transaction :=
  flush (fold_left scan_line (Str.lines text) (Scan false None transactions)).

(** [parse_hdfc_credit], given the text of each page. *)
Definition parse_hdfc_credit (pages : list (option string)) : list transaction :=
  fold_left
    (fun transactions text =>
       _process_hdfc_credit_text (default EmptyString text) transactions)
    pages [].

End HdfcCredit.

(** ** [parsers/yes_credit.py] *)

Module YesCredit.

Definition _determine_ledger (description : string) : string :=
  let desc := Str.upper description in
  if Str.contains_any ["ZOMATO"; "SWIGGY"; "FOOD"; "RESTAURANT"] desc then "Food & Dining"
  else if Str.contains_any ["AMAZON"; "FLIPKART"; "MYNTRA"] desc then "Shopping Online"
  else if Str.contains_any ["PETROL"; "FUEL"; "AUTO FILLS"] desc then "Fuel"
  else if Str.contains_any ["BLINKIT"; "ZEPTO"; "GROCERY"; "DMART"; "BIGBASKET"] desc
  then "Groceries"
  else if Str.contains_any ["NETFLIX"; "SPOTIFY"; "HOTSTAR"] desc then "Entertainment"
  else if Str.contains_any ["RECHARGE"; "AIRTEL"; "JIO"; "ELECTRICITY"] desc
  then "Utilities"
  else if Str.contains_any ["HOSPITAL"; "MEDICAL"; "PHARMACY"] desc then "Medical"
  else if Str.contains_any ["UBER"; "OLA"; "RAPIDO"; "CAB"] desc then "Transport"
  else if Str.contains_any ["PAYMENT RECEIVED"; "PAYMENT"; "IRIS"] desc
  then "Payment/Refund"
  else if Str.contains_any ["FEE"; "CHARGE"; "GST"; "SERVICE TAX"] desc
  then "Fees & Charges"
  else if Str.contains "RETAIL OUTLET" desc then "Retail"
  else if Str.contains "SERVICE STATION" desc then "Fuel"
  else "General".

(** [\s*-?\s*Ref\s*No\s*:\s*\S+], ignoring case, and [\s*\d{3,4}\s*$] *)
Definition ref_no_re : Re.regex :=
  Re.Seqs [Re.Star Re.space; Re.Opt (Re.char "-"); Re.Star Re.space; Re.LitCI "Ref";
           Re.Star Re.space; Re.LitCI "No"; Re.Star Re.space; Re.char ":";
           Re.Star Re.space; Re.Plus Re.nonspace].

Definition category_code_re : Re.regex :=
  Re.Seqs [Re.Star Re.space; Re.Range 3 4 Re.digit; Re.Star Re.space; Re.Eol].

Definition clean_description (description : string) : string :=
  Re.sub category_code_re EmptyString
    (Re.sub ref_no_re EmptyString (Str.strip (Pat.collapse_spaces description))).

Definition is_credit (dr desc : string) : bool :=
  Str.contains "PAYMENT RECEIVED" (Str.upper desc) || String.eqb dr "CR".

(** [_finalize_yes_credit_txn(txn, transactions)] *)
Definition _finalize_yes_credit_txn (txn : candidate) (transactions : list transaction)
    : list transaction :=
  if Str.is_empty (c_amount txn) || Str.is_empty (c_date txn) then transactions
  else
    match PyFloat.of_string (Str.replace "," EmptyString (c_amount txn)) with
    | None => transactions
    | Some amount_float =>
        if PrimFloat.eqb amount_float PyFloat.zero then transactions
        else
          let desc := clean_description (c_description txn) in
          let '(debit, credit) :=
            if is_credit (c_dr_cr txn) desc
            then (Py.empty_str, PFloat amount_float)
            else (PFloat amount_float, Py.empty_str) in
          transactions ++
          [Py.record (c_date txn) desc debit credit Py.empty_str
             (_determine_ledger desc)]
    end.


(** [^(\d{1,2}/\d{1,2}/\d{4})] *)
Definition date_pattern : Re.regex := Re.Seq Re.Bol (Re.Group 1 Pat.date_slash).

(** [([\d,]+\.\d{2})\s*(Dr|Cr|DR|CR)?\.?\s*$] *)
Definition amount_pattern : Re.regex :=
  Re.Seqs [Re.Group 1 Pat.amount; Re.Star Re.space;
           Re.Opt (Re.Group 2 (Re.Alts [Re.Lit "Dr"; Re.Lit "Cr"; Re.Lit "DR";
                                        Re.Lit "CR"]));
           Re.Opt (Re.char "."); Re.Star Re.space; Re.Eol].

Definition section_end_keywords : list string :=
  ["making only the minimum"; "presenting emi"; "important message";
   "promotional message"; "total amount due"; "for enquiries"; "please note";
   "go green"].

(** The loop state of [_process_yes_credit_text]. *)
Record scan : Type := Scan {
  in_transactions : bool;
  current_txn : option candidate;
  emitted : list transaction
}.

(** A line without a date while a candidate is open. *)
Definition continue_candidate (c : candidate) (line : string) : candidate :=
  match Re.search amount_pattern line with
  | Some amt_match =>
      if Str.is_empty (c_amount c) then CardLine.take_amount c line amt_match else c
  | None =>
      if negb (Str.contains_any ["page"; "statement for"; "card number"] (Str.lower line))
      then CardLine.more_description c line
      else c
  end.

(** One turn of the loop over the lines. *)
Definition scan_line (st : scan) (raw_line : string) : scan :=
  let line := Str.strip raw_line in
  if Str.is_empty line then st
  else
    let lower := Str.lower line in
    if Str.contains "date" lower
       && (Str.contains "transaction detail" lower
           || Str.contains "merchant category" lower)
    then Scan true (current_txn st) (emitted st)
    else if Str.contains_any section_end_keywords lower
    then Scan false (current_txn st) (emitted st)
    else
      let in_section :=
        in_transactions st
        || (Re.matches date_pattern line && Re.found amount_pattern line) in
      if negb in_section then st
      else
        let st := Scan in_section (current_txn st) (emitted st) in
        match Re.rmatch_start date_pattern line with
        | Some date_match =>
            Scan true (Some (CardLine.dated_candidate amount_pattern line date_match))
              (match current_txn st with
               | Some c => _finalize_yes_credit_txn c (emitted st)
               | None => emitted st
               end)
        | None =>
            match current_txn st with
            | Some c => Scan true (Some (continue_candidate c line)) (emitted st)
            | None => st
            end
        end.

(** [_process_yes_credit_text(text, transactions)]: the list afterwards. *)
Definition _process_yes_credit_text (text : string) (transactions : list transaction)
    : list transaction :=
  let st := fold_left scan_line (Str.lines text) (Scan false None transactions) in
  match current_txn st with
  | Some c => _finalize_yes_credit_txn c (emitted st)
  | None => emitted st
  end.

(** [parse_yes_credit], given the text of each page. *)
Definition parse_yes_credit (pages : list (option string)) : list transaction :=
  fold_left
    (fun transactions text =>
       _process_yes_credit_text (default EmptyString text) transactions)
    pages [].

End YesCredit.

(** ** [parsers/rbl_credit.py] *)

Module RblCredit.

Definition _determine_ledger (description : string) : string :=
  let desc := Str.upper description in
  if Str.contains_any ["ZOMATO"; "SWIGGY"; "FOOD"; "RESTAURANT"] desc then "Food & Dining"
  else if Str.contains_any ["AMAZON"; "FLIPKART"] desc then "Shopping Online"
  else if Str.contains_any ["PETROL"; "FUEL"] desc then "Fuel"
  else if Str.contains_any ["PAYMENT"; "REVERSAL"; "REFUND"] desc then "Payment/Refund"
  else if Str.contains_any ["FEE"; "CHARGE"; "GST"] desc then "Fees & Charges"
  else if Str.contains_any ["EMI"; "LOAN"] desc then "EMI/Loan"
  else "General".

Definition clean_description (description : string) : string :=
  Str.strip (Pat.collapse_spaces description).

Definition is_credit (dr desc : string) : bool :=
  String.eqb dr "CR" || Str.contains "PAYMENT" (Str.upper desc).

(** [_finalize_txn(txn, transactions)] *)
Definition _finalize_txn (txn : candidate) (transactions : list transaction)
    : list transaction :=
  if Str.is_empty (c_amount txn) || Str.is_empty (c_date txn) then transactions
  else
    match PyFloat.of_string (Str.replace "," EmptyString (c_amount txn)) with
    | None => transactions
    | Some amount_float =>
        if PrimFloat.eqb amount_float PyFloat.zero then transactions
        else
          let desc := clean_description (c_description txn) in
          let '(debit, credit) :=
            if is_credit (c_dr_cr txn) desc
            then (Py.empty_str, PFloat amount_float)
            else (PFloat amount_float, Py.empty_str) in
          transactions ++
          [Py.record (c_date txn) desc debit credit Py.empty_str
             (_determine_ledger desc)]
    end.


(** [^(\d{1,2}/\d{1,2}/\d{4}|\d{1,2}-\d{1,2}-\d{4}|\d{1,2}\s+\w{3}\s+\d{2,4})] *)
Definition date_pattern : Re.regex :=
  Re.Seq Re.Bol
    (Re.Group 1
       (Re.Alts [Pat.date_slash;
                 Re.Seqs [Re.Range 1 2 Re.digit; Re.char "-"; Re.Range 1 2 Re.digit;
                          Re.char "-"; Re.Rep 4 Re.digit];
                 Re.Seqs [Re.Range 1 2 Re.digit; Re.Plus Re.space; Re.Rep 3 Re.word;
                          Re.Plus Re.space; Re.Range 2 4 Re.digit]])).

(** [([\d,]+\.\d{2})\s*(DR|CR|Dr|Cr)?\s*$] *)
Definition amount_pattern : Re.regex :=
  Re.Seqs [Re.Group 1 Pat.amount; Re.Star Re.space;
           Re.Opt (Re.Group 2 (Re.Alts [Re.Lit "DR"; Re.Lit "CR"; Re.Lit "Dr";
                                        Re.Lit "Cr"]));
           Re.Star Re.space; Re.Eol].

Definition section_start_keywords : list string :=
  ["transaction detail"; "domestic transaction"; "international transaction";
   "purchases & cash"].

Definition section_end_keywords : list string :=
  ["important message"; "how to make payment"; "closest indusind";
   "marketing message"; "promotional message"; "total"].

(** The loop state of [_process_rbl_credit_text]. *)
Record scan : Type := Scan {
  in_transactions : bool;
  current_txn : option candidate;
  emitted : list transaction
}.

(** [if current_txn: _finalize_txn(current_txn, transactions)] *)
Definition flush (st : scan) : list transaction :=
  match current_txn st with
  | Some c => _finalize_txn c (emitted st)
  | None => emitted st
  end.

(** A line without a date while a candidate is open. *)
Definition continue_candidate (c : candidate) (line : string) : candidate :=
  let described :=
    if negb (Str.contains_any ["page"; "statement"; "card no"] (Str.lower line))
    then CardLine.more_description c line
    else c in
  match Re.search amount_pattern line with
  | Some amt_match =>
      if Str.is_empty (c_amount c) then CardLine.take_amount c line amt_match
      else described
  | None => described
  end.

(** One turn of the loop over the lines. *)
Definition scan_line (st : scan) (raw_line : string) : scan :=
  let line := Str.strip raw_line in
  if Str.is_empty line then st
  else
    let lower := Str.lower line in
    if Str.contains_any section_start_keywords lower
    then Scan true (current_txn st) (emitted st)
    else if Str.contains_any section_end_keywords lower
    then Scan false None (flush st)
    else
      let in_section :=
        in_transactions st
        || (Re.matches date_pattern line && Re.found amount_pattern line) in
      if negb in_section then st
      else
        let st := Scan in_section (current_txn st) (emitted st) in
        match Re.rmatch_start date_pattern line with
        | Some date_match =>
            Scan true (Some (CardLine.dated_candidate amount_pattern line date_match))
              (flush st)
        | None =>
            match current_txn st with
            | Some c => Scan true (Some (continue_candidate c line)) (emitted st)
            | None => st
            end
        end.

(** [_process_rbl_credit_text(text, transactions)]: the list afterwards. *)
Definition _process_rbl_credit_text (text : string) (transactions : list transaction)
    : list transaction :=
  flush (fold_left scan_line (Str.lines text) (Scan false None transactions)).

(** [parse_rbl_credit], given the text of each page. *)
Definition parse_rbl_credit (pages : list (option string)) : list transaction :=
  fold_left
    (fun transactions text =>
       _process_rbl_credit_text (default EmptyString text) transactions)
    pages [].

End RblCredit.

(** ** [parsers/indusind_credit.py] *)

Module IndusindCredit.

Definition _determine_ledger (description : string) : string :=
  let desc := Str.upper description in
  if Str.contains_any ["RESTAURANT"; "FOOD"; "SWEETS"; "CAFE"] desc then "Food & Dining"
  else if Str.contains_any ["PERSONAL CARE"] desc then "Personal Care"
  else if Str.contains_any ["PAYMENT"; "REFUND"] desc then "Payment/Refund"
  else if Str.contains_any ["FEE"; "CHARGE"; "GST"] desc then "Fees & Charges"
  else "General".

(** [\s+\d{3}\s*$] *)
Definition category_code_re : Re.regex :=
  Re.Seqs [Re.Plus Re.space; Re.Rep 3 Re.digit; Re.Star Re.space; Re.Eol].

Definition clean_description (description : string) : string :=
  Re.sub category_code_re EmptyString (Str.strip (Pat.collapse_spaces description)).

Definition is_credit (dr desc : string) : bool :=
  String.eqb dr "CR" || Str.contains "PAYMENT" (Str.upper desc)
  || Str.contains "CREDIT" (Str.upper desc).

(** [_finalize(txn, transactions)] *)
Definition _finalize (txn : candidate) (transactions : list transaction)
    : list transaction :=
  if Str.is_empty (c_amount txn) || Str.is_empty (c_date txn) then transactions
  else
    match PyFloat.of_string (Str.replace "," EmptyString (c_amount txn)) with
    | None => transactions
    | Some amount_float =>
        if PrimFloat.eqb amount_float PyFloat.zero then transactions
        else
          let desc := clean_description (c_description txn) in
          let '(debit, credit) :=
            if is_credit (c_dr_cr txn) desc
            then (Py.empty_str, PFloat amount_float)
            else (PFloat amount_float, Py.empty_str) in
          transactions ++
          [Py.record (c_date txn) desc debit credit Py.empty_str
             (_determine_ledger desc)]
    end.


(** [^(\d{1,2}/\d{1,2}/\d{4})] *)
Definition date_pattern : Re.regex := Re.Seq Re.Bol (Re.Group 1 Pat.date_slash).

(** [([\d,]+\.\d{2})\s*(DR|CR|Dr|Cr)?\s*$] *)
Definition amount_pattern : Re.regex :=
  Re.Seqs [Re.Group 1 Pat.amount; Re.Star Re.space;
           Re.Opt (Re.Group 2 (Re.Alts [Re.Lit "DR"; Re.Lit "CR"; Re.Lit "Dr";
                                        Re.Lit "Cr"]));
           Re.Star Re.space; Re.Eol].

(** [^\d{3}$] *)
Definition category_only_re : Re.regex := Re.Seqs [Re.Bol; Re.Rep 3 Re.digit; Re.Eol].

Definition section_end_keywords : list string :=
  ["marketing message"; "how to make payment"; "closest indusind";
   "important message"; "use convenient"; "use your tpin"; "total";
   "previous balance"].

(** The loop state of [_process_text]. *)
Record scan : Type := Scan {
  in_transactions : bool;
  current_txn : option candidate;
  emitted : list transaction
}.

(** [if current_txn: _finalize(current_txn, transactions)] *)
Definition flush (st : scan) : list transaction :=
  match current_txn st with
  | Some c => _finalize c (emitted st)
  | None => emitted st
  end.

(** A line without a date while a candidate is open, inside the section. *)
Definition continue_candidate (c : candidate) (line : string) : candidate :=
  let described :=
    if negb (Str.contains_any ["page"; "statement"] (Str.lower line))
       && negb (Re.matches category_only_re line)
    then CardLine.more_description c line
    else c in
  match Re.search amount_pattern line with
  | Some amt_match =>
      if Str.is_empty (c_amount c) then CardLine.take_amount c line amt_match
      else described
  | None => described
  end.

(** One turn of the loop over the lines. *)
Definition scan_line (st : scan) (raw_line : string) : scan :=
  let line := Str.strip raw_line in
  if Str.is_empty line then st
  else
    let lower := Str.lower line in
    if Str.contains "purchases & cash" lower || Str.contains "transaction detail" lower
    then Scan true (current_txn st) (emitted st)
    else if Str.contains_any section_end_keywords lower
    then Scan (in_transactions st) None (flush st)
    else
      match Re.rmatch_start date_pattern line with
      | Some date_match =>
          Scan true (Some (CardLine.dated_candidate amount_pattern line date_match))
            (flush st)
      | None =>
          match current_txn st with
          | Some c =>
              if in_transactions st
              then Scan true (Some (continue_candidate c line)) (emitted st)
              else st
          | None => st
          end
      end.

(** [_process_text(text, transactions)]: the list afterwards. *)
Definition _process_text (text : string) (transactions : list transaction)
    : list transaction :=
  flush (fold_left scan_line (Str.lines text) (Scan false None transactions)).

(** [parse_indusind_credit], given the text of each page. *)
Definition parse_indusind_credit (pages : list (option string)) : list transaction :=
  fold_left
    (fun transactions text => _process_text (default EmptyString text) transactions)
    pages [].

End IndusindCredit.

(** ** [parsers/one_credit.py] *)

Record one_candidate : Type := OneCandidate {
  o_date : string;
  o_description : string;
  o_amount : float;
  o_raw_line : string
}.

Module OneCredit.

Definition _determine_ledger (description : string) : string :=
  let desc := Str.upper description in
  if Str.contains_any ["ZOMATO"; "SWIGGY"; "FOOD"] desc then "Food & Dining"
  else if Str.contains_any ["BLINKIT"; "GROCERY"; "ZEPTO"; "BIGBASKET"] desc
  then "Groceries"
  else if Str.contains_any ["AMAZON"; "FLIPKART"; "MYNTRA"] desc then "Shopping Online"
  else if Str.contains_any ["NETFLIX"; "SPOTIFY"] desc then "Entertainment"
  else if Str.contains_any ["UBER"; "OLA"; "RAPIDO"] desc then "Transport"
  else if Str.contains_any ["PAYMENT"; "REFUND"] desc then "Payment/Refund"
  else "General".

Definition clean_description (description : string) : string :=
  Str.strip (Pat.collapse_spaces description).

Definition credit_keyword (desc : string) : bool :=
  Str.contains_any ["REFUND"; "REVERSAL"; "CASHBACK"; "REPAYMENT"] (Str.upper desc).

(** [_finalize(txn, transactions)] *)
Definition _finalize (txn : one_candidate) (transactions : list transaction)
    : list transaction :=
  let amount := o_amount txn in
  if PrimFloat.eqb amount PyFloat.zero then transactions
  else
    let desc := clean_description (o_description txn) in
    if Str.is_empty desc then transactions
    else
      let raw := o_raw_line txn in
      let is_credit :=
        Str.contains "-" (Pat.last_piece desc raw)
        || credit_keyword desc
        || (Str.contains "(" raw && Str.contains ")" raw) in
      let '(debit, credit) :=
        if is_credit then (Py.empty_str, PFloat amount)
        else (PFloat amount, Py.empty_str) in
      transactions ++
      [Py.record (o_date txn) desc debit credit Py.empty_str (_determine_ledger desc)].


(** [^(\d{1,2}\s+\w{3})] and [([\d,]+\.\d{2})] *)
Definition date_pattern : Re.regex :=
  Re.Seq Re.Bol
    (Re.Group 1 (Re.Seqs [Re.Range 1 2 Re.digit; Re.Plus Re.space; Re.Rep 3 Re.word])).

Definition amount_pattern : Re.regex := Re.Group 1 Pat.amount.

(** [\b\d{1,2}\.\d{2}\b] *)
Definition reward_points_re : Re.regex :=
  Re.Seqs [Re.WordB; Re.Range 1 2 Re.digit; Re.char "."; Re.Rep 2 Re.digit; Re.WordB].

(** [\s+(TOKEN_ECOM|POS|ECOM|ATM|CONTACTLESS)\s*], ignoring case *)
Definition transaction_type_re : Re.regex :=
  Re.Seqs [Re.Plus Re.space;
           Re.Group 1 (Re.Alts [Re.LitCI "TOKEN_ECOM"; Re.LitCI "POS"; Re.LitCI "ECOM";
                                Re.LitCI "ATM"; Re.LitCI "CONTACTLESS"]);
           Re.Star Re.space].

(** [^\d+\.?\d*$] *)
Definition number_only_re : Re.regex :=
  Re.Seqs [Re.Bol; Re.Plus Re.digit; Re.Opt (Re.char "."); Re.Star Re.digit; Re.Eol].

Definition header_keywords : list string := ["date"; "merchant name"; "transaction"].

Definition section_end_keywords : list string :=
  ["total spends"; "total repayments"; "rewards summary"; "interest charged";
   "contact us"; "note:"; "important"; "page "; "fee summary"].

(** [float(a.replace(',', ''))] for a text the amount pattern matched; such
    a text always reads as a number. *)
Definition amount_value (a : string) : float :=
  default PyFloat.zero (PyFloat.of_string (Str.replace "," EmptyString a)).

(** [float(amounts[-1].replace(',', ''))] of a list that is not empty; [0]
    of the empty one. *)
Definition last_amount (amounts : list string) : float :=
  match amounts with
  | [] => PyFloat.zero
  | a :: more => amount_value (List.last more a)
  end.

(** The loop state of [_process_text]. *)
Record scan : Type := Scan {
  in_transactions : bool;
  current_txn : option one_candidate;
  emitted : list transaction
}.

(** [if current_txn: _finalize(current_txn, transactions)] *)
Definition flush (st : scan) : list transaction :=
  match current_txn st with
  | Some c => _finalize c (emitted st)
  | None => emitted st
  end.

(** The candidate a dated line opens. *)
Definition dated_line (line : string) (date_match : Re.rmatch) : one_candidate :=
  let date_str := Re.group_or_empty line date_match 1 in
  let rest := Str.strip (Str.drop (Re.m_end date_match) line) in
  let amounts := Re.findall1 amount_pattern rest in
  let desc := fold_left (fun d amt => Str.replace_first amt EmptyString d) amounts rest in
  let desc := Str.strip (Pat.collapse_spaces desc) in
  let desc := Re.sub reward_points_re EmptyString desc in
  let desc := Re.sub transaction_type_re " " desc in
  let desc := Str.strip (Pat.collapse_spaces desc) in
  OneCandidate date_str desc (last_amount amounts) line.

(** A line without a date while a candidate is open. *)
Definition continuation (c : one_candidate) (line : string) : one_candidate :=
  let amounts := Re.findall1 amount_pattern line in
  let amount :=
    if negb (Py.is_nil amounts) && PrimFloat.eqb (o_amount c) PyFloat.zero
    then last_amount amounts
    else o_amount c in
  let cleaned :=
    fold_left (fun d amt => Str.strip (Str.replace amt EmptyString d)) amounts line in
  let description :=
    if negb (Str.is_empty cleaned) && negb (Re.matches number_only_re cleaned)
    then o_description c +:+ " " +:+ cleaned
    else o_description c in
  OneCandidate (o_date c) description amount (o_raw_line c).

(** One turn of the loop over the lines. *)
Definition scan_line (st : scan) (raw_line : string) : scan :=
  let line := Str.strip raw_line in
  if Str.is_empty line then st
  else
    let lower := Str.lower line in
    if Str.contains "transaction history" lower
    then Scan true (current_txn st) (emitted st)
    else if Str.contains_any header_keywords lower && Str.contains "reward" lower
    then st
    else if Str.contains_any section_end_keywords lower
    then Scan (in_transactions st) None (flush st)
    else
      let in_section :=
        in_transactions st
        || (Re.matches date_pattern line && Re.found amount_pattern line) in
      if negb in_section then st
      else
        let st := Scan in_section (current_txn st) (emitted st) in
        match Re.rmatch_start date_pattern line with
        | Some date_match => Scan true (Some (dated_line line date_match)) (flush st)
        | None =>
            match current_txn st with
            | Some c => Scan true (Some (continuation c line)) (emitted st)
            | None => st
            end
        end.

(** [_process_text(text, transactions)]: the list afterwards. *)
Definition _process_text (text : string) (transactions : list transaction)
    : list transaction :=
  flush (fold_left scan_line (Str.lines text) (Scan false None transactions)).

(** [parse_one_credit], given the text of each page. *)
Definition parse_one_credit (pages : list (option string)) : list transaction :=
  fold_left
    (fun transactions text => _process_text (default EmptyString text) transactions)
    pages [].

End OneCredit.

(** ** [parsers/yes_bank.py]: the text path *)

(** A record under construction whose description may still grow. *)
Record pending : Type := Pending {
  p_date : string;
  p_description : string;
  p_debit : pyval;
  p_credit : pyval;
  p_balance : pyval;
  p_ledger : string
}.

Definition pending_record (p : pending) : transaction :=
  Py.record (p_date p) (p_description p) (p_debit p) (p_credit p) (p_balance p)
    (p_ledger p).

(** A page as the table-based parsers read it: its tables, each a list of
    rows of cells (a cell is a text or [None]), and its text. *)
Record table_page : Type := TablePage {
  page_tables : list (list (list (option string)));
  page_text : option string
}.

Module YesBank.

Definition _determine_ledger (description : string) : string :=
  let desc := Str.upper description in
  if Str.contains_any ["UPI"; "IMPS"; "NEFT"; "RTGS"] desc then
    if Str.contains_any ["ZOMATO"; "SWIGGY"] desc then "Food & Dining"
    else if Str.contains_any ["ZERODHA"; "GROWW"] desc then "Investment"
    else if Str.contains_any ["RECHARGE"; "AIRTEL"; "JIO"; "PREPAID"] desc then "Utilities"
    else if Str.contains_any ["NETFLIX"; "SPOTIFY"; "APPLE"] desc then "Entertainment"
    else if Str.contains_any ["PORTER"; "CAB"; "OLA"; "UBER"] desc then "Transport"
    else if Str.contains_any ["MEDICINE"; "BLOOD TEST"; "HOSPITAL"] desc then "Medical"
    else if Str.contains "FAMILY" desc then "Family Transfer"
    else if Str.contains "CREDIT CARD" desc then "Credit Card Payment"
    else if Str.contains "JEWELLERY" desc then "Shopping"
    else "Transfer"
  else if Str.contains "SALARY" desc then "Salary"
  else if Str.contains "INTEREST" desc then "Interest"
  else if Str.contains "ATM" desc || Str.contains "CASH" desc then "Cash"
  else if Str.contains "FUNDS TRF" desc then "Transfer"
  else "General".

(** [_is_debit_yes]: the debit keywords are tried first, then the credit
    ones; every other description is a debit. *)
Definition _is_debit_yes (description : string) : bool :=
  let desc := Str.upper description in
  if Str.contains_any ["WITHDRAWAL"; "DEBIT"; "PAID"; "TRANSFER TO"; "FUNDS TRF TO";
                       "PURCHASE"; "POS"; "ATM"; "NACH"] desc
  then true
  else if Str.contains_any ["DEPOSIT"; "CREDIT"; "RECEIVED"; "TRANSFER FROM"; "SALARY";
                            "INTEREST"; "REFUND"; "REVERSAL"; "CASHBACK"] desc
  then false
  else true.

(** [^(\d{1,2}\s+\w{3}\s+\d{4}|\d{1,2}/\d{1,2}/\d{4})] and [([\d,]+\.\d{2})] *)
Definition date_pattern : Re.regex :=
  Re.Seq Re.Bol (Re.Group 1 (Re.Alt Pat.date_month Pat.date_slash)).

Definition amount_pattern : Re.regex := Re.Group 1 Pat.amount.

(** [^[\d\s,.]+$] *)
Definition numbers_only_re : Re.regex :=
  Re.Seqs [Re.Bol;
           Re.Plus (Re.Chr (fun c => Str.is_digit c || Str.is_space c
                                     || Re.mem_char c ",."));
           Re.Eol].

Definition skip_keywords : list string :=
  ["transaction date"; "value date"; "cheque no"; "customer id"; "primary account";
   "nominee"; "a/c opening"; "account variant"; "joint holder"; "opening balance:";
   "total withdrawals"; "total deposits"; "closing balance:"; "od limit";
   "please review"; "mandatory disclaimer"; "transaction codes"; "reward points"].

(** [float(a.replace(',', ''))] for a text the amount pattern matched; such
    a text always reads as a number. *)
Definition amount_value (a : string) : float :=
  default PyFloat.zero (PyFloat.of_string (Str.replace "," EmptyString a)).

(** [x if x > 0 else ''] *)
Definition positive_or_empty (x : float) : pyval :=
  if PrimFloat.ltb PyFloat.zero x then PFloat x else Py.empty_str.

(** The [debit], [credit] and [balance] of a dated line, from its amounts
    in reading order. *)
Definition place_amounts (float_amounts : list float) (desc : string)
    : pyval * pyval * pyval :=
  match rev float_amounts with
  | last :: second :: third :: _ =>
      (positive_or_empty third, positive_or_empty second, PFloat last)
  | [last; first] =>
      if _is_debit_yes desc then (PFloat first, Py.empty_str, PFloat last)
      else (Py.empty_str, PFloat first, PFloat last)
  | [only] => (Py.empty_str, Py.empty_str, PFloat only)
  | [] => (Py.empty_str, Py.empty_str, Py.empty_str)
  end.

(** The record a dated line opens. *)
Definition dated_line (line : string) (date_match : Re.rmatch) : pending :=
  let date_str := Re.group_or_empty line date_match 1 in
  let rest := Str.strip (Str.drop (Re.m_end date_match) line) in
  let rest :=
    match Re.rmatch_start date_pattern rest with
    | Some val_match => Str.strip (Str.drop (Re.m_end val_match) rest)
    | None => rest
    end in
  let amounts := Re.findall1 amount_pattern rest in
  let desc :=
    Str.strip
      (Pat.collapse_spaces
         (fold_left (fun d amt => Str.replace_first amt EmptyString d) amounts rest)) in
  let '(debit, credit, balance) := place_amounts (map amount_value amounts) desc in
  Pending date_str desc debit credit balance (_determine_ledger desc).

(** A line without a date: its text, amounts removed, extends the open
    record unless only digits, blanks, commas and dots are left. *)
Definition continuation (p : pending) (line : string) : pending :=
  let amounts := Re.findall1 amount_pattern line in
  let cleaned :=
    fold_left (fun c amt => Str.strip (Str.replace amt EmptyString c)) amounts line in
  if negb (Str.is_empty cleaned) && negb (Re.matches numbers_only_re cleaned)
  then Pending (p_date p) (p_description p +:+ " " +:+ cleaned) (p_debit p)
         (p_credit p) (p_balance p) (p_ledger p)
  else p.

(** One turn of the loop: the open record and the list so far. *)
Definition scan_line (st : option pending * list transaction) (raw_line : string)
    : option pending * list transaction :=
  let '(current_txn, transactions) := st in
  let line := Str.strip raw_line in
  if Str.is_empty line then st
  else if Str.contains_any skip_keywords (Str.lower line) then st
  else
    match Re.rmatch_start date_pattern line with
    | Some date_match =>
        (Some (dated_line line date_match),
         match current_txn with
         | Some p => transactions ++ [pending_record p]
         | None => transactions
         end)
    | None =>
        match current_txn with
        | Some p => (Some (continuation p line), transactions)
        | None => st
        end
    end.

(** [_process_yes_text(text, transactions)]: the list afterwards. *)
Definition _process_yes_text (text : string) (transactions : list transaction)
    : list transaction :=
  let '(current_txn, out) := fold_left scan_line (Str.lines text) (None, transactions) in
  match current_txn with
  | Some p => out ++ [pending_record p]
  | None => out
  end.


(** *** The table path *)

(** The column indices, local to one call. *)
Record columns : Type := Columns {
  col_withdrawal : nat;
  col_deposit : nat;
  col_balance : nat;
  col_desc : nat
}.

Definition default_columns : columns := Columns 4 5 6 3.

(** [cells[i]], when [i < len(cells)] *)
Definition cell (cells : list string) (i : nat) : option string := nth_error cells i.

(** [[str(c).strip() if c else '' for c in row]] *)
Definition cells_of (row : list (option string)) : list string :=
  map (fun c => match c with
                | Some s => if Str.is_empty s then EmptyString else Str.strip s
                | None => EmptyString
                end) row.

(** [' '.join(cells).lower()] *)
Definition combined_of (cells : list string) : string :=
  Str.lower (Str.join " " cells).

(** [cells[0]] *)
Definition first_cell (cells : list string) : string :=
  default EmptyString (cell cells 0).

(** The loop over the cells of a header row. *)
Fixpoint read_header (i : nat) (cells : list string) (cols : columns) : columns :=
  match cells with
  | [] => cols
  | c :: rest =>
      let cl := Str.strip (Str.lower c) in
      let cols' :=
        if Str.contains "withdrawal" cl
        then Columns i (col_deposit cols) (col_balance cols) (col_desc cols)
        else if Str.contains "deposit" cl
        then Columns (col_withdrawal cols) i (col_balance cols) (col_desc cols)
        else if (Str.contains "balance" cl && Str.contains "running" cl)
                || String.eqb cl "balance"
        then Columns (col_withdrawal cols) (col_deposit cols) i (col_desc cols)
        else if Str.contains "description" cl
        then Columns (col_withdrawal cols) (col_deposit cols) (col_balance cols) i
        else cols in
      read_header (S i) rest cols'
  end.

(** [^[\d.]+$] *)
Definition number_re : Re.regex :=
  Re.Seqs [Re.Bol; Re.Plus (Re.Chr (fun c => Str.is_digit c || Ascii.eqb c "."));
           Re.Eol].

(** The value read from an amount column: the stripped cell when, commas
    and spaces removed, it is made of digits and dots; [''] otherwise. *)
Definition amount_cell (cells : list string) (i : nat) : string :=
  match cell cells i with
  | Some c =>
      let val :=
        Str.strip (Str.replace " " EmptyString (Str.replace "," EmptyString c)) in
      if negb (Str.is_empty (Str.strip c)) && negb (Str.is_empty val)
         && Re.matches number_re val
      then Str.strip c
      else EmptyString
  | None => EmptyString
  end.

(** [(\d{1,2}\s+\w{3}\s+\d{4}|\d{1,2}/\d{1,2}/\d{4})], matched at the start
    of the first cell *)
Definition table_date_re : Re.regex := Re.Group 1 (Re.Alt Pat.date_month Pat.date_slash).

Definition table_skip_keywords : list string :=
  ["transaction date"; "value date"; "cheque no"; "opening balance";
   "closing balance"; "total withdrawal"; "total deposit"].

(** The description of a row: its description cell, blanks collapsed. *)
Definition description_of (cols : columns) (cells : list string) : string :=
  Str.strip (Pat.collapse_spaces (default EmptyString (cell cells (col_desc cols)))).

(** A row whose first cell starts with a date. *)
Definition dated_row (cols : columns) (cells : list string) (date_str : string)
    (transactions : list transaction) : list transaction :=
  let description := description_of cols cells in
  let debit := amount_cell cells (col_withdrawal cols) in
  let credit := amount_cell cells (col_deposit cols) in
  let balance := amount_cell cells (col_balance cols) in
  if negb (Str.is_empty description)
  then transactions ++
       [Py.record date_str description (PStr debit) (PStr credit) (PStr balance)
          (_determine_ledger description)]
  else transactions.

(** The row names the withdrawal or the deposit column: a header. *)
Definition is_header (cells : list string) : bool :=
  Str.contains "withdrawal" (combined_of cells)
  || Str.contains "deposit" (combined_of cells).

(** A row without a date: its description cell extends the last record. *)
Definition continuation_row (cols : columns) (cells : list string)
    (transactions : list transaction) : list transaction :=
  let extra := default EmptyString (cell cells (col_desc cols)) in
  if negb (Py.is_nil transactions) && negb (Str.is_empty (Str.strip extra))
  then Py.extend_last (Str.strip extra) transactions
  else transactions.

(** One turn of the loop over the rows. *)
Definition process_row (st : columns * list transaction) (row : list (option string))
    : columns * list transaction :=
  let '(cols, transactions) := st in
  if (length row <? 4)%nat then st
  else
    let cells := cells_of row in
    if is_header cells then (read_header 0 cells cols, transactions)
    else if Str.contains_any table_skip_keywords (combined_of cells) then st
    else
      match Re.rmatch_start table_date_re (first_cell cells) with
      | None => (cols, continuation_row cols cells transactions)
      | Some date_match =>
          (cols,
           dated_row cols cells (Re.group_or_empty (first_cell cells) date_match 1)
             transactions)
      end.

(** [_process_yes_table(table, transactions)]: the list afterwards. *)
Definition _process_yes_table (table : list (list (option string)))
    (transactions : list transaction) : list transaction :=
  snd (fold_left process_row table (default_columns, transactions)).

(** The body of the loop of [parse_yes_bank] over the pages: the tables of
    the page, then its text when no record has been found so far. *)
Definition page_step (transactions : list transaction) (p : table_page)
    : list transaction :=
  let transactions :=
    fold_left (fun ts table => _process_yes_table table ts) (page_tables p)
      transactions in
  if Py.is_nil transactions
  then _process_yes_text (default EmptyString (page_text p)) transactions
  else transactions.

(** [parse_yes_bank], given the tables and the text of each page. *)
Definition parse_yes_bank (pages : list table_page) : list transaction :=
  fold_left page_step pages [].

End YesBank.

(** ** [parsers/standard_bank.py]: the table path *)

Module StandardBank.

Definition _determine_ledger (description : string) : string :=
  let desc := Str.upper description in
  if Str.contains_any ["UPI"; "IMPS"; "NEFT"; "RTGS"] desc then
    if Str.contains_any ["SWIGGY"; "ZOMATO"] desc then "Food & Dining"
    else "Transfer"
  else if Str.contains "SALARY" desc then "Salary"
  else if Str.contains "INTEREST" desc then "Interest"
  else if Str.contains "BALANCE FORWARD" desc then "Opening Balance"
  else "General".

(** [^[\d.]+$] *)
Definition number_re : Re.regex :=
  Re.Seqs [Re.Bol; Re.Plus (Re.Chr (fun c => Str.is_digit c || Ascii.eqb c "."));
           Re.Eol].

(** The column indices, local to one call. *)
Record columns : Type := Columns {
  col_deposit : nat;
  col_withdrawal : nat;
  col_balance : nat;
  col_desc : nat
}.

Definition default_columns : columns := Columns 4 5 6 2.

(** [cells[i]], when [i < len(cells)] *)
Definition cell (cells : list string) (i : nat) : option string := nth_error cells i.

(** The loop over the cells of a header row. *)
Fixpoint read_header (i : nat) (cells : list string) (cols : columns) : columns :=
  match cells with
  | [] => cols
  | c :: rest =>
      let cl := Str.strip (Str.lower c) in
      let cols' :=
        if Str.contains "deposit" cl
        then Columns i (col_withdrawal cols) (col_balance cols) (col_desc cols)
        else if Str.contains "withdrawal" cl
        then Columns (col_deposit cols) i (col_balance cols) (col_desc cols)
        else if Str.contains "balance" cl
        then Columns (col_deposit cols) (col_withdrawal cols) i (col_desc cols)
        else if Str.contains "description" cl
        then Columns (col_deposit cols) (col_withdrawal cols) (col_balance cols) i
        else cols in
      read_header (S i) rest cols'
  end.

(** The value read from an amount column: the stripped cell when, commas
    removed, it is made of digits and dots; [''] otherwise. *)
Definition amount_cell (cells : list string) (i : nat) : string :=
  match cell cells i with
  | Some c =>
      if negb (Str.is_empty (Str.strip c))
         && Re.matches number_re (Str.strip (Str.replace "," EmptyString c))
      then Str.strip c
      else EmptyString
  | None => EmptyString
  end.

(** The description of a row: its description cell, blanks collapsed. *)
Definition description_of (cols : columns) (cells : list string) : string :=
  Str.strip (Pat.collapse_spaces
               (match cell cells (col_desc cols) with
                | Some c => Str.strip c
                | None => EmptyString
                end)).

(** A row whose first cell starts with a date. *)
Definition dated_row (cols : columns) (cells : list string) (date_str : string)
    (transactions : list transaction) : list transaction :=
  let description := description_of cols cells in
  let credit := amount_cell cells (col_deposit cols) in
  let debit := amount_cell cells (col_withdrawal cols) in
  let balance := amount_cell cells (col_balance cols) in
  if Str.contains "BALANCE FORWARD" (Str.upper description)
     && Str.is_empty debit && Str.is_empty credit
  then
    if negb (Str.is_empty balance)
    then transactions ++
         [Py.record date_str description Py.empty_str Py.empty_str (PStr balance)
            "Opening Balance"]
    else transactions
  else if negb (Str.is_empty description)
  then transactions ++
       [Py.record date_str description (PStr debit) (PStr credit) (PStr balance)
          (_determine_ledger description)]
  else transactions.

(** [[str(c).strip() if c else '' for c in row]]; a cell is a text or [None]. *)
Definition cells_of (row : list (option string)) : list string :=
  map (fun c => match c with
                | Some s => if Str.is_empty s then EmptyString else Str.strip s
                | None => EmptyString
                end) row.

(** [' '.join(cells).lower()] *)
Definition combined_of (cells : list string) : string :=
  Str.lower (Str.join " " cells).

(** [cells[0]] *)
Definition first_cell (cells : list string) : string :=
  default EmptyString (cell cells 0).

(** The row names the deposit or the withdrawal column: a header. *)
Definition is_header (cells : list string) : bool :=
  Str.contains "deposit" (combined_of cells)
  || Str.contains "withdrawal" (combined_of cells).

(** One turn of the loop over the rows. *)
Definition process_row (st : columns * list transaction) (row : list (option string))
    : columns * list transaction :=
  let '(cols, transactions) := st in
  if (length row <? 3)%nat then st
  else
    let cells := cells_of row in
    if is_header cells then (read_header 0 cells cols, transactions)
    else if Str.contains_any ["date"; "value"; "cheque"; "total"] (combined_of cells)
            && negb (Re.matches Pat.date_month (first_cell cells))
    then st
    else
      match Re.rmatch_start (Re.Group 1 Pat.date_month) (first_cell cells) with
      | None =>
          match cell cells (col_desc cols) with
          | Some c =>
              if negb (Py.is_nil transactions) && negb (Str.is_empty c)
                 && negb (Str.is_empty (Str.strip c))
              then (cols, Py.extend_last (Str.strip c) transactions)
              else st
          | None => st
          end
      | Some date_match =>
          (cols,
           dated_row cols cells (Re.group_or_empty (first_cell cells) date_match 1)
             transactions)
      end.

(** [_process_table(table, transactions)]: the list afterwards. *)
Definition _process_table (table : list (list (option string)))
    (transactions : list transaction) : list transaction :=
  snd (fold_left process_row table (default_columns, transactions)).


(** *** The text path *)

(** [^(\d{1,2}\s+\w{3}\s+\d{4})] and [([\d,]+\.\d{2})] *)
Definition text_date_pattern : Re.regex := Re.Seq Re.Bol (Re.Group 1 Pat.date_month).

Definition amount_pattern : Re.regex := Re.Group 1 Pat.amount.

(** [^[\d\s,.]+$] *)
Definition numbers_only_re : Re.regex :=
  Re.Seqs [Re.Bol;
           Re.Plus (Re.Chr (fun c => Str.is_digit c || Str.is_space c
                                     || Re.mem_char c ",."));
           Re.Eol].

Definition text_skip_keywords : list string :=
  ["branch"; "statement date"; "currency"; "account type"; "account no"; "nominee";
   "branch address"; "page "].

(** [float(a.replace(',', ''))] for a text the amount pattern matched; such
    a text always reads as a number. *)
Definition amount_value (a : string) : float :=
  default PyFloat.zero (PyFloat.of_string (Str.replace "," EmptyString a)).

(** [x if x > 0 else ''] *)
Definition positive_or_empty (x : float) : pyval :=
  if PrimFloat.ltb PyFloat.zero x then PFloat x else Py.empty_str.

(** The [debit], [credit] and [balance] of a dated line, from its amounts
    in reading order. *)
Definition place_amounts (float_amounts : list float) (desc : string)
    : pyval * pyval * pyval :=
  if Str.contains "BALANCE FORWARD" (Str.upper desc) then
    match rev float_amounts with
    | last :: _ => (Py.empty_str, Py.empty_str, PFloat last)
    | [] => (Py.empty_str, Py.empty_str, Py.empty_str)
    end
  else
    match rev float_amounts with
    | last :: second :: third :: _ =>
        (positive_or_empty second, positive_or_empty third, PFloat last)
    | [last; first] => (PFloat first, Py.empty_str, PFloat last)
    | [only] => (Py.empty_str, Py.empty_str, PFloat only)
    | [] => (Py.empty_str, Py.empty_str, Py.empty_str)
    end.

(** The record a dated line opens. *)
Definition dated_line (line : string) (date_match : Re.rmatch) : pending :=
  let date_str := Re.group_or_empty line date_match 1 in
  let rest := Str.strip (Str.drop (Re.m_end date_match) line) in
  let rest :=
    match Re.rmatch_start text_date_pattern rest with
    | Some val_match => Str.strip (Str.drop (Re.m_end val_match) rest)
    | None => rest
    end in
  let amounts := Re.findall1 amount_pattern rest in
  let desc :=
    Str.strip
      (Pat.collapse_spaces
         (fold_left (fun d amt => Str.replace_first amt EmptyString d) amounts rest)) in
  let '(debit, credit, balance) := place_amounts (map amount_value amounts) desc in
  Pending date_str desc debit credit balance (_determine_ledger desc).

(** A line without a date: its text, amounts removed, extends the open
    record unless only digits, blanks, commas and dots are left. *)
Definition continuation (p : pending) (line : string) : pending :=
  let amounts := Re.findall1 amount_pattern line in
  let cleaned :=
    fold_left (fun c amt => Str.strip (Str.replace amt EmptyString c)) amounts line in
  if negb (Str.is_empty cleaned) && negb (Re.matches numbers_only_re cleaned)
  then Pending (p_date p) (p_description p +:+ " " +:+ cleaned) (p_debit p)
         (p_credit p) (p_balance p) (p_ledger p)
  else p.

(** One turn of the loop: the open record and the list so far. *)
Definition scan_line (st : option pending * list transaction) (raw_line : string)
    : option pending * list transaction :=
  let '(current_txn, transactions) := st in
  let line := Str.strip raw_line in
  if Str.is_empty line then st
  else if Str.contains_any text_skip_keywords (Str.lower line) then st
  else
    match Re.rmatch_start text_date_pattern line with
    | Some date_match =>
        (Some (dated_line line date_match),
         match current_txn with
         | Some p => transactions ++ [pending_record p]
         | None => transactions
         end)
    | None =>
        match current_txn with
        | Some p => (Some (continuation p line), transactions)
        | None => st
        end
    end.

(** [_process_text(text, transactions)]: the list afterwards. *)
Definition _process_text (text : string) (transactions : list transaction)
    : list transaction :=
  let '(current_txn, out) := fold_left scan_line (Str.lines text) (None, transactions) in
  match current_txn with
  | Some p => out ++ [pending_record p]
  | None => out
  end.

(** The body of the loop of [parse_standard_bank] over the pages: the
    tables of the page, or its text when it has no table. *)
Definition page_step (transactions : list transaction) (p : table_page)
    : list transaction :=
  match page_tables p with
  | [] => _process_text (default EmptyString (page_text p)) transactions
  | tables => fold_left (fun ts table => _process_table table ts) tables transactions
  end.

(** [parse_standard_bank], given the tables and the text of each page. *)
Definition parse_standard_bank (pages : list table_page) : list transaction :=
  fold_left page_step pages [].

End StandardBank.

(** ** Positioned words *)

(** A word as the PDF reader gives it: its text, left and right edges and
    its top. *)
Record word : Type := Word {
  text : string;
  x0 : float;
  x1 : float;
  top : float
}.

Module Words.

(** [sorted(items, key=...)]: a stable sort that compares keys with [<]. *)
Fixpoint insert_by {A : Type} (key : A -> float) (x : A) (sorted : list A) : list A :=
  match sorted with
  | [] => [x]
  | y :: rest =>
      if PrimFloat.ltb (key x) (key y) then x :: sorted
      else y :: insert_by key x rest
  end.

Definition sort_by {A : Type} (key : A -> float) (items : list A) : list A :=
  fold_left (fun acc x => insert_by key x acc) items [].

(** [abs(a - b)] *)
Definition distance (a b : float) : float := PrimFloat.abs (PrimFloat.sub a b).

(** [min(items, key=lambda d: d[1])]: the first item whose key no other
    item's key is below. *)
Fixpoint min_from {A : Type} (best : A * float) (items : list (A * float)) : A * float :=
  match items with
  | [] => best
  | d :: rest => min_from (if PrimFloat.ltb (snd d) (snd best) then d else best) rest
  end.


(** *** Rows keyed by the rounded top *)

(** [rows.setdefault(y, []).append(w)]: the rows in the order their keys
    were added. *)
Fixpoint add_row (y : Z) (w : word) (rows : list (Z * list word))
    : list (Z * list word) :=
  match rows with
  | [] => [(y, [w])]
  | (key, ws) :: rest =>
      if (key =? y)%Z then (key, ws ++ [w]) :: rest
      else (key, ws) :: add_row y w rest
  end.

(** The loop [for w in words: y = round(w['top']); ...]; [None] when
    [round] raises. *)
Fixpoint rows_by_round (words : list word) (rows : list (Z * list word))
    : option (list (Z * list word)) :=
  match words with
  | [] => Some rows
  | w :: rest =>
      match PyFloat.round_int (top w) with
      | Some y => rows_by_round rest (add_row y w rows)
      | None => None
      end
  end.

(** [sorted(rows.keys())], each key with its row. *)
Fixpoint insert_row (row : Z * list word) (sorted : list (Z * list word))
    : list (Z * list word) :=
  match sorted with
  | [] => [row]
  | r :: rest =>
      if (fst row <? fst r)%Z then row :: sorted else r :: insert_row row rest
  end.

Definition sort_rows (rows : list (Z * list word)) : list (Z * list word) :=
  fold_left (fun acc row => insert_row row acc) rows [].

(** [header_y is not None and y <= header_y] *)
Definition at_or_above (header_y : option Z) (y : Z) : bool :=
  match header_y with
  | Some h => (y <=? h)%Z
  | None => false
  end.

End Words.

(** ** [parsers/hdfc_bank.py] *)

Module HdfcBank.

Definition WITHDRAWAL_X1 : float := 470%float.
Definition DEPOSIT_X1 : float := 548%float.
Definition BALANCE_X1 : float := 627%float.
Definition COL_TOL : float := 20%float.

Definition DATE_X0_MAX : float := 55%float.
Definition DESC_X0_MIN : float := 66%float.
Definition DESC_X0_MAX : float := 283%float.

Definition Y_TOLERANCE : float := 3%float.
Definition CONTINUATION_MAX_GAP : float := 50%float.

(** [^\d{1,2}/\d{1,2}/\d{2,4}$] *)
Definition DATE_PAT : Re.regex :=
  Re.Seqs [Re.Bol; Re.Range 1 2 Re.digit; Re.char "/"; Re.Range 1 2 Re.digit;
           Re.char "/"; Re.Range 2 4 Re.digit; Re.Eol].

(** [^-?\d+\.\d{2}$] *)
Definition amount_re : Re.regex :=
  Re.Seqs [Re.Bol; Re.Opt (Re.char "-"); Re.Plus Re.digit; Re.char ".";
           Re.Rep 2 Re.digit; Re.Eol].

Definition SKIP_KEYWORDS : list string :=
  ["STATEMENTSUMMARY"; "OPENINGBALANCE"; "CLOSINGBAL"; "DRCOUNT"; "CRCOUNT";
   "DEBITS"; "CREDITS"].

Definition _determine_ledger (description : string) : string :=
  let desc := Str.upper description in
  if Str.contains_any ["UPI"; "IMPS"; "NEFT"; "RTGS"] desc then
    if Str.contains_any ["ZOMATO"; "SWIGGY"] desc then "Food & Dining"
    else if Str.contains_any ["ZERODHA"; "GROWW"] desc then "Investment"
    else if Str.contains_any ["RECHARGE"; "AIRTEL"; "JIO"] desc then "Utilities"
    else "Transfer"
  else if Str.contains "SALARY" desc then "Salary"
  else if Str.contains "INTEREST" desc then "Interest"
  else if Str.contains "ATM" desc || Str.contains "CASH" desc then "Cash"
  else if Str.contains "EMI" desc then "EMI/Loan"
  else "General".

(** [_group_words_by_y]: the rows in the order their keys were added. *)
Fixpoint add_to_row (w : word) (rows : list (float * list word))
    : list (float * list word) :=
  match rows with
  | [] => [(top w, [w])]
  | (key, ws) :: rest =>
      if PrimFloat.leb (Words.distance key (top w)) Y_TOLERANCE
      then (key, ws ++ [w]) :: rest
      else (key, ws) :: add_to_row w rest
  end.

Definition _group_words_by_y (words : list word) : list (float * list word) :=
  fold_left (fun rows w => add_to_row w rows) (Words.sort_by top words) [].

(** The amount column an amount-shaped word falls in: the three edges are
    tried in the order balance, deposit, withdrawal. *)
Definition amount_column (right_edge : float) : option string :=
  if PrimFloat.ltb (Words.distance right_edge BALANCE_X1) COL_TOL then Some "balance"
  else if PrimFloat.ltb (Words.distance right_edge DEPOSIT_X1) COL_TOL then Some "credit"
  else if PrimFloat.ltb (Words.distance right_edge WITHDRAWAL_X1) COL_TOL then Some "debit"
  else None.

Definition in_description_zone (w : word) : bool :=
  PrimFloat.leb DESC_X0_MIN (x0 w) && PrimFloat.leb (x0 w) DESC_X0_MAX.

(** The fields gathered from a dated row. *)
Record fields : Type := Fields {
  desc_parts : list string;
  withdrawal : pyval;
  deposit : pyval;
  balance : pyval
}.

(** [float(clean)] for a text the amount pattern matched. *)
Definition amount_value (clean : string) : float :=
  default PyFloat.zero (PyFloat.of_string clean).

(** The loop over the words of a dated row; [date_index] is where the date
    word stands in the row.  The first [AMT_PAT] test of the source has an
    empty body and is left out. *)
Fixpoint gather (i date_index : nat) (row_words : list word) (acc : fields) : fields :=
  match row_words with
  | [] => acc
  | w :: rest =>
      let txt := Str.strip (text w) in
      let acc' :=
        if Str.is_empty txt || (i =? date_index)%nat then acc
        else
          let clean := Str.replace "," EmptyString txt in
          let described :=
            if in_description_zone w
            then Fields (desc_parts acc ++ [txt]) (withdrawal acc) (deposit acc) (balance acc)
            else acc in
          if Re.matches amount_re clean then
            match amount_column (x1 w) with
            | Some "balance" =>
                Fields (desc_parts acc) (withdrawal acc) (deposit acc)
                  (PFloat (amount_value clean))
            | Some "credit" =>
                Fields (desc_parts acc) (withdrawal acc) (PFloat (amount_value clean))
                  (balance acc)
            | Some _ =>
                Fields (desc_parts acc) (PFloat (amount_value clean)) (deposit acc)
                  (balance acc)
            | None => described
            end
          else described in
      gather (S i) date_index rest acc'
  end.

(** The index of the first word left of [DATE_X0_MAX] whose text is a date. *)
Fixpoint find_date (i : nat) (row_words : list word) : option (nat * word) :=
  match row_words with
  | [] => None
  | w :: rest =>
      if PrimFloat.ltb (x0 w) DATE_X0_MAX && Re.matches DATE_PAT (text w)
      then Some (i, w)
      else find_date (S i) rest
  end.

(** The state of the scan of one page. *)
Record scan : Type := Scan {
  last_date_y : float;
  emitted : list transaction
}.

(** One turn of the loop over the rows of a page. *)
Definition scan_row (st : scan) (row : float * list word) : scan :=
  let '(y, ws) := row in
  let row_words := Words.sort_by x0 ws in
  let row_text :=
    Str.join EmptyString
      (map (fun w => Str.replace " " EmptyString (Str.upper (text w))) row_words) in
  if Str.contains_any SKIP_KEYWORDS row_text then st
  else
    match find_date 0 row_words with
    | Some (date_index, date_word) =>
        let f := gather 0 date_index row_words
                   (Fields [] Py.empty_str Py.empty_str Py.empty_str) in
        let description := Str.join " " (desc_parts f) in
        Scan y
          (emitted st ++
           [Py.record (text date_word) description (withdrawal f) (deposit f)
              (balance f) (_determine_ledger description)])
    | None =>
        let parts :=
          map (fun w => Str.strip (text w)) (List.filter in_description_zone row_words) in
        if negb (Py.is_nil (emitted st))
           && PrimFloat.ltb PyFloat.zero (last_date_y st)
           && PrimFloat.ltb (PrimFloat.sub y (last_date_y st)) CONTINUATION_MAX_GAP
           && negb (Py.is_nil parts)
        then Scan (last_date_y st)
               (Py.extend_last (Str.join " " parts) (emitted st))
        else st
    end.

(** The body of the loop over the pages: the words of one page. *)
Definition scan_page (transactions : list transaction) (words : list word)
    : list transaction :=
  match words with
  | [] => transactions
  | _ =>
      let rows := Words.sort_by fst (_group_words_by_y words) in
      emitted (fold_left scan_row rows (Scan (-999)%float transactions))
  end.

(** [parse_hdfc_bank], given the words of each page. *)
Definition parse_hdfc_bank (pages : list (list word)) : list transaction :=
  fold_left scan_page pages [].

End HdfcBank.

(** ** [parsers/sbi_bank.py]: amounts and their columns *)

Module SbiBank.

Definition _DEFAULT_DEBIT_X1 : float := 414.4%float.
Definition _DEFAULT_CREDIT_X1 : float := 477.8%float.
Definition _DEFAULT_BALANCE_X1 : float := 557%float.
Definition _COL_TOLERANCE : float := 15%float.

(** [_classify_col]: [None] is Python's [None]. *)
Definition _classify_col (right_edge debit_x1 credit_x1 balance_x1 : float)
    : option string :=
  let diffs :=
    [("credit", Words.distance right_edge credit_x1);
     ("balance", Words.distance right_edge balance_x1)] in
  let best := Words.min_from ("debit", Words.distance right_edge debit_x1) diffs in
  if PrimFloat.leb (snd best) _COL_TOLERANCE then Some (fst best) else None.

(** [_is_amount]: [^\d+\.\d{2}$] on the text without commas *)
Definition amount_re : Re.regex :=
  Re.Seqs [Re.Bol; Re.Plus Re.digit; Re.char "."; Re.Rep 2 Re.digit; Re.Eol].

Definition _is_amount (txt : string) : bool :=
  Re.matches amount_re (Str.strip (Str.replace "," EmptyString txt)).

(** The loop of [_process_page] that sorts the words of a row into the
    [amounts] dictionary and the other words. *)
Fixpoint classify_row (debit_x1 credit_x1 balance_x1 : float) (rw : list word)
    (amounts : gmap string string) (non_amount_words : list word)
    : gmap string string * list word :=
  match rw with
  | [] => (amounts, non_amount_words)
  | w :: rest =>
      let txt := Str.strip (text w) in
      if _is_amount txt then
        match _classify_col (x1 w) debit_x1 credit_x1 balance_x1 with
        | Some col =>
            classify_row debit_x1 credit_x1 balance_x1 rest (<[col := txt]> amounts)
              non_amount_words
        | None =>
            classify_row debit_x1 credit_x1 balance_x1 rest amounts
              (non_amount_words ++ [w])
        end
      else
        classify_row debit_x1 credit_x1 balance_x1 rest amounts (non_amount_words ++ [w])
  end.

(** [amounts.get(col, '')] *)
Definition amount_of (amounts : gmap string string) (col : string) : pyval :=
  PStr (default EmptyString (amounts !! col)).

(** The record [_process_page] appends for a row with amounts. *)
Definition row_record (date_str description : string) (amounts : gmap string string)
    (ledger : string) : transaction :=
  Py.record date_str description (amount_of amounts "debit") (amount_of amounts "credit")
    (amount_of amounts "balance") ledger.


Definition _determine_ledger (description : string) : string :=
  let desc := Str.upper description in
  if Str.contains_any ["UPI"; "IMPS"; "NEFT"; "RTGS"] desc then
    if Str.contains_any ["ZOMATO"; "SWIGGY"; "FOOD"] desc then "Food & Dining"
    else if Str.contains_any ["NETFLIX"; "SPOTIFY"; "AMAZON PRIME"; "HOTSTAR"] desc
    then "Entertainment"
    else if Str.contains_any ["ZERODHA"; "GROWW"; "ANGEL"; "BROKER"] desc
    then "Investment"
    else if Str.contains_any ["ELECTRICITY"; "WATER"; "GAS"; "BROADBAND"; "AIRTEL"; "JIO";
                              "RECHARGE"] desc
    then "Utilities"
    else if Str.contains_any ["INSURANCE"; "LIC"; "POLICY"] desc then "Insurance"
    else if Str.contains_any ["RENT"] desc then "Rent"
    else if Str.contains_any ["SBI CARD"; "CREDIT CARD"; "CC PAYMENT"; "SBICARDSAN"] desc
    then "Credit Card Payment"
    else "Transfer"
  else if Str.contains "SALARY" desc || Str.contains "SAL" desc then "Salary"
  else if Str.contains "INTEREST" desc || Str.contains "INT.COLL" desc then "Interest"
  else if Str.contains "ATM" desc || Str.contains "CASH" desc then "Cash"
  else if Str.contains "EMI" desc then "EMI/Loan"
  else if Str.contains "TAX" desc || Str.contains "GST" desc || Str.contains "TDS" desc
  then "Tax"
  else "General".

(** *** The pages *)

(** [^\d{1,2}$], [^\d{4}$] and [\(cid:\d+\)] *)
Definition day_re : Re.regex := Re.Seqs [Re.Bol; Re.Range 1 2 Re.digit; Re.Eol].

Definition year_re : Re.regex := Re.Seqs [Re.Bol; Re.Rep 4 Re.digit; Re.Eol].

Definition cid_re : Re.regex :=
  Re.Seqs [Re.Lit "(cid:"; Re.Plus Re.digit; Re.char ")"].

Definition month_names : list string :=
  ["jan"; "feb"; "mar"; "apr"; "may"; "jun"; "jul"; "aug"; "sep"; "oct"; "nov"; "dec"].

(** [t.lower()[:3] in month_names] *)
Definition is_month (t : string) : bool :=
  existsb (String.eqb (Str.take_chars 3 (Str.lower t))) month_names.

Definition noise_words : list string := ["TO"; "BY"; "TRANSFER-"; "TRANSFER"; "FROM"].

(** The keywords of the rows that are skipped, searched whatever the case. *)
Definition skip_re : Re.regex :=
  Re.Alts
    [Re.LitCI "txn date"; Re.LitCI "value date"; Re.LitCI "account name";
     Re.LitCI "account number"; Re.LitCI "account description"; Re.LitCI "branch";
     Re.LitCI "drawing power"; Re.LitCI "interest rate"; Re.LitCI "mod balance";
     Re.LitCI "cif no"; Re.LitCI "ckycr"; Re.LitCI "ifs code"; Re.LitCI "micr";
     Re.LitCI "nomination"; Re.LitCI "balance as on"; Re.LitCI "account statement";
     Re.LitCI "please do not"; Re.LitCI "computer generated";
     Re.LitCI "indian financial"; Re.LitCI "magnetic ink"; Re.LitCI "page no";
     Re.LitCI "address"; Re.LitCI "opening balance"; Re.LitCI "closing balance";
     Re.LitCI "lien amount"].

(** The footer pattern of [parse_sbi_bank], whatever the case:
    [\b(bank never asks|...|Date No\.)\b.*$] *)
Definition footer_re : Re.regex :=
  Re.Seqs
    [Re.WordB;
     Re.Group 1
       (Re.Alts
          [Re.LitCI "bank never asks"; Re.LitCI "do not share";
           Re.LitCI "computer generated"; Re.Seq (Re.LitCI "page ") Re.digit;
           Re.LitCI "disclaimer"; Re.LitCI "helpline"; Re.LitCI "customer care";
           Re.LitCI "toll free"; Re.LitCI "Ref No./Cheque"; Re.LitCI "Date No."]);
     Re.WordB; Re.Star Re.dot; Re.Eol].

(** The right edges of the three amount columns. *)
Record columns : Type := Columns {
  debit_x1 : float;
  credit_x1 : float;
  balance_x1 : float
}.

Definition default_columns : columns :=
  Columns _DEFAULT_DEBIT_X1 _DEFAULT_CREDIT_X1 _DEFAULT_BALANCE_X1.

(** The loop over the words that reads the header: the columns and
    [header_y].  [None] when [round] raises. *)
Fixpoint read_header (words : list word) (cols : columns) (header_y : option Z)
    : option (columns * option Z) :=
  match words with
  | [] => Some (cols, header_y)
  | w :: rest =>
      let t := Str.lower (Str.strip (text w)) in
      if String.eqb t "debit" && PrimFloat.ltb 350%float (x0 w) then
        match PyFloat.round_int (top w) with
        | Some y =>
            read_header rest (Columns (x1 w) (credit_x1 cols) (balance_x1 cols)) (Some y)
        | None => None
        end
      else if String.eqb t "credit" && PrimFloat.ltb 400%float (x0 w) then
        read_header rest (Columns (debit_x1 cols) (x1 w) (balance_x1 cols)) header_y
      else if String.eqb t "balance" && PrimFloat.ltb 480%float (x0 w) then
        read_header rest (Columns (debit_x1 cols) (credit_x1 cols) (x1 w)) header_y
      else read_header rest cols header_y
  end.

(** What the loop over the rows carries: the list, the local [last_date]
    and [last_year], and the entry [state['last_year']], which rows
    without amounts write. *)
Record scan : Type := Scan {
  emitted : list transaction;
  last_date : string;
  last_year : string;
  state_last_year : string
}.

(** A row without amounts: the words of the description area, years left
    of 200 apart; such a year is written to [state['last_year']]. *)
Fixpoint continuation_parts (non_amount_words : list word) (extra_parts : list string)
    (state_year : string) : list string * string :=
  match non_amount_words with
  | [] => (extra_parts, state_year)
  | w :: rest =>
      if PrimFloat.ltb 90%float (x0 w) && PrimFloat.ltb (x1 w) 400%float then
        let txt := Str.strip (text w) in
        if Re.matches year_re txt && PrimFloat.ltb (x0 w) 200%float
        then continuation_parts rest extra_parts txt
        else continuation_parts rest (extra_parts ++ [txt]) state_year
      else continuation_parts rest extra_parts state_year
  end.

(** The loop that reads the date from the words left of 100: a day, then
    month names, then a year, which ends the loop.  It gives the parts, the
    local [last_year] and the positions of the words it took. *)
Fixpoint read_date (idx : nat) (non_amount_words : list word) (date_parts : list string)
    (year : string) (consumed : list nat) : list string * string * list nat :=
  match non_amount_words with
  | [] => (date_parts, year, consumed)
  | w :: rest =>
      let t := Str.strip (text w) in
      if PrimFloat.ltb (x0 w) 100%float then
        if Re.matches day_re t && Py.is_nil date_parts
        then read_date (S idx) rest (date_parts ++ [t]) year (consumed ++ [idx])
        else if negb (Py.is_nil date_parts) && is_month t
        then read_date (S idx) rest (date_parts ++ [t]) year (consumed ++ [idx])
        else if negb (Py.is_nil date_parts) && Re.matches year_re t
        then (date_parts ++ [t], t, consumed ++ [idx])
        else read_date (S idx) rest date_parts year consumed
      else read_date (S idx) rest date_parts year consumed
  end.

(** The loop that gathers the description of a row with amounts. *)
Fixpoint read_description (idx : nat) (non_amount_words : list word)
    (consumed : list nat) (desc_parts : list string) (year : string)
    : list string * string :=
  match non_amount_words with
  | [] => (desc_parts, year)
  | w :: rest =>
      let txt := Str.strip (text w) in
      if existsb (Nat.eqb idx) consumed
      then read_description (S idx) rest consumed desc_parts year
      else if PrimFloat.leb 90%float (x0 w) && PrimFloat.ltb (x0 w) 145%float
              && (Re.matches day_re txt || is_month txt || Re.matches year_re txt)
      then read_description (S idx) rest consumed desc_parts
             (if Re.matches year_re txt then txt else year)
      else if Re.matches year_re txt && PrimFloat.ltb (x0 w) 200%float
      then read_description (S idx) rest consumed desc_parts txt
      else if PrimFloat.leb 130%float (x0 w) && PrimFloat.ltb (x1 w) 370%float
              && negb (existsb (String.eqb txt) noise_words)
      then read_description (S idx) rest consumed (desc_parts ++ [txt]) year
      else read_description (S idx) rest consumed desc_parts year
  end.

(** [re.sub(r'\s+', ' ', d).strip()], then [re.sub(r'\(cid:\d+\)', '', d).strip()] *)
Definition clean_description (description : string) : string :=
  Str.strip (Re.sub cid_re EmptyString (Str.strip (Pat.collapse_spaces description))).

(** One turn of the loop over the rows. *)
Definition process_row (cols : columns) (header_y : option Z) (st : scan)
    (row : Z * list word) : scan :=
  let '(y, ws) := row in
  if Words.at_or_above header_y y then st
  else
    let rw := Words.sort_by x0 ws in
    let line_text := Str.join " " (map text rw) in
    if Re.found skip_re line_text then st
    else
      let '(amounts, non_amount_words) :=
        classify_row (debit_x1 cols) (credit_x1 cols) (balance_x1 cols) rw ∅ [] in
      if bool_decide (amounts = ∅) then
        if Py.is_nil (emitted st) then st
        else
          let '(extra_parts, state_year) :=
            continuation_parts non_amount_words [] (state_last_year st) in
          let extra := Str.strip (Str.join " " extra_parts) in
          Scan (if Str.is_empty extra then emitted st
                else Py.extend_last extra (emitted st))
            (last_date st) (last_year st) state_year
      else
        let '(date_parts, year, consumed) :=
          read_date 0 non_amount_words [] (last_year st) [] in
        let date_str :=
          if Py.is_nil date_parts then last_date st
          else if (length date_parts =? 2)%nat && negb (Str.is_empty year)
          then Str.join " " (date_parts ++ [year])
          else Str.join " " date_parts in
        let '(desc_parts, year) :=
          read_description 0 non_amount_words consumed [] year in
        let description := clean_description (Str.join " " desc_parts) in
        Scan (emitted st ++
              [row_record date_str description amounts (_determine_ledger description)])
          date_str year (state_last_year st).

(** What [_process_page] leaves behind: the list, the columns for the next
    page, and the two entries of [state]. *)
Record page_result : Type := PageResult {
  transactions_after : list transaction;
  col_x1 : option columns;
  state_date : string;
  state_year : string
}.

(** [_process_page], given the words of the page; [None] when [round]
    raises on a top that is not a finite number. *)
Definition _process_page (words : list word) (before : page_result)
    : option page_result :=
  match words with
  | [] => Some before
  | _ =>
      match read_header words (default default_columns (col_x1 before)) None with
      | None => None
      | Some (cols, header_y) =>
          match Words.rows_by_round words [] with
          | None => None
          | Some rows =>
              let st :=
                fold_left (process_row cols header_y) (Words.sort_rows rows)
                  (Scan (transactions_after before) (state_date before)
                     (state_year before) (state_year before)) in
              Some (PageResult (emitted st) (Some cols) (last_date st) (last_year st))
          end
      end
  end.

(** The loop of [parse_sbi_bank] over the records: the description is
    cleaned once more, of footers too, and the ledger is set from it. *)
Definition finish_record (txn : transaction) : transaction :=
  match txn !! "description" with
  | Some (PStr d) =>
      let desc := Str.strip (Pat.collapse_spaces d) in
      let desc := Str.strip (Re.sub footer_re EmptyString desc) in
      let desc := Str.strip (Re.sub cid_re EmptyString desc) in
      <["ledger" := PStr (_determine_ledger desc)]>
        (<["description" := PStr desc]> txn)
  | _ => txn
  end.

(** The loop over the pages. *)
Fixpoint read_pages (pages : list (list word)) (before : page_result)
    : option page_result :=
  match pages with
  | [] => Some before
  | words :: rest =>
      match _process_page words before with
      | Some after => read_pages rest after
      | None => None
      end
  end.

(** [parse_sbi_bank], given the words of each page. *)
Definition parse_sbi_bank (pages : list (list word)) : option (list transaction) :=
  match read_pages pages (PageResult [] None EmptyString EmptyString) with
  | Some result => Some (map finish_record (transactions_after result))
  | None => None
  end.

End SbiBank.

(** ** [parsers/rbl_bank.py]: amounts and their columns *)

Module RblBank.

Definition withdrawal_x1 : float := 537%float.
Definition deposit_x1 : float := 628%float.
Definition balance_x1 : float := 766%float.
Definition COL_TOL : float := 25%float.

(** [^[\d,]+\.\d{2}$] *)
Definition amount_re : Re.regex := Re.Seqs [Re.Bol; Pat.amount; Re.Eol].

(** The column of an amount word in [_process_page_words]. *)
Definition amount_column (right_edge : float) : option string :=
  let diffs :=
    [("credit", Words.distance right_edge deposit_x1);
     ("balance", Words.distance right_edge balance_x1)] in
  let best := Words.min_from ("debit", Words.distance right_edge withdrawal_x1) diffs in
  if PrimFloat.leb (snd best) COL_TOL then Some (fst best) else None.


Definition _determine_ledger (description : string) : string :=
  let desc := Str.upper description in
  if Str.contains_any ["UPI"; "IMPS"; "NEFT"; "RTGS"] desc then
    if Str.contains_any ["SWIGGY"; "ZOMATO"] desc then "Food & Dining"
    else if Str.contains_any ["NETFLIX"; "SPOTIFY"; "APPLE"] desc then "Entertainment"
    else "Transfer"
  else if Str.contains "INT.PD" desc || Str.contains "INTEREST" desc then "Interest"
  else if Str.contains "GST" desc then "Fees & Charges"
  else if Str.contains "SMS" desc || Str.contains "ALERT" desc then "Fees & Charges"
  else if Str.contains "IMPS CHARGE" desc then "Fees & Charges"
  else "General".

(** The keywords of the rows that are skipped, searched whatever the case;
    one of them, [page \d], ends with a digit. *)
Definition skip_re : Re.regex :=
  Re.Alts
    [Re.LitCI "accountholder"; Re.LitCI "customer address"; Re.LitCI "home branch";
     Re.LitCI "phone"; Re.LitCI "email"; Re.LitCI "nomination"; Re.LitCI "cif id";
     Re.LitCI "a/c currency"; Re.LitCI "a/c type"; Re.LitCI "a/c status";
     Re.LitCI "statement of transaction"; Re.LitCI "period:";
     Re.LitCI "transaction date"; Re.LitCI "transaction details";
     Re.LitCI "cheque id"; Re.LitCI "value date"; Re.LitCI "statement summary";
     Re.LitCI "opening balance"; Re.LitCI "closing balance"; Re.LitCI "eff avail";
     Re.LitCI "date and time"; Re.Seq (Re.LitCI "page ") Re.digit;
     Re.LitCI "disclaimer"; Re.LitCI "lien"; Re.LitCI "sanction";
     Re.LitCI "drawing power"; Re.LitCI "branch timings"; Re.LitCI "call center";
     Re.LitCI "branch phone"; Re.LitCI "total"].

(** [^\d{1,2}/\d{1,2}/\d{4}$] *)
Definition date_re : Re.regex := Re.Seqs [Re.Bol; Pat.date_slash; Re.Eol].

(** The loop that finds [header_y]: the rounded top of the first word that
    names the withdrawal column or the transaction date.  The outer
    [option] is [None] when [round] raises. *)
Fixpoint find_header (words : list word) : option (option Z) :=
  match words with
  | [] => Some None
  | w :: rest =>
      let t := Str.lower (Str.strip (text w)) in
      if Str.contains "withdrawal" t || Str.contains "transaction date" t
      then match PyFloat.round_int (top w) with
           | Some y => Some (Some y)
           | None => None
           end
      else find_header rest
  end.

(** The loop that sorts the words of a row into the [amounts] dictionary
    and the other words. *)
Fixpoint classify_row (rw : list word) (amounts : gmap string string)
    (non_amount_words : list word) : gmap string string * list word :=
  match rw with
  | [] => (amounts, non_amount_words)
  | w :: rest =>
      let txt := Str.strip (text w) in
      if Re.matches amount_re txt then
        match amount_column (x1 w) with
        | Some col => classify_row rest (<[col := txt]> amounts) non_amount_words
        | None => classify_row rest amounts (non_amount_words ++ [w])
        end
      else classify_row rest amounts (non_amount_words ++ [w])
  end.

(** [amounts.get(col, '')] *)
Definition amount_of (amounts : gmap string string) (col : string) : pyval :=
  PStr (default EmptyString (amounts !! col)).

(** [transactions[-1]['date']]; the records of the list are this parser's,
    whose dates are texts. *)
Definition last_date (transactions : list transaction) : string :=
  match last transactions with
  | Some t => match t !! "date" with Some (PStr d) => d | _ => EmptyString end
  | None => EmptyString
  end.

(** The date of a row with amounts: the first word left of 100 that is a
    date, or the date of the record before. *)
Fixpoint find_date (non_amount_words : list word) : string :=
  match non_amount_words with
  | [] => EmptyString
  | w :: rest =>
      if Re.matches date_re (Str.strip (text w)) && PrimFloat.ltb (x0 w) 100%float
      then Str.strip (text w)
      else find_date rest
  end.

(** The description of a row with amounts: the words of the middle area
    that are not dates. *)
Definition description_parts (non_amount_words : list word) : list string :=
  map (fun w => Str.strip (text w))
    (List.filter
       (fun w => negb (Re.matches date_re (Str.strip (text w)))
                 && PrimFloat.leb 70%float (x0 w) && PrimFloat.ltb (x1 w) 380%float)
       non_amount_words).

(** The words a row without amounts adds to the description before. *)
Definition continuation_words (non_amount_words : list word) : list string :=
  map text
    (List.filter (fun w => PrimFloat.ltb 15%float (x0 w) && PrimFloat.ltb (x1 w) 400%float)
       non_amount_words).

(** One turn of the loop over the rows. *)
Definition process_row (header_y : option Z) (transactions : list transaction)
    (row : Z * list word) : list transaction :=
  let '(y, ws) := row in
  if Words.at_or_above header_y y then transactions
  else
    let rw := Words.sort_by x0 ws in
    let line_text := Str.join " " (map text rw) in
    if Re.found skip_re line_text then transactions
    else
      let '(amounts, non_amount_words) := classify_row rw ∅ [] in
      if bool_decide (amounts = ∅) then
        let desc_words := continuation_words non_amount_words in
        if negb (Py.is_nil transactions) && negb (Py.is_nil desc_words)
        then Py.extend_last (Str.join " " desc_words) transactions
        else transactions
      else
        let date_str := find_date non_amount_words in
        let date_str :=
          if Str.is_empty date_str && negb (Py.is_nil transactions)
          then last_date transactions
          else date_str in
        let description := Str.join " " (description_parts non_amount_words) in
        transactions ++
        [Py.record date_str description (amount_of amounts "debit")
           (amount_of amounts "credit") (amount_of amounts "balance") EmptyString].

(** [_process_page_words], given the words of the page: the list
    afterwards, or [None] when [round] raises on a top that is not a
    finite number. *)
Definition _process_page_words (words : list word) (transactions : list transaction)
    : option (list transaction) :=
  match words with
  | [] => Some transactions
  | _ =>
      match find_header words with
      | None => None
      | Some header_y =>
          match Words.rows_by_round words [] with
          | None => None
          | Some rows =>
              Some (fold_left (process_row header_y) (Words.sort_rows rows) transactions)
          end
      end
  end.

(** [\(cid:\d+\)] *)
Definition cid_re : Re.regex :=
  Re.Seqs [Re.Lit "(cid:"; Re.Plus Re.digit; Re.char ")"].

(** The loop of [parse_rbl_bank] over the records: the description is
    cleaned and the ledger is set from it. *)
Definition clean_record (txn : transaction) : transaction :=
  match txn !! "description" with
  | Some (PStr d) =>
      let desc := Str.strip (Pat.collapse_spaces d) in
      let desc := Str.strip (Re.sub cid_re EmptyString desc) in
      <["ledger" := PStr (_determine_ledger desc)]>
        (<["description" := PStr desc]> txn)
  | _ => txn
  end.

(** The loop over the pages. *)
Fixpoint read_pages (pages : list (list word)) (transactions : list transaction)
    : option (list transaction) :=
  match pages with
  | [] => Some transactions
  | words :: rest =>
      match _process_page_words words transactions with
      | Some transactions' => read_pages rest transactions'
      | None => None
      end
  end.

(** [parse_rbl_bank], given the words of each page. *)
Definition parse_rbl_bank (pages : list (list word)) : option (list transaction) :=
  match read_pages pages [] with
  | Some transactions => Some (map clean_record transactions)
  | None => None
  end.

End RblBank.

(** * Properties *)

(** ** Terms in which the properties are stated *)

Module Claim.

(** A balance that is present and not zero: not [None], not [''], and not
    zero, neither as a number nor as the text of one. *)
Definition reads_as_zero (s : string) : bool :=
  match PyFloat.of_string s with
  | Some f => PrimFloat.eqb f PyFloat.zero
  | None => false
  end.

Definition nonempty_nonzero (v : pyval) : bool :=
  match v with
  | PNone => false
  | PStr s => negb (Str.is_empty s) && negb (reads_as_zero s)
  | PInt z => negb (z =? 0)%Z
  | PFloat f => negb (PrimFloat.eqb f PyFloat.zero)
  end.

(** [sum(xs)] on floats, added left to right. *)
Definition py_sum (xs : list float) : float := fold_left PrimFloat.add xs PyFloat.zero.

Definition debit_of (t : transaction) : float :=
  Normalizer._to_float (Py.get t "debit" (PInt 0)).

Definition credit_of (t : transaction) : float :=
  Normalizer._to_float (Py.get t "credit" (PInt 0)).

(** The closed form [round(sum(credit[0..i]) - sum(debit[0..i]), 2)]. *)
Definition closed_form_balance (transactions : list transaction) (i : nat) : float :=
  let upto := take (S i) transactions in
  PyFloat.round2
    (PrimFloat.sub (py_sum (map credit_of upto)) (py_sum (map debit_of upto))).

(** The balances a list of records carries. *)
Definition balances (transactions : list transaction) : list (option pyval) :=
  map (fun t => t !! "balance") transactions.

End Claim.

(** ** The normaliser *)

Section NormalizerFacts.
Import Normalizer.

Lemma nonempty_nonzero_not_blank (v : pyval) :
  Claim.nonempty_nonzero v = true -> blank_balance v = false.
Proof.
  destruct v as [|s|z|f]; simpl; try discriminate.
  - unfold blank_balance; simpl.
    destruct (String.eqb_spec s EmptyString) as [->|Hne]; [discriminate|].
    destruct (String.eqb_spec s "0") as [->|Hz]; [discriminate|].
    reflexivity.
  - unfold blank_balance; simpl. now rewrite negb_true_iff.
  - unfold blank_balance; simpl. now rewrite negb_true_iff.
Qed.

Lemma fill_from_lookup (transactions : list transaction) :
  forall (running : float) (i : nat) (t : transaction),
    transactions !! i = Some t ->
    fill_from running transactions !! i =
    Some (<["balance" :=
             PFloat (PyFloat.round2 (fold_left step (take (S i) transactions) running))]> t).
Proof.
  induction transactions as [|t0 rest IH]; intros running i t Hi.
  - discriminate.
  - destruct i as [|i]; simpl in *.
    + now inversion Hi.
    + now apply IH.
Qed.

Lemma fill_from_length (transactions : list transaction) (running : float) :
  length (fill_from running transactions) = length transactions.
Proof.
  revert running; induction transactions as [|t rest IH]; intros running; simpl;
    [reflexivity | now rewrite IH].
Qed.

End NormalizerFacts.

(** C5.  When at least one record of the list already carries a balance
    that is neither empty nor zero, [_fill_running_balance] leaves the
    list as it is: every field of every record is unchanged and no record
    is given a balance. *)
Theorem fill_running_balance_noop (transactions : list transaction) :
  (exists t, t ∈ transactions /\
             Claim.nonempty_nonzero (Py.get t "balance" PNone) = true) ->
  Normalizer._fill_running_balance transactions = transactions.
Proof.
  intros (t & Hin & Hbal).
  unfold Normalizer._fill_running_balance.
  assert (Normalizer.has_balance transactions = true) as ->; [|reflexivity].
  unfold Normalizer.has_balance.
  apply existsb_exists. exists t. split.
  - now apply list_elem_of_In.
  - now rewrite (nonempty_nonzero_not_blank _ Hbal).
Qed.

Definition partly_filled : list transaction :=
  [ {[ "debit" := PStr "100.00"; "credit" := PStr EmptyString;
       "balance" := PStr EmptyString ]};
    {[ "debit" := PStr EmptyString; "credit" := PStr "500.00";
       "balance" := PStr "1,400.00" ]};
    {[ "debit" := PFloat 50; "credit" := PStr EmptyString ]} ].

Lemma fill_running_balance_noop_witness :
  Normalizer._fill_running_balance partly_filled = partly_filled.
Proof.
  apply fill_running_balance_noop.
  exists ({[ "debit" := PStr EmptyString; "credit" := PStr "500.00";
             "balance" := PStr "1,400.00" ]}).
  split; [|vm_compute; reflexivity].
  unfold partly_filled. apply list_elem_of_further, list_elem_of_here.
Defined.

(** C1, as amended.  When no record carries a balance other than [None],
    [''], ['0'] or a numeric zero, [_fill_running_balance] writes into
    every record, in document order, the running total rounded to two
    places, where the running total starts at [0.0] and each record turns
    [running] into [(running - debit) + credit] in double precision; a
    debit or credit that is missing, empty or not a number counts as 0.
    The other keys of the records are left as they are. *)
Theorem fill_running_balance_running_total (transactions : list transaction) :
  Normalizer.has_balance transactions = false ->
  length (Normalizer._fill_running_balance transactions) = length transactions /\
  forall (i : nat) (t : transaction),
    transactions !! i = Some t ->
    Normalizer._fill_running_balance transactions !! i =
    Some (<["balance" :=
             PFloat (PyFloat.round2
                       (Normalizer.running_total (take (S i) transactions)))]> t).
Proof.
  intros Hnone. unfold Normalizer._fill_running_balance. rewrite Hnone. split.
  - apply fill_from_length.
  - intros i t Hi. now apply fill_from_lookup.
Qed.

(** The scenario of the specification: debits and credits (100, 0),
    (0, 500), (50, 0) and no balance give -100.0, 400.0, 350.0. *)
Definition three_records : list transaction :=
  [ {[ "debit" := PInt 100; "credit" := PInt 0 ]};
    {[ "debit" := PInt 0; "credit" := PInt 500 ]};
    {[ "debit" := PInt 50; "credit" := PInt 0 ]} ].

Example backfill_scenario :
  Claim.balances (Normalizer._fill_running_balance three_records) =
  [Some (PFloat (-100)); Some (PFloat 400); Some (PFloat 350)].
Proof. vm_compute. reflexivity. Qed.

Lemma fill_running_balance_running_total_witness :
  Normalizer.has_balance three_records = false /\
  Normalizer._fill_running_balance three_records !! 2 =
  Some (<["balance" := PFloat 350]> {[ "debit" := PInt 50; "credit" := PInt 0 ]}).
Proof.
  split; [reflexivity|].
  exact (proj2 (fill_running_balance_running_total three_records eq_refl) 2
           {[ "debit" := PInt 50; "credit" := PInt 0 ]} eq_refl).
Defined.

(** C1 as stated fails: a credit of 1e16 followed by two debits of 1.0.
    Each debit is lost when it is taken from the running total (1e16 - 1
    rounds back to 1e16), so the third balance is 1e16, whereas the sums
    of the closed form are exact and give 1e16 - 2. *)
Definition large_then_small : list transaction :=
  [ {[ "debit" := PInt 0; "credit" := PFloat 1e16 ]};
    {[ "debit" := PFloat 1; "credit" := PInt 0 ]};
    {[ "debit" := PFloat 1; "credit" := PInt 0 ]} ].

Lemma closed_form_balance_counterexample :
  Normalizer.has_balance large_then_small = false /\
  Claim.balances (Normalizer._fill_running_balance large_then_small) =
  [Some (PFloat 1e16); Some (PFloat 1e16); Some (PFloat 1e16)] /\
  Claim.closed_form_balance large_then_small 2 = 9999999999999998%float /\
  PrimFloat.eqb 1e16 (Claim.closed_form_balance large_then_small 2) = false.
Proof. vm_compute. repeat split. Qed.

(** ** The detector *)

Module DetectorClaim.
Import Detector.

(** Some Tier-1 phrase condition holds: the disjunction of the conditions
    of the credit-card checks, on the lowered full text and first page. *)
Definition tier1_phrase (text_lower fp_lower : string) : bool :=
  has text_lower "one credit card"
  || (has fp_lower "indusind"
      && (has fp_lower "credit card" || has fp_lower "indusind bank")
      && (has fp_lower "previous balance" || has fp_lower "card statement"
          || has fp_lower "purchases"))
  || (has fp_lower "credit card statement" && has fp_lower "yes bank")
  || (has fp_lower "yes bank" && has fp_lower "card number" && has fp_lower "credit limit")
  || (has fp_lower "sbi card" && (has fp_lower "credit limit" || has fp_lower "stmt no"))
  || ((has fp_lower "xxxx xxxx xxxx" || has fp_lower "stmt no")
      && has fp_lower "sbi" && has fp_lower "credit limit")
  || (has fp_lower "neucoins" || has fp_lower "tata neu")
  || (has fp_lower "hdfc bank credit card"
      || (has fp_lower "hdfc" && has fp_lower "credit card"
          && (has fp_lower "card no" || has fp_lower "statement date")))
  || (has fp_lower "rbl bank"
      && (has fp_lower "credit limit" || has fp_lower "min. amt"
          || has fp_lower "the month gone by" || has fp_lower "account summary")).

(** The labels of the credit-card formats Tier 1 can return. *)
Definition credit_card_label (b : bank_type) : bool :=
  match b with
  | one_credit | indusind_credit | yes_credit | sbi_credit | hdfc_credit
  | rbl_credit => true
  | _ => false
  end.

(** The label the routing code alone stands for, when the text holds a
    code whose prefix is in the bank table. *)
Definition routing_label (source : string) : option bank_type :=
  ifsc_bank_map (ifsc_prefix source).

End DetectorClaim.

Section DetectorFacts.
Import Detector DetectorClaim.

Lemma tier1_phrase_some (text_lower fp_lower : string) :
  tier1_phrase text_lower fp_lower = true ->
  exists label, tier1 text_lower fp_lower = Some label /\ credit_card_label label = true.
Proof.
  unfold tier1_phrase, tier1. intros H.
  repeat match goal with
         | |- context [if ?c then _ else _] =>
             let E := fresh "E" in destruct c eqn:E; [eexists; split; reflexivity|]
         end.
  simpl in H.
  repeat match goal with
         | E : _ = false |- _ => rewrite E in H; clear E
         end.
  discriminate.
Qed.

Lemma tier1_none_phrase (text_lower fp_lower : string) :
  tier1 text_lower fp_lower = None -> tier1_phrase text_lower fp_lower = false.
Proof.
  intros Hnone. destruct (tier1_phrase text_lower fp_lower) eqn:E; [|reflexivity].
  destruct (tier1_phrase_some _ _ E) as (l & Hl & _). congruence.
Qed.

End DetectorFacts.

(** C4.  When the text meets some Tier-1 credit-card phrase condition and
    also holds a routing code whose prefix is in the bank table,
    [detect_bank_type] returns the label of the first Tier-1 check that
    holds, a credit-card label found without reading the routing code; it
    is never the bank-account label the routing code stands for. *)
Theorem tier1_before_routing_code (text : string) (first_page_text : option string)
    (routed : bank_type) :
  let text_lower := Str.lower text in
  let fp_lower := Str.lower (Detector.or_text first_page_text text) in
  DetectorClaim.tier1_phrase text_lower fp_lower = true ->
  DetectorClaim.routing_label (Detector.or_text first_page_text text) = Some routed ->
  Detector.tier1 text_lower fp_lower
    = Some (Detector.detect_bank_type text first_page_text) /\
  DetectorClaim.credit_card_label (Detector.detect_bank_type text first_page_text) = true /\
  (DetectorClaim.credit_card_label routed = false ->
   Detector.detect_bank_type text first_page_text <> routed).
Proof.
  intros text_lower fp_lower Hphrase Hrouted.
  destruct (tier1_phrase_some _ _ Hphrase) as (label & Hlabel & Hcc).
  assert (Detector.detect_bank_type text first_page_text = label) as ->.
  { unfold Detector.detect_bank_type. fold text_lower fp_lower. now rewrite Hlabel. }
  repeat split; try assumption.
  intros Hbank ->. congruence.
Qed.

Lemma tier1_before_routing_code_witness :
  Detector.detect_bank_type "One Credit Card statement, IFSC SBIN0001234" None
    = one_credit /\
  DetectorClaim.routing_label "One Credit Card statement, IFSC SBIN0001234"
    = Some sbi_bank.
Proof.
  pose proof (tier1_before_routing_code
                "One Credit Card statement, IFSC SBIN0001234" None sbi_bank
                eq_refl eq_refl) as (H1 & _ & _).
  split; [|reflexivity].
  vm_compute in H1. now inversion H1.
Defined.

(** C10.  With a first page that is [None] or empty, the first-page
    keyword checks and the routing-code search read the full text: the
    call detects what it detects when the full text is given as the first
    page as well. *)
Theorem first_page_fallback (text : string) :
  Detector.or_text None text = text /\
  Detector.or_text (Some EmptyString) text = text /\
  Detector.detect_bank_type text None = Detector.detect_bank_type text (Some text) /\
  Detector.detect_bank_type text (Some EmptyString)
    = Detector.detect_bank_type text (Some text).
Proof.
  assert (Detector.or_text (Some text) text = text) as Hsame.
  { unfold Detector.or_text. now destruct text. }
  unfold Detector.detect_bank_type. rewrite Hsame. simpl. repeat split.
Qed.

(** A statement found through the fallback: no first page, the routing
    code of the full text decides. *)
Example first_page_fallback_example :
  Detector.detect_bank_type "Account Statement IFS Code: SBIN0004321 Txn Date" None
    = sbi_bank /\
  Detector.detect_bank_type "Account Statement IFS Code: SBIN0004321 Txn Date"
    (Some "Welcome") = unknown.
Proof. vm_compute. split; reflexivity. Qed.

(** ** Blank text *)

Module Blank.

(** Every character is one that [strip] removes. *)
Fixpoint all_space (s : string) : bool :=
  match s with
  | EmptyString => true
  | String c s' => Str.is_space c && all_space s'
  end.

End Blank.

Section BlankFacts.
Import Blank.

Lemma all_space_app (a b : string) :
  all_space (a +:+ b) = all_space a && all_space b.
Proof.
  induction a as [|c a IH]; simpl; [reflexivity|].
  now rewrite IH, andb_assoc.
Qed.

Lemma rstrip_empty (s : string) :
  Str.is_empty (Str.rstrip s) = true -> all_space s = true.
Proof.
  induction s as [|c s IH]; simpl; [reflexivity|].
  destruct (Str.is_empty (Str.rstrip s)) eqn:E; simpl.
  - destruct (Str.is_space c); simpl; [intros _; now apply IH | discriminate].
  - discriminate.
Qed.

Lemma lstrip_all_space (s : string) :
  all_space (Str.lstrip s) = true -> all_space s = true.
Proof.
  induction s as [|c s IH]; simpl; [reflexivity|].
  destruct (Str.is_space c) eqn:E; simpl.
  - exact IH.
  - now rewrite E.
Qed.

Lemma strip_empty (s : string) :
  Str.is_empty (Str.strip s) = true -> all_space s = true.
Proof.
  unfold Str.strip. intros H. now apply lstrip_all_space, rstrip_empty.
Qed.

Lemma all_space_strip_empty (s : string) :
  all_space s = true -> Str.is_empty (Str.strip s) = true.
Proof.
  unfold Str.strip. induction s as [|c s IH]; simpl; [reflexivity|].
  intros [Hc Hs]%andb_prop. rewrite Hc. now apply IH.
Qed.

Lemma space_lower (c : ascii) : Str.is_space (Str.lower_char c) = Str.is_space c.
Proof. destruct c as [[] [] [] [] [] [] [] []]; reflexivity. Qed.

Lemma space_not_word (c : ascii) : Str.is_space c = true -> Str.is_word c = false.
Proof. destruct c as [[] [] [] [] [] [] [] []]; simpl; intros H; try reflexivity; discriminate H. Qed.

Lemma all_space_lower (s : string) : all_space (Str.lower s) = all_space s.
Proof.
  induction s as [|c s IH]; simpl; [reflexivity|].
  unfold Str.lower in IH. now rewrite space_lower, IH.
Qed.

Lemma starts_with_all_space (p s : string) :
  Str.starts_with p s = true -> all_space s = true -> all_space p = true.
Proof.
  revert s; induction p as [|a p IH]; intros s; simpl; [reflexivity|].
  destruct s as [|b s]; [discriminate|]. simpl.
  intros [Hab Hp]%andb_prop [Hb Hs]%andb_prop.
  apply Ascii.eqb_eq in Hab. subst b. rewrite Hb. simpl. now apply (IH s).
Qed.

(** A blank text holds no keyword that has a visible character. *)
Lemma contains_blank (kw s : string) :
  all_space s = true -> all_space kw = false -> Str.contains kw s = false.
Proof.
  intros Hs Hkw. induction s as [|c s IH]; simpl.
  - destruct (Str.starts_with kw EmptyString) eqn:E; [|reflexivity].
    now rewrite (starts_with_all_space _ _ E) in Hkw.
  - simpl in Hs. apply andb_prop in Hs as [Hc Hs].
    destruct (Str.starts_with kw (String c s)) eqn:E.
    + rewrite (starts_with_all_space _ _ E) in Hkw; [discriminate|].
      simpl. now rewrite Hc.
    + simpl. now apply IH.
Qed.

End BlankFacts.

Section BlankDetection.
Import Blank Detector.

Lemma ifsc_no_match_blank (s : string) (before : option ascii) (at_pos : nat)
    (advance : bool) :
  all_space s = true ->
  match before with Some c => Str.is_word c = false | None => True end ->
  Re.match_here advance ifsc_re s before at_pos = None.
Proof.
  intros Hs Hb. unfold Re.match_here, ifsc_re. simpl Re.Seqs.
  assert (Re.word_before (Re.MState s before at_pos []) = false) as Hwb.
  { unfold Re.word_before; simpl. destruct before; [assumption|reflexivity]. }
  assert (Re.word_after (Re.MState s before at_pos []) = false) as Hwa.
  { unfold Re.word_after; simpl. destruct s as [|c s]; [reflexivity|].
    simpl in Hs. apply andb_prop in Hs as [Hc _]. now apply space_not_word. }
  cbn [Re.run]. now rewrite Hwb, Hwa.
Qed.

Lemma ifsc_finditer_blank (s : string) :
  forall (skip : nat) (before : option ascii) (at_pos : nat),
    all_space s = true ->
    match before with Some c => Str.is_word c = false | None => True end ->
    Re.finditer_from ifsc_re skip s before at_pos = [].
Proof.
  induction s as [|c s IH]; intros skip before at_pos Hs Hb.
  - destruct skip; simpl; [|reflexivity].
    unfold Re.matches_here. now rewrite ifsc_no_match_blank.
  - pose proof Hs as Hs'. simpl in Hs'. apply andb_prop in Hs' as [Hc Hrest].
    destruct skip; simpl.
    + unfold Re.matches_here. rewrite ifsc_no_match_blank by assumption. simpl.
      apply IH; [assumption | now apply space_not_word].
    + apply IH; [assumption | now apply space_not_word].
Qed.

Lemma ifsc_prefix_blank (s : string) :
  all_space s = true -> ifsc_prefix s = EmptyString.
Proof.
  intros Hs. unfold ifsc_prefix, Re.findall1, Re.finditer.
  now rewrite ifsc_finditer_blank.
Qed.

(** A text of blanks only is of no known format. *)
Lemma detect_blank (text : string) (first_page_text : option string) :
  all_space text = true ->
  match first_page_text with Some fp => all_space fp = true | None => True end ->
  detect_bank_type text first_page_text = unknown.
Proof.
  intros Ht Hfp.
  assert (all_space (or_text first_page_text text) = true) as Hsrc.
  { unfold or_text. destruct first_page_text as [fp|]; [|assumption].
    now destruct (Str.is_empty fp). }
  assert (forall kw, all_space kw = false -> has (Str.lower text) kw = false) as Hkt.
  { intros kw Hkw. apply contains_blank; [now rewrite all_space_lower | assumption]. }
  assert (forall kw, all_space kw = false ->
                     has (Str.lower (or_text first_page_text text)) kw = false) as Hkf.
  { intros kw Hkw. apply contains_blank; [now rewrite all_space_lower | assumption]. }
  unfold detect_bank_type, tier1, tier2, tier3.
  rewrite (ifsc_prefix_blank _ Hsrc).
  rewrite !Hkt by reflexivity. rewrite !Hkf by reflexivity.
  reflexivity.
Qed.

End BlankDetection.

(** ** The dispatcher *)

Section DispatchFacts.
Import Blank Detector.

Context {file page : Type}.
Variable open_pdf : file -> outcome (list page).
Variable extract_text : page -> outcome (option string).
Variable parser_func : bank_type -> file -> outcome (list transaction).

(** The text of a page is empty: [extract_text] gave [None] or ['']. *)
Definition empty_page (p : page) : Prop :=
  extract_text p = Returns None \/ extract_text p = Returns (Some EmptyString).

Lemma read_pages_blank (pages : list page) :
  forall (i : nat) (full0 first0 full first : string),
    read_pages extract_text i pages full0 first0 = Returns (full, first) ->
    all_space full = true ->
    all_space full0 = true /\ (all_space first0 = true -> all_space first = true).
Proof.
  induction pages as [|p rest IH]; intros i full0 first0 full first Hread Hfull; simpl in Hread.
  - inversion Hread; subst. now split.
  - destruct (extract_text p) as [e|t]; [discriminate|].
    destruct (IH _ _ _ _ _ Hread Hfull) as [Hacc Hfirst].
    rewrite !all_space_app in Hacc.
    apply andb_prop in Hacc as [H0 Hrest]. apply andb_prop in Hrest as [Ht _].
    split; [assumption|]. intros H1. apply Hfirst.
    now destruct (i =? 0)%nat.
Qed.

Lemma read_pages_empty (pages : list page) :
  forall (i : nat) (full0 first0 : string),
    Forall empty_page pages ->
    all_space full0 = true ->
    exists full first,
      read_pages extract_text i pages full0 first0 = Returns (full, first)
      /\ all_space full = true.
Proof.
  induction pages as [|p rest IH]; intros i full0 first0 Hall H0; simpl.
  - now exists full0, first0.
  - inversion Hall as [|? ? Hp Hrest]; subst.
    assert (exists t, extract_text p = Returns t /\ default EmptyString t = EmptyString)
      as (t & -> & ->).
    { destruct Hp as [-> | ->]; eexists; split; reflexivity. }
    apply IH; [assumption|]. rewrite !all_space_app, H0. reflexivity.
Qed.

Lemma parser_map_none (b : bank_type) :
  parser_map parser_func b = None <-> b = unknown.
Proof. destruct b; simpl; split; intros H; try discriminate; reflexivity. Qed.

Lemma parser_map_some (b : bank_type) (label : string)
    (parse : file -> outcome (list transaction)) :
  parser_map parser_func b = Some (label, parse) -> parse = parser_func b.
Proof. destruct b; simpl; intros H; inversion H; reflexivity. Qed.

(** The three ways to no match. *)
Definition no_text (f : file) : Prop :=
  exists pages, open_pdf f = Returns pages /\ Forall empty_page (firstn 3 pages).

Definition unknown_format (f : file) : Prop :=
  exists full_text first_page_text,
    sample_text open_pdf extract_text f = Returns (full_text, first_page_text)
    /\ detect_bank_type full_text (Some first_page_text) = unknown.

Definition empty_result (f : file) : Prop :=
  exists full_text first_page_text,
    sample_text open_pdf extract_text f = Returns (full_text, first_page_text)
    /\ detect_bank_type full_text (Some first_page_text) <> unknown
    /\ parser_func (detect_bank_type full_text (Some first_page_text)) f = Returns [].

(** C7.  [detect_and_parse] returns [None], without raising, exactly when
    every sampled page has an empty text, or the detector's label is
    [unknown], or the parser of the detected format returns no record; in
    the last two cases, as in the first, the value returned is the same
    [None]. *)
Theorem no_match_iff (f : file) :
  detect_and_parse open_pdf extract_text parser_func f = Returns None
  <-> no_text f \/ unknown_format f \/ empty_result f.
Proof.
  unfold detect_and_parse. split.
  - destruct (sample_text open_pdf extract_text f) as [e|[full first]] eqn:Hs.
    { destruct (has (Str.lower e) "password" || has (Str.lower e) "encrypted");
        discriminate. }
    destruct (Str.is_empty (Str.strip full)) eqn:Hblank.
    + intros _. right; left. exists full, first. split; [exact Hs|].
      apply strip_empty in Hblank.
      apply detect_blank; [assumption|].
      unfold sample_text in Hs. destruct (open_pdf f) as [e|pages]; [discriminate|].
      now apply (read_pages_blank _ _ _ _ _ _ Hs Hblank).
    + destruct (parser_map parser_func (detect_bank_type full (Some first)))
        as [[label parse]|] eqn:Hmap.
      * pose proof (parser_map_some _ _ _ Hmap) as ->.
        destruct (parser_func (detect_bank_type full (Some first)) f) as [e|txns] eqn:Hp;
          [discriminate|].
        destruct txns; [|discriminate].
        intros _. right; right. exists full, first. split; [exact Hs|]. split; [|assumption].
        intros Hu. apply parser_map_none in Hu. congruence.
      * intros _. right; left. exists full, first. split; [exact Hs|].
        now apply parser_map_none in Hmap.
  - intros [(pages & Hopen & Hempty) | [(full & first & Hs & Hu) | (full & first & Hs & Hk & Hp)]].
    + unfold sample_text. rewrite Hopen.
      destruct (read_pages_empty (firstn 3 pages) 0 EmptyString EmptyString Hempty eq_refl)
        as (full & first & -> & Hfull).
      now rewrite (all_space_strip_empty _ Hfull).
    + rewrite Hs. destruct (Str.is_empty (Str.strip full)); [reflexivity|].
      rewrite Hu. reflexivity.
    + rewrite Hs. destruct (Str.is_empty (Str.strip full)); [reflexivity|].
      destruct (parser_map parser_func (detect_bank_type full (Some first)))
        as [[label parse]|] eqn:Hmap; [|reflexivity].
      pose proof (parser_map_some _ _ _ Hmap) as ->. now rewrite Hp.
Qed.

End DispatchFacts.

(** ** Order of floats

    [<] and [<=] on floats that are not NaN form a total preorder; the
    facts used below are read off the specification of the comparisons. *)

Module FloatOrder.

Definition not_nan (x : float) : Prop := PrimFloat.is_nan x = false.

Lemma not_nan_spec (x : float) : not_nan x -> Prim2SF x <> S754_nan.
Proof.
  unfold not_nan, PrimFloat.is_nan. rewrite FloatAxioms.eqb_spec. intros H E. rewrite E in H.
  discriminate H.
Qed.

Ltac sf_cases :=
  repeat match goal with
         | |- context [Z.compare ?a ?b] => destruct (Z.compare_spec a b); subst
         | H : context [Z.compare ?a ?b] |- _ => destruct (Z.compare_spec a b); subst
         | |- context [PosDef.Pos.compare_cont Eq ?a ?b] =>
             change (PosDef.Pos.compare_cont Eq a b) with (Pos.compare a b)
         | H : context [PosDef.Pos.compare_cont Eq ?a ?b] |- _ =>
             change (PosDef.Pos.compare_cont Eq a b) with (Pos.compare a b) in H
         | |- context [Pos.compare ?a ?b] => destruct (Pos.compare_spec a b); subst
         | H : context [Pos.compare ?a ?b] |- _ => destruct (Pos.compare_spec a b); subst
         end; simpl in *; try discriminate; try reflexivity; try lia.

Lemma SFltb_total (x y : spec_float) :
  x <> S754_nan -> y <> S754_nan -> SFltb x y = false -> SFleb y x = true.
Proof.
  unfold SFltb, SFleb.
  destruct x as [sx|sx| |sx mx ex], y as [sy|sy| |sy my ey]; simpl; try congruence;
    intros _ _;
    repeat match goal with s : bool |- _ => destruct s end; simpl;
    try discriminate; try reflexivity; sf_cases.
Qed.

Lemma SFltb_leb (x y : spec_float) : SFltb x y = true -> SFleb x y = true.
Proof.
  unfold SFltb, SFleb. destruct (SFcompare x y) as [[]|]; try discriminate; reflexivity.
Qed.

Lemma SFleb_trans (x y z : spec_float) :
  SFleb x y = true -> SFleb y z = true -> SFleb x z = true.
Proof.
  unfold SFleb.
  destruct x as [sx|sx| |sx mx ex], y as [sy|sy| |sy my ey], z as [sz|sz| |sz mz ez];
    simpl; try discriminate;
    repeat match goal with s : bool |- _ => destruct s end; simpl;
    try discriminate; try reflexivity; sf_cases.
Qed.

Lemma SFltb_leb_trans (x y z : spec_float) :
  SFltb x y = true -> SFleb y z = true -> SFltb x z = true.
Proof.
  unfold SFleb, SFltb.
  destruct x as [sx|sx| |sx mx ex], y as [sy|sy| |sy my ey], z as [sz|sz| |sz mz ez];
    simpl; try discriminate;
    repeat match goal with s : bool |- _ => destruct s end; simpl;
    try discriminate; try reflexivity; sf_cases.
Qed.

Lemma SFltb_trans (x y z : spec_float) :
  SFltb x y = true -> SFltb y z = true -> SFltb x z = true.
Proof. intros H1 H2. apply (SFltb_leb_trans x y z H1). now apply SFltb_leb. Qed.

Lemma SFleb_refl (x : spec_float) : x <> S754_nan -> SFleb x x = true.
Proof.
  unfold SFleb. destruct x as [sx|sx| |sx mx ex]; simpl; try congruence; intros _;
    repeat match goal with s : bool |- _ => destruct s end; simpl;
    try reflexivity; rewrite Z.compare_refl;
    change (PosDef.Pos.compare_cont Eq mx mx) with (Pos.compare mx mx);
    now rewrite Pos.compare_refl.
Qed.

Lemma leb_refl (x : float) : not_nan x -> PrimFloat.leb x x = true.
Proof. rewrite FloatAxioms.leb_spec. intros Hx. now apply SFleb_refl, not_nan_spec. Qed.

Lemma ltb_total (x y : float) :
  not_nan x -> not_nan y -> PrimFloat.ltb x y = false -> PrimFloat.leb y x = true.
Proof.
  rewrite FloatAxioms.ltb_spec, FloatAxioms.leb_spec. intros Hx Hy.
  apply SFltb_total; now apply not_nan_spec.
Qed.

Lemma ltb_leb (x y : float) : PrimFloat.ltb x y = true -> PrimFloat.leb x y = true.
Proof. rewrite FloatAxioms.ltb_spec, FloatAxioms.leb_spec. apply SFltb_leb. Qed.

Lemma leb_trans (x y z : float) :
  PrimFloat.leb x y = true -> PrimFloat.leb y z = true -> PrimFloat.leb x z = true.
Proof. rewrite !FloatAxioms.leb_spec. apply SFleb_trans. Qed.

Lemma ltb_leb_trans (x y z : float) :
  PrimFloat.ltb x y = true -> PrimFloat.leb y z = true -> PrimFloat.ltb x z = true.
Proof. rewrite !FloatAxioms.ltb_spec, FloatAxioms.leb_spec. apply SFltb_leb_trans. Qed.

Lemma ltb_trans (x y z : float) :
  PrimFloat.ltb x y = true -> PrimFloat.ltb y z = true -> PrimFloat.ltb x z = true.
Proof. rewrite !FloatAxioms.ltb_spec. apply SFltb_trans. Qed.

End FloatOrder.

(** ** Columns by right edge *)

Module ColumnClaim.

(** A column profile: the amount columns in the order they are declared,
    each with the coordinate expected for its right edge. *)
Definition profile : Type := list (string * float).

(** The column [col] is the nearest one: no column's edge is nearer to
    [right_edge], and every column declared before it is strictly
    farther. *)
Definition first_nearest (edges : profile) (right_edge : float) (col : string) : Prop :=
  exists (i : nat) (e : float),
    edges !! i = Some (col, e) /\
    forall (j : nat) (col' : string) (e' : float),
      edges !! j = Some (col', e') ->
      PrimFloat.leb (Words.distance right_edge e) (Words.distance right_edge e') = true /\
      (j < i ->
       PrimFloat.ltb (Words.distance right_edge e) (Words.distance right_edge e') = true).

(** The edge of [col] lies within the tolerance of [right_edge]. *)
Definition within (tolerance : float) (edges : profile) (right_edge : float)
    (col : string) : Prop :=
  exists e, (col, e) ∈ edges /\
            PrimFloat.leb (Words.distance right_edge e) tolerance = true.

(** No edge lies within the tolerance. *)
Definition outside_all (tolerance : float) (edges : profile) (right_edge : float) : Prop :=
  forall col e, (col, e) ∈ edges ->
                PrimFloat.leb (Words.distance right_edge e) tolerance = false.

(** The profile of [parsers/hdfc_bank.py], as declared. *)
Definition hdfc_profile : profile :=
  [("debit", HdfcBank.WITHDRAWAL_X1); ("credit", HdfcBank.DEPOSIT_X1);
   ("balance", HdfcBank.BALANCE_X1)].

(** The profile of [parsers/rbl_bank.py]. *)
Definition rbl_profile : profile :=
  [("debit", RblBank.withdrawal_x1); ("credit", RblBank.deposit_x1);
   ("balance", RblBank.balance_x1)].

(** The distance of [right_edge] to every edge is a number. *)
Definition measurable (edges : profile) (right_edge : float) : Prop :=
  Forall (fun ce => FloatOrder.not_nan (Words.distance right_edge (snd ce))) edges.

(** The edge lies strictly within the tolerance of [hdfc_bank]. *)
Definition strictly_within (right_edge edge : float) : bool :=
  PrimFloat.ltb (Words.distance right_edge edge) HdfcBank.COL_TOL.

(** The column [col] is the first one, in the order [tried], whose edge
    lies strictly within the tolerance. *)
Definition first_strictly_within (tried : profile) (right_edge : float) (col : string)
    : Prop :=
  exists (i : nat) (e : float),
    tried !! i = Some (col, e) /\
    strictly_within right_edge e = true /\
    forall (j : nat) (col' : string) (e' : float),
      j < i -> tried !! j = Some (col', e') -> strictly_within right_edge e' = false.

End ColumnClaim.

Section ColumnFacts.
Import ColumnClaim FloatOrder.

(** [min_from] returns the first item of least key. *)
Lemma min_from_first_least {A : Type} (items : list (A * float)) :
  forall (seen : list (A * float)) (best : A * float) (i : nat),
    Forall (fun it => not_nan (snd it)) (seen ++ items) ->
    seen !! i = Some best ->
    (forall j it, seen !! j = Some it ->
                  PrimFloat.leb (snd best) (snd it) = true /\
                  (j < i -> PrimFloat.ltb (snd best) (snd it) = true)) ->
    exists i',
      (seen ++ items) !! i' = Some (Words.min_from best items) /\
      forall j it, (seen ++ items) !! j = Some it ->
                   PrimFloat.leb (snd (Words.min_from best items)) (snd it) = true /\
                   (j < i' ->
                    PrimFloat.ltb (snd (Words.min_from best items)) (snd it) = true).
Proof.
  induction items as [|d rest IH]; intros seen best i Hnum Hbest Hleast.
  - rewrite app_nil_r. now exists i.
  - simpl. replace (seen ++ d :: rest) with ((seen ++ [d]) ++ rest) in *
      by now rewrite <- app_assoc.
    assert (not_nan (snd d)) as Hd.
    { rewrite Forall_app in Hnum. destruct Hnum as [Hnum _].
      rewrite Forall_app in Hnum. destruct Hnum as [_ Hnum]. now inversion Hnum. }
    assert (not_nan (snd best)) as Hb.
    { rewrite Forall_app in Hnum. destruct Hnum as [Hnum _].
      rewrite Forall_app in Hnum. destruct Hnum as [Hnum _].
      rewrite Forall_lookup in Hnum. exact (Hnum _ _ Hbest). }
    destruct (PrimFloat.ltb (snd d) (snd best)) eqn:Hlt.
    + apply (IH (seen ++ [d]) d (length seen)); [assumption | |].
      * now rewrite lookup_app_r, Nat.sub_diag by lia.
      * intros j it Hj. destruct (decide (j < length seen)) as [Hin|Hout].
        -- rewrite lookup_app_l in Hj by assumption.
           destruct (Hleast _ _ Hj) as [Hle _].
           pose proof (ltb_leb_trans _ _ _ Hlt Hle) as Hstrict.
           split; [now apply ltb_leb | intros _; assumption].
        -- rewrite lookup_app_r in Hj by lia.
           destruct (j - length seen) as [|k] eqn:Hk; [|now destruct k].
           inversion Hj; subst it. split; [now apply leb_refl | lia].
    + apply (IH (seen ++ [d]) best i); [assumption | |].
      * apply lookup_lt_Some in Hbest as Hi. now rewrite lookup_app_l.
      * intros j it Hj. destruct (decide (j < length seen)) as [Hin|Hout].
        -- rewrite lookup_app_l in Hj by assumption. now apply Hleast.
        -- rewrite lookup_app_r in Hj by lia.
           destruct (j - length seen) as [|k] eqn:Hk; [|now destruct k].
           inversion Hj; subst it. apply lookup_lt_Some in Hbest as Hi.
           split; [now apply ltb_total | lia].
Qed.

(** The three-column case: the choice among [debit], [credit], [balance]. *)
Lemma nearest_of_three (tolerance right_edge dx cx bx : float) :
  let edges := [("debit", dx); ("credit", cx); ("balance", bx)] in
  let best :=
    Words.min_from ("debit", Words.distance right_edge dx)
      [("credit", Words.distance right_edge cx);
       ("balance", Words.distance right_edge bx)] in
  measurable edges right_edge ->
  first_nearest edges right_edge (fst best) /\
  (PrimFloat.leb (snd best) tolerance = true ->
   within tolerance edges right_edge (fst best)) /\
  (PrimFloat.leb (snd best) tolerance = false ->
   outside_all tolerance edges right_edge).
Proof.
  intros edges best Hnum.
  set (dists := map (fun ce : string * float =>
                       (fst ce, Words.distance right_edge (snd ce))) edges).
  assert (Forall (fun it : string * float => not_nan (snd it)) dists) as Hd.
  { unfold dists. rewrite Forall_map. exact Hnum. }
  destruct (min_from_first_least
              [("credit", Words.distance right_edge cx);
               ("balance", Words.distance right_edge bx)]
              [("debit", Words.distance right_edge dx)]
              ("debit", Words.distance right_edge dx) 0 Hd eq_refl)
    as (i & Hi & Hleast).
  { intros j it Hj. destruct j; [|discriminate]. inversion Hj; subst it.
    split; [|lia]. apply leb_refl. now inversion Hd. }
  fold best in Hi, Hleast.
  assert (forall j it, dists !! j = Some it ->
            exists ce, edges !! j = Some ce /\
                       it = (fst ce, Words.distance right_edge (snd ce))) as Hback.
  { intros j it Hj. unfold dists in Hj. rewrite list_lookup_fmap in Hj.
    destruct (edges !! j) as [ce|]; [|discriminate]. inversion Hj. now exists ce. }
  assert (forall j ce, edges !! j = Some ce ->
            dists !! j = Some (fst ce, Words.distance right_edge (snd ce))) as Hforth.
  { intros j ce Hj. unfold dists. now rewrite list_lookup_fmap, Hj. }
  destruct (Hback _ _ Hi) as ([col e] & Hedge & Hbest). simpl in Hbest.
  split; [|split].
  - exists i, e. rewrite Hbest. simpl. split; [assumption|].
    intros j col' e' Hj. specialize (Hleast _ _ (Hforth _ _ Hj)).
    rewrite Hbest in Hleast. exact Hleast.
  - intros Hin. exists e. rewrite Hbest in *. simpl in *. split; [|assumption].
    apply list_elem_of_lookup. now exists i.
  - intros Hout col' e' Hmem. apply list_elem_of_lookup in Hmem as [j Hj].
    destruct (Hleast _ _ (Hforth _ _ Hj)) as [Hle _]. simpl in Hle.
    destruct (PrimFloat.leb (Words.distance right_edge e') tolerance) eqn:E;
      [|reflexivity].
    now rewrite (leb_trans _ _ _ Hle E) in Hout.
Qed.

End ColumnFacts.

Section ColumnTheorems.
Import ColumnClaim.

(** The same choice in [parsers/rbl_bank.py], with its own edges and a
    tolerance of 25. *)
Lemma rbl_amount_column_nearest (right_edge : float) :
  measurable rbl_profile right_edge ->
  match RblBank.amount_column right_edge with
  | Some col =>
      first_nearest rbl_profile right_edge col /\
      within RblBank.COL_TOL rbl_profile right_edge col
  | None => outside_all RblBank.COL_TOL rbl_profile right_edge
  end.
Proof.
  intros Hnum.
  destruct (nearest_of_three RblBank.COL_TOL right_edge RblBank.withdrawal_x1
              RblBank.deposit_x1 RblBank.balance_x1 Hnum) as (Hnear & Hin & Hout).
  unfold RblBank.amount_column.
  destruct (PrimFloat.leb _ RblBank.COL_TOL) eqn:E; [split|]; auto.
Qed.

(** C6, as amended.  In [sbi_bank] an amount-shaped token goes to the
    column whose right edge is nearest to the token's right edge, the
    earlier-declared column winning a tie, provided that distance is at
    most the tolerance, and to no amount column when every edge is
    farther than the tolerance.  In [hdfc_bank] the edges are tried in the
    order balance, deposit, withdrawal and the token goes to the first one
    whose distance is strictly below the tolerance, and to no amount
    column when no distance is. *)
Theorem amount_column_by_right_edge (right_edge debit_x1 credit_x1 balance_x1 : float) :
  let edges := [("debit", debit_x1); ("credit", credit_x1); ("balance", balance_x1)] in
  measurable edges right_edge ->
  match SbiBank._classify_col right_edge debit_x1 credit_x1 balance_x1 with
  | Some col =>
      first_nearest edges right_edge col /\
      within SbiBank._COL_TOLERANCE edges right_edge col
  | None => outside_all SbiBank._COL_TOLERANCE edges right_edge
  end /\
  match HdfcBank.amount_column right_edge with
  | Some col => first_strictly_within (rev hdfc_profile) right_edge col
  | None =>
      forall col e, (col, e) ∈ hdfc_profile -> strictly_within right_edge e = false
  end.
Proof.
  intros edges Hnum. split.
  - destruct (nearest_of_three SbiBank._COL_TOLERANCE right_edge debit_x1 credit_x1
                balance_x1 Hnum) as (Hnear & Hin & Hout).
    unfold SbiBank._classify_col.
    destruct (PrimFloat.leb _ SbiBank._COL_TOLERANCE) eqn:E; [split|]; auto.
  - unfold HdfcBank.amount_column.
    destruct (PrimFloat.ltb (Words.distance right_edge HdfcBank.BALANCE_X1)
                HdfcBank.COL_TOL) eqn:Eb;
      [exists 0, HdfcBank.BALANCE_X1; repeat split; [assumption | intros; lia]|].
    destruct (PrimFloat.ltb (Words.distance right_edge HdfcBank.DEPOSIT_X1)
                HdfcBank.COL_TOL) eqn:Ec.
    { exists 1, HdfcBank.DEPOSIT_X1. repeat split; [assumption|].
      intros j col' e' Hj Hl. destruct j as [|j]; [|lia].
      inversion Hl; subst. exact Eb. }
    destruct (PrimFloat.ltb (Words.distance right_edge HdfcBank.WITHDRAWAL_X1)
                HdfcBank.COL_TOL) eqn:Ed.
    { exists 2, HdfcBank.WITHDRAWAL_X1. repeat split; [assumption|].
      intros j col' e' Hj Hl. destruct j as [|[|j]]; [| |lia];
        inversion Hl; subst; assumption. }
    intros col e Hmem. unfold hdfc_profile in Hmem.
    unfold strictly_within.
    repeat (apply elem_of_cons in Hmem as [Hmem|Hmem];
            [inversion Hmem; subst; assumption|]).
    now apply elem_of_nil in Hmem.
Qed.

(** A token whose right edge is equally far from the debit and the credit
    edge goes to the debit column. *)
Lemma amount_column_by_right_edge_witness :
  SbiBank._classify_col 410 400 420 557 = Some "debit" /\
  first_nearest [("debit", 400%float); ("credit", 420%float); ("balance", 557%float)]
    410 "debit" /\
  PrimFloat.eqb (Words.distance 410 400) (Words.distance 410 420) = true.
Proof.
  assert (measurable [("debit", 400%float); ("credit", 420%float); ("balance", 557%float)]
            410) as Hnum.
  { repeat constructor. }
  pose proof (amount_column_by_right_edge 410 400 420 557 Hnum) as [Hsbi _].
  change (SbiBank._classify_col 410 400 420 557) with (Some "debit") in Hsbi.
  destruct Hsbi as [Hnear _].
  repeat split; assumption.
Defined.

(** C6 as stated fails in [hdfc_bank]: a right edge at 490 is exactly one
    tolerance (20) from the withdrawal edge at 470, which is the nearest
    edge, and the token is given no amount column; [sbi_bank] accepts a
    token exactly one tolerance (15) from its nearest edge. *)
Lemma amount_column_tolerance_counterexample :
  HdfcBank.amount_column 490 = None /\
  first_nearest hdfc_profile 490 "debit" /\
  within HdfcBank.COL_TOL hdfc_profile 490 "debit" /\
  SbiBank._classify_col 415 400 477.8 557 = Some "debit" /\
  PrimFloat.eqb (Words.distance 415 400) SbiBank._COL_TOLERANCE = true.
Proof.
  split; [reflexivity|]. split; [|split; [|split; reflexivity]].
  - exists 0, HdfcBank.WITHDRAWAL_X1. split; [reflexivity|].
    intros j col' e' Hj.
    destruct j as [|[|[|j]]]; simpl in Hj; inversion Hj; subst;
      (split; [reflexivity | lia]).
  - exists HdfcBank.WITHDRAWAL_X1. split; [|reflexivity].
    apply list_elem_of_here.
Qed.
End ColumnTheorems.

(** ** Records and the candidates they come from *)

Module RecordClaim.

(** The field [k] of the record is the empty text. *)
Definition blank (r : transaction) (k : string) : bool :=
  Py.eq_str EmptyString (Py.get r k PNone).

(** Exactly one of debit and credit is non-empty. *)
Definition one_sided (r : transaction) : Prop :=
  blank r "debit" = negb (blank r "credit").

(** Debit and credit are not both non-empty. *)
Definition exclusive (r : transaction) : Prop :=
  blank r "debit" = true \/ blank r "credit" = true.

Definition both_empty (r : transaction) : Prop :=
  blank r "debit" = true /\ blank r "credit" = true.

Definition both_filled (r : transaction) : Prop :=
  blank r "debit" = false /\ blank r "credit" = false.

(** The record is a credit of [amount]: credit set to it, debit empty. *)
Definition credit_of (r : transaction) (amount : float) : Prop :=
  r !! "debit" = Some Py.empty_str /\ r !! "credit" = Some (PFloat amount).

(** The amount text reads as the number [a]. *)
Definition reads (amount : string) (a : float) : Prop :=
  PyFloat.of_string (Str.replace "," EmptyString amount) = Some a.

(** The amount of a candidate is present and not zero. *)
Definition amount_given (amount : string) : Prop :=
  Str.is_empty amount = false /\
  exists a, reads amount a /\ PrimFloat.eqb a PyFloat.zero = false.

(** The record a credit-card finalizer builds. *)
Definition card_record (date desc : string) (amount : float) (credit : bool)
    (ledger : string) : transaction :=
  Py.record date desc
    (if credit then Py.empty_str else PFloat amount)
    (if credit then PFloat amount else Py.empty_str)
    Py.empty_str ledger.

(** The description holds one of the given keywords, whatever the case. *)
Definition mentions (keywords : list string) (desc : string) : bool :=
  Str.contains_any keywords (Str.upper desc).

(** The keywords the specification names. *)
Definition override_keywords : list string := ["PAYMENT RECEIVED"; "REFUND"; "REVERSAL"].

(** The candidate of the scenario: 01/04/2024, REVERSAL, 0.00. *)
Definition reversal_candidate (dr_cr : string) : candidate :=
  Candidate "01/04/2024" "REVERSAL" "0.00" dr_cr.

End RecordClaim.

Section FinalizerFacts.
Import RecordClaim.

Lemma card_record_one_sided (date desc : string) (amount : float) (credit : bool)
    (ledger : string) :
  one_sided (card_record date desc amount credit ledger).
Proof. destruct credit; reflexivity. Qed.

Lemma card_record_credit (date desc : string) (amount : float) (ledger : string) :
  credit_of (card_record date desc amount true ledger) amount.
Proof. split; reflexivity. Qed.

Lemma append_one_inj (ts : list transaction) (r r' : transaction) :
  ts ++ [r] = ts ++ [r'] -> r = r'.
Proof. intros H. apply app_inv_head in H. now inversion H. Qed.

Lemma append_one_neq (ts : list transaction) (r : transaction) : ts <> ts ++ [r].
Proof.
  intros H. apply (f_equal (@length _)) in H. rewrite length_app in H. simpl in H. lia.
Qed.

(** What each finalizer does with a candidate: nothing, or one record. *)
Lemma sbi_credit_finalize (c : candidate) (ts : list transaction) :
  SbiCredit._finalize_sbi_credit_txn c ts = ts \/
  exists a,
    reads (c_amount c) a /\ PrimFloat.eqb a PyFloat.zero = false /\
    Str.is_empty (c_amount c) = false /\ Str.is_empty (c_date c) = false /\
    SbiCredit._finalize_sbi_credit_txn c ts =
    ts ++ [card_record (c_date c) (SbiCredit.clean_description (c_description c)) a
             (SbiCredit.is_credit (c_dr_cr c)
                (SbiCredit.clean_description (c_description c)))
             (SbiCredit._determine_ledger
                (SbiCredit.clean_description (c_description c)))].
Proof.
  unfold SbiCredit._finalize_sbi_credit_txn, reads.
  destruct (Str.is_empty (c_amount c)) eqn:Ea; [now left|].
  destruct (Str.is_empty (c_date c)) eqn:Ed; [now left|]. simpl.
  destruct (PyFloat.of_string _) as [a|] eqn:Er; [|now left].
  destruct (PrimFloat.eqb a PyFloat.zero) eqn:Ez.
  - left. now destruct (SbiCredit.is_credit _ _).
  - right. exists a. repeat split; try assumption.
    now destruct (SbiCredit.is_credit _ _).
Qed.

Lemma yes_credit_finalize (c : candidate) (ts : list transaction) :
  YesCredit._finalize_yes_credit_txn c ts = ts \/
  exists a,
    reads (c_amount c) a /\ PrimFloat.eqb a PyFloat.zero = false /\
    Str.is_empty (c_amount c) = false /\ Str.is_empty (c_date c) = false /\
    YesCredit._finalize_yes_credit_txn c ts =
    ts ++ [card_record (c_date c) (YesCredit.clean_description (c_description c)) a
             (YesCredit.is_credit (c_dr_cr c)
                (YesCredit.clean_description (c_description c)))
             (YesCredit._determine_ledger
                (YesCredit.clean_description (c_description c)))].
Proof.
  unfold YesCredit._finalize_yes_credit_txn, reads.
  destruct (Str.is_empty (c_amount c)) eqn:Ea; [now left|].
  destruct (Str.is_empty (c_date c)) eqn:Ed; [now left|]. simpl.
  destruct (PyFloat.of_string _) as [a|] eqn:Er; [|now left].
  destruct (PrimFloat.eqb a PyFloat.zero) eqn:Ez; [now left|].
  right. exists a. repeat split; try assumption.
  now destruct (YesCredit.is_credit _ _).
Qed.

Lemma rbl_credit_finalize (c : candidate) (ts : list transaction) :
  RblCredit._finalize_txn c ts = ts \/
  exists a,
    reads (c_amount c) a /\ PrimFloat.eqb a PyFloat.zero = false /\
    Str.is_empty (c_amount c) = false /\ Str.is_empty (c_date c) = false /\
    RblCredit._finalize_txn c ts =
    ts ++ [card_record (c_date c) (RblCredit.clean_description (c_description c)) a
             (RblCredit.is_credit (c_dr_cr c)
                (RblCredit.clean_description (c_description c)))
             (RblCredit._determine_ledger
                (RblCredit.clean_description (c_description c)))].
Proof.
  unfold RblCredit._finalize_txn, reads.
  destruct (Str.is_empty (c_amount c)) eqn:Ea; [now left|].
  destruct (Str.is_empty (c_date c)) eqn:Ed; [now left|]. simpl.
  destruct (PyFloat.of_string _) as [a|] eqn:Er; [|now left].
  destruct (PrimFloat.eqb a PyFloat.zero) eqn:Ez; [now left|].
  right. exists a. repeat split; try assumption.
  now destruct (RblCredit.is_credit _ _).
Qed.

Lemma indusind_credit_finalize (c : candidate) (ts : list transaction) :
  IndusindCredit._finalize c ts = ts \/
  exists a,
    reads (c_amount c) a /\ PrimFloat.eqb a PyFloat.zero = false /\
    Str.is_empty (c_amount c) = false /\ Str.is_empty (c_date c) = false /\
    IndusindCredit._finalize c ts =
    ts ++ [card_record (c_date c) (IndusindCredit.clean_description (c_description c)) a
             (IndusindCredit.is_credit (c_dr_cr c)
                (IndusindCredit.clean_description (c_description c)))
             (IndusindCredit._determine_ledger
                (IndusindCredit.clean_description (c_description c)))].
Proof.
  unfold IndusindCredit._finalize, reads.
  destruct (Str.is_empty (c_amount c)) eqn:Ea; [now left|].
  destruct (Str.is_empty (c_date c)) eqn:Ed; [now left|]. simpl.
  destruct (PyFloat.of_string _) as [a|] eqn:Er; [|now left].
  destruct (PrimFloat.eqb a PyFloat.zero) eqn:Ez; [now left|].
  right. exists a. repeat split; try assumption.
  now destruct (IndusindCredit.is_credit _ _).
Qed.

Lemma hdfc_credit_finalize (c : hdfc_candidate) (ts : list transaction) :
  HdfcCredit._finalize_hdfc_credit_txn c ts = ts \/
  (PrimFloat.eqb (h_amount c) PyFloat.zero = false /\
   Str.is_empty (HdfcCredit.clean_description (h_description c)) = false /\
   HdfcCredit._finalize_hdfc_credit_txn c ts =
   ts ++ [card_record (h_date c) (HdfcCredit.clean_description (h_description c))
            (h_amount c)
            (h_is_credit c
             || HdfcCredit.credit_keyword (HdfcCredit.clean_description (h_description c)))
            (HdfcCredit._determine_ledger
               (HdfcCredit.clean_description (h_description c)))]).
Proof.
  unfold HdfcCredit._finalize_hdfc_credit_txn.
  destruct (PrimFloat.eqb (h_amount c) PyFloat.zero) eqn:Ez; [now left|].
  destruct (Str.is_empty _) eqn:Ed; [now left|].
  right. repeat split. now destruct (h_is_credit c || _).
Qed.

(** The sign tests of [one_credit]. *)
Definition one_credit_sign (c : one_candidate) : bool :=
  Str.contains "-" (Pat.last_piece (OneCredit.clean_description (o_description c))
                      (o_raw_line c))
  || OneCredit.credit_keyword (OneCredit.clean_description (o_description c))
  || (Str.contains "(" (o_raw_line c) && Str.contains ")" (o_raw_line c)).

Lemma one_credit_finalize (c : one_candidate) (ts : list transaction) :
  OneCredit._finalize c ts = ts \/
  (PrimFloat.eqb (o_amount c) PyFloat.zero = false /\
   Str.is_empty (OneCredit.clean_description (o_description c)) = false /\
   OneCredit._finalize c ts =
   ts ++ [card_record (o_date c) (OneCredit.clean_description (o_description c))
            (o_amount c) (one_credit_sign c)
            (OneCredit._determine_ledger
               (OneCredit.clean_description (o_description c)))]).
Proof.
  unfold OneCredit._finalize, one_credit_sign.
  destruct (PrimFloat.eqb (o_amount c) PyFloat.zero) eqn:Ez; [now left|].
  destruct (Str.is_empty _) eqn:Ed; [now left|].
  right. repeat split.
  match goal with |- context [if ?b then _ else _] => now destruct b end.
Qed.

End FinalizerFacts.

Section FinalizerTheorems.
Import RecordClaim.

Lemma starts_with_app (a b s : string) :
  Str.starts_with (a +:+ b) s
  = Str.starts_with a s && Str.starts_with b (Str.drop (String.length a) s).
Proof.
  revert s; induction a as [|x a IH]; intros s; simpl.
  - reflexivity.
  - destruct s as [|y s]; simpl; [reflexivity|]. now rewrite IH, andb_assoc.
Qed.

Lemma contains_drop (kw : string) (n : nat) :
  forall s, Str.contains kw (Str.drop n s) = true -> Str.contains kw s = true.
Proof.
  induction n as [|n IH]; intros s H; [exact H|].
  destruct s as [|c s]; [exact H|]. simpl in H. simpl.
  rewrite (IH _ H). apply orb_true_r.
Qed.

Lemma starts_with_contains (kw s : string) :
  Str.starts_with kw s = true -> Str.contains kw s = true.
Proof. intros H. destruct s; simpl in *; now rewrite H. Qed.

(** A text that holds [a b] holds [a] and holds [b]. *)
Lemma contains_app (a b s : string) :
  Str.contains (a +:+ b) s = true ->
  Str.contains a s = true /\ Str.contains b s = true.
Proof.
  induction s as [|c s IH]; simpl; rewrite starts_with_app.
  - rewrite orb_false_r. intros [Ha Hb]%andb_prop. rewrite Ha. split; [reflexivity|].
    apply (contains_drop b (String.length a) EmptyString).
    now apply starts_with_contains.
  - intros [[Ha Hb]%andb_prop | Hrest]%orb_prop.
    + rewrite Ha. split; [reflexivity|].
      apply (contains_drop b (String.length a) (String c s)).
      now apply starts_with_contains.
    + destruct (IH Hrest) as [-> ->]. now rewrite !orb_true_r.
Qed.

Lemma card_record_description (date desc : string) (amount : float) (credit : bool)
    (ledger : string) :
  card_record date desc amount credit ledger !! "description" = Some (PStr desc).
Proof. reflexivity. Qed.

(** The record a finalizer appended, known by its description. *)
Lemma appended_card_record (ts : list transaction) (r : transaction)
    (date d desc : string) (amount : float) (credit : bool) (ledger : string) :
  ts ++ [card_record date d amount credit ledger] = ts ++ [r] ->
  r !! "description" = Some (PStr desc) ->
  d = desc /\ r = card_record date d amount credit ledger.
Proof.
  intros Happ Hdesc. apply append_one_inj in Happ. subst r.
  rewrite card_record_description in Hdesc. now inversion Hdesc.
Qed.

Lemma sbi_keyword_credit (dr desc : string) :
  mentions override_keywords desc = true -> SbiCredit.is_credit dr desc = true.
Proof.
  unfold mentions, override_keywords, SbiCredit.is_credit. simpl.
  destruct (Str.contains "PAYMENT RECEIVED" _), (Str.contains "REFUND" _),
    (Str.contains "REVERSAL" _); simpl; try discriminate;
    intros _; now rewrite ?orb_true_r.
Qed.

Lemma hdfc_keyword_credit (desc : string) :
  mentions override_keywords desc = true -> HdfcCredit.credit_keyword desc = true.
Proof.
  unfold mentions, override_keywords, HdfcCredit.credit_keyword. simpl.
  destruct (Str.contains "REFUND" _); [intros _; now rewrite !orb_true_r|].
  destruct (Str.contains "REVERSAL" _); [intros _; now rewrite !orb_true_r|].
  rewrite !orb_false_r. intros H.
  destruct (contains_app "PAYMENT" " RECEIVED" _ H) as [-> H'].
  destruct (contains_app " " "RECEIVED" _ H') as [_ ->].
  now rewrite orb_true_r.
Qed.

(** C8, as amended.  In [sbi_credit] and [hdfc_credit], when the cleaned
    description of a candidate that yields a record holds PAYMENT
    RECEIVED, REFUND or REVERSAL, the record is a credit: credit set to
    the amount and debit empty, whatever Dr/Cr mark or sign was read.
    The other line-based extractors each override on their own keywords:
    [yes_credit] on PAYMENT RECEIVED, [rbl_credit] on PAYMENT,
    [indusind_credit] on PAYMENT or CREDIT, [one_credit] on REFUND,
    REVERSAL, CASHBACK or REPAYMENT. *)
Theorem keyword_forces_credit (ts : list transaction) (r : transaction) (desc : string) :
  r !! "description" = Some (PStr desc) ->
  (forall c : candidate,
      SbiCredit._finalize_sbi_credit_txn c ts = ts ++ [r] ->
      mentions override_keywords desc = true ->
      exists a, reads (c_amount c) a /\ credit_of r a) /\
  (forall c : hdfc_candidate,
      HdfcCredit._finalize_hdfc_credit_txn c ts = ts ++ [r] ->
      mentions override_keywords desc = true ->
      credit_of r (h_amount c)) /\
  (forall c : candidate,
      YesCredit._finalize_yes_credit_txn c ts = ts ++ [r] ->
      mentions ["PAYMENT RECEIVED"] desc = true ->
      exists a, reads (c_amount c) a /\ credit_of r a) /\
  (forall c : candidate,
      RblCredit._finalize_txn c ts = ts ++ [r] ->
      mentions ["PAYMENT"] desc = true ->
      exists a, reads (c_amount c) a /\ credit_of r a) /\
  (forall c : candidate,
      IndusindCredit._finalize c ts = ts ++ [r] ->
      mentions ["PAYMENT"; "CREDIT"] desc = true ->
      exists a, reads (c_amount c) a /\ credit_of r a) /\
  (forall c : one_candidate,
      OneCredit._finalize c ts = ts ++ [r] ->
      mentions ["REFUND"; "REVERSAL"; "CASHBACK"; "REPAYMENT"] desc = true ->
      credit_of r (o_amount c)).
Proof.
  intros Hdesc. split; [|split; [|split; [|split; [|split]]]].
  - intros c Hfin Hkw.
    destruct (sbi_credit_finalize c ts) as [Hdrop | (a & Hr & _ & _ & _ & Hemit)].
    { rewrite Hdrop in Hfin. now apply append_one_neq in Hfin. }
    rewrite Hemit in Hfin.
    destruct (appended_card_record _ _ _ _ _ _ _ _ Hfin Hdesc) as [Hd ->].
    exists a. split; [assumption|]. rewrite Hd.
    rewrite (sbi_keyword_credit _ _ Hkw). apply card_record_credit.
  - intros c Hfin Hkw.
    destruct (hdfc_credit_finalize c ts) as [Hdrop | (_ & _ & Hemit)].
    { rewrite Hdrop in Hfin. now apply append_one_neq in Hfin. }
    rewrite Hemit in Hfin.
    destruct (appended_card_record _ _ _ _ _ _ _ _ Hfin Hdesc) as [Hd ->].
    rewrite Hd. rewrite (hdfc_keyword_credit _ Hkw), orb_true_r.
    apply card_record_credit.
  - intros c Hfin Hkw.
    destruct (yes_credit_finalize c ts) as [Hdrop | (a & Hr & _ & _ & _ & Hemit)].
    { rewrite Hdrop in Hfin. now apply append_one_neq in Hfin. }
    rewrite Hemit in Hfin.
    destruct (appended_card_record _ _ _ _ _ _ _ _ Hfin Hdesc) as [Hd ->].
    exists a. split; [assumption|]. rewrite Hd.
    unfold mentions in Hkw. simpl in Hkw. rewrite orb_false_r in Hkw.
    unfold YesCredit.is_credit. rewrite Hkw. apply card_record_credit.
  - intros c Hfin Hkw.
    destruct (rbl_credit_finalize c ts) as [Hdrop | (a & Hr & _ & _ & _ & Hemit)].
    { rewrite Hdrop in Hfin. now apply append_one_neq in Hfin. }
    rewrite Hemit in Hfin.
    destruct (appended_card_record _ _ _ _ _ _ _ _ Hfin Hdesc) as [Hd ->].
    exists a. split; [assumption|]. rewrite Hd.
    unfold mentions in Hkw. simpl in Hkw. rewrite orb_false_r in Hkw.
    unfold RblCredit.is_credit. rewrite Hkw, orb_true_r. apply card_record_credit.
  - intros c Hfin Hkw.
    destruct (indusind_credit_finalize c ts) as [Hdrop | (a & Hr & _ & _ & _ & Hemit)].
    { rewrite Hdrop in Hfin. now apply append_one_neq in Hfin. }
    rewrite Hemit in Hfin.
    destruct (appended_card_record _ _ _ _ _ _ _ _ Hfin Hdesc) as [Hd ->].
    exists a. split; [assumption|]. rewrite Hd.
    unfold mentions in Hkw. simpl in Hkw. rewrite orb_false_r in Hkw.
    unfold IndusindCredit.is_credit. rewrite <- orb_assoc, Hkw, orb_true_r.
    apply card_record_credit.
  - intros c Hfin Hkw.
    destruct (one_credit_finalize c ts) as [Hdrop | (_ & _ & Hemit)].
    { rewrite Hdrop in Hfin. now apply append_one_neq in Hfin. }
    rewrite Hemit in Hfin.
    destruct (appended_card_record _ _ _ _ _ _ _ _ Hfin Hdesc) as [Hd ->].
    unfold one_credit_sign, OneCredit.credit_keyword. rewrite Hd.
    unfold mentions in Hkw. rewrite Hkw, orb_true_r. apply card_record_credit.
Qed.

Lemma keyword_forces_credit_witness :
  SbiCredit._finalize_sbi_credit_txn
    (Candidate "03/04/2024" "REFUND  FLIPKART" "1,450.00" "DR") []
  = [card_record "03/04/2024" "REFUND FLIPKART" 1450 true "Shopping Online"] /\
  exists a, reads "1,450.00" a /\
            credit_of (card_record "03/04/2024" "REFUND FLIPKART" 1450 true
                         "Shopping Online") a.
Proof.
  split; [cbv -[Py.record]; reflexivity|].
  exact (proj1 (keyword_forces_credit []
                  (card_record "03/04/2024" "REFUND FLIPKART" 1450 true "Shopping Online")
                  "REFUND FLIPKART" eq_refl)
           (Candidate "03/04/2024" "REFUND  FLIPKART" "1,450.00" "DR")
           eq_refl eq_refl).
Defined.

(** C8 as stated fails in [yes_credit]: a candidate whose description
    holds REFUND and whose mark is DR yields a debit. *)
Lemma keyword_override_counterexample :
  mentions override_keywords "REFUND AMAZON" = true /\
  YesCredit._finalize_yes_credit_txn
    (Candidate "01/04/2024" "REFUND AMAZON" "100.00" "DR") []
  = [Py.record "01/04/2024" "REFUND AMAZON" (PFloat 100) Py.empty_str Py.empty_str
       "Shopping Online"].
Proof. split; [vm_compute; reflexivity | cbv -[Py.record]; reflexivity]. Qed.

Lemma zero_amount_not_given (amount : string) :
  PyFloat.of_string (Str.replace "," EmptyString amount) = Some PyFloat.zero ->
  forall a, reads amount a -> PrimFloat.eqb a PyFloat.zero = false -> False.
Proof. unfold reads. intros H0 a Ha Hz. rewrite H0 in Ha. inversion Ha; subst a. discriminate Hz. Qed.

(** C3, as amended.  In the line-based credit-card extractors a candidate
    becomes a record only if its amount is present and reads as a number
    other than zero, and in [hdfc_credit] and [one_credit] only if its
    cleaned description is non-empty as well; any other candidate leaves
    the list of records as it was.  The candidate 01/04/2024, REVERSAL,
    0.00 yields no record in any of them, and neither does the line
    [01/04/2024 REVERSAL 0.00] in [sbi_credit]. *)
Theorem finalize_needs_amount :
  (forall (c : candidate) (ts : list transaction),
      SbiCredit._finalize_sbi_credit_txn c ts = ts \/
      (amount_given (c_amount c) /\
       exists r, SbiCredit._finalize_sbi_credit_txn c ts = ts ++ [r])) /\
  (forall (c : candidate) (ts : list transaction),
      YesCredit._finalize_yes_credit_txn c ts = ts \/
      (amount_given (c_amount c) /\
       exists r, YesCredit._finalize_yes_credit_txn c ts = ts ++ [r])) /\
  (forall (c : candidate) (ts : list transaction),
      RblCredit._finalize_txn c ts = ts \/
      (amount_given (c_amount c) /\
       exists r, RblCredit._finalize_txn c ts = ts ++ [r])) /\
  (forall (c : candidate) (ts : list transaction),
      IndusindCredit._finalize c ts = ts \/
      (amount_given (c_amount c) /\
       exists r, IndusindCredit._finalize c ts = ts ++ [r])) /\
  (forall (c : hdfc_candidate) (ts : list transaction),
      HdfcCredit._finalize_hdfc_credit_txn c ts = ts \/
      (PrimFloat.eqb (h_amount c) PyFloat.zero = false /\
       Str.is_empty (HdfcCredit.clean_description (h_description c)) = false /\
       exists r, HdfcCredit._finalize_hdfc_credit_txn c ts = ts ++ [r])) /\
  (forall (c : one_candidate) (ts : list transaction),
      OneCredit._finalize c ts = ts \/
      (PrimFloat.eqb (o_amount c) PyFloat.zero = false /\
       Str.is_empty (OneCredit.clean_description (o_description c)) = false /\
       exists r, OneCredit._finalize c ts = ts ++ [r])) /\
  (forall (mark : string) (ts : list transaction),
      SbiCredit._finalize_sbi_credit_txn (reversal_candidate mark) ts = ts /\
      YesCredit._finalize_yes_credit_txn (reversal_candidate mark) ts = ts /\
      RblCredit._finalize_txn (reversal_candidate mark) ts = ts /\
      IndusindCredit._finalize (reversal_candidate mark) ts = ts) /\
  (forall (sign : bool) (raw : string) (ts : list transaction),
      HdfcCredit._finalize_hdfc_credit_txn
        (HdfcCandidate "01/04/2024" "REVERSAL" 0 sign) ts = ts /\
      OneCredit._finalize (OneCandidate "01/04/2024" "REVERSAL" 0 raw) ts = ts) /\
  (forall ts : list transaction,
      SbiCredit._process_sbi_credit_text "01/04/2024 REVERSAL 0.00" ts = ts).
Proof.
  split; [|split; [|split; [|split; [|split; [|split; [|split; [|split]]]]]]].
  - intros c ts.
    destruct (sbi_credit_finalize c ts) as [H | (a & Hr & Hz & Ha & _ & H)]; [now left|].
    right. split; [split; [assumption | now exists a] | eauto].
  - intros c ts.
    destruct (yes_credit_finalize c ts) as [H | (a & Hr & Hz & Ha & _ & H)]; [now left|].
    right. split; [split; [assumption | now exists a] | eauto].
  - intros c ts.
    destruct (rbl_credit_finalize c ts) as [H | (a & Hr & Hz & Ha & _ & H)]; [now left|].
    right. split; [split; [assumption | now exists a] | eauto].
  - intros c ts.
    destruct (indusind_credit_finalize c ts) as [H | (a & Hr & Hz & Ha & _ & H)];
      [now left|].
    right. split; [split; [assumption | now exists a] | eauto].
  - intros c ts.
    destruct (hdfc_credit_finalize c ts) as [H | (Hz & Hd & H)]; [now left|].
    right. eauto.
  - intros c ts.
    destruct (one_credit_finalize c ts) as [H | (Hz & Hd & H)]; [now left|].
    right. eauto.
  - intros mark ts. split; [|split; [|split]].
    + destruct (sbi_credit_finalize (reversal_candidate mark) ts)
        as [H | (a & Hr & Hz & _)]; [assumption|].
      now destruct (zero_amount_not_given "0.00" eq_refl a Hr Hz).
    + destruct (yes_credit_finalize (reversal_candidate mark) ts)
        as [H | (a & Hr & Hz & _)]; [assumption|].
      now destruct (zero_amount_not_given "0.00" eq_refl a Hr Hz).
    + destruct (rbl_credit_finalize (reversal_candidate mark) ts)
        as [H | (a & Hr & Hz & _)]; [assumption|].
      now destruct (zero_amount_not_given "0.00" eq_refl a Hr Hz).
    + destruct (indusind_credit_finalize (reversal_candidate mark) ts)
        as [H | (a & Hr & Hz & _)]; [assumption|].
      now destruct (zero_amount_not_given "0.00" eq_refl a Hr Hz).
  - intros sign raw ts. split; reflexivity.
  - intros ts. vm_compute. reflexivity.
Qed.

(** C3 as stated fails in [hdfc_bank], which has no such test: the row
    01/04/2024, REVERSAL, 0.00 (the amount ending at the withdrawal edge)
    becomes a record with a debit of 0.0. *)
Definition reversal_row : list word :=
  [Word "01/04/2024" 33.7 80 100; Word "REVERSAL" 70 120 100; Word "0.00" 450 470 100].

Lemma zero_amount_row_counterexample :
  HdfcBank.parse_hdfc_bank [reversal_row]
  = [Py.record "01/04/2024" "REVERSAL" (PFloat 0) Py.empty_str Py.empty_str "General"].
Proof. cbv -[Py.record]. reflexivity. Qed.

End FinalizerTheorems.

(** ** Groups do not change whether a pattern matches *)

Section GroupFacts.
Import Re.

(** Two matcher states at the same place in the text. *)
Definition same_place (a b : mstate) : Prop :=
  rest a = rest b /\ prev a = prev b /\ pos a = pos b.

(** Two continuations that succeed together. *)
Definition succeed_alike {A B : Type} (k1 : mstate -> option A) (k2 : mstate -> option B)
    : Prop :=
  forall a b, same_place a b -> (is_Some (k1 a) <-> is_Some (k2 b)).

Lemma is_Some_first {A : Type} (x y : option A) :
  is_Some (match x with Some v => Some v | None => y end) <-> is_Some x \/ is_Some y.
Proof.
  destruct x; simpl; split; intros H; eauto.
  - destruct H as [[v H]|H]; [discriminate | assumption].
Qed.

Lemma is_Some_none {A : Type} : is_Some (@None A) <-> False.
Proof. split; [intros [v H]; discriminate | tauto]. Qed.

Lemma run_succeed_alike {A B : Type} (fuel : nat) :
  forall (r : regex) (a b : mstate) (k1 : mstate -> option A) (k2 : mstate -> option B),
    same_place a b -> succeed_alike k1 k2 ->
    (is_Some (run fuel r a k1) <-> is_Some (run fuel r b k2)).
Proof.
  assert (forall (a b : mstate) (p : ascii -> bool)
                 (k1 : mstate -> option A) (k2 : mstate -> option B),
             same_place a b -> succeed_alike k1 k2 ->
             (is_Some (match rest a with
                       | String c s' =>
                           if p c then k1 (MState s' (Some c) (S (pos a)) (caps a))
                           else None
                       | EmptyString => None
                       end)
              <-> is_Some (match rest b with
                           | String c s' =>
                               if p c then k2 (MState s' (Some c) (S (pos b)) (caps b))
                               else None
                           | EmptyString => None
                           end))) as Hchr.
  { intros a b p k1 k2 (Hrest & Hprev & Hpos) Hk. rewrite Hrest.
    destruct (rest b) as [|c s']; [rewrite !is_Some_none; tauto|].
    destruct (p c); [|rewrite !is_Some_none; tauto].
    apply Hk. unfold same_place. simpl. now rewrite Hpos. }
  assert (forall (a b : mstate) (k1 : mstate -> option A) (k2 : mstate -> option B),
             same_place a b -> succeed_alike k1 k2 ->
             (is_Some (if (pos a =? 0)%nat then k1 a else None)
              <-> is_Some (if (pos b =? 0)%nat then k2 b else None))) as Hbol.
  { intros a b k1 k2 Hab Hk. pose proof Hab as (_ & _ & ->).
    destruct (pos b =? 0)%nat; [now apply Hk | rewrite !is_Some_none; tauto]. }
  assert (forall (a b : mstate) (k1 : mstate -> option A) (k2 : mstate -> option B),
             same_place a b -> succeed_alike k1 k2 ->
             (is_Some (if at_end a then k1 a else None)
              <-> is_Some (if at_end b then k2 b else None))) as Heol.
  { intros a b k1 k2 Hab Hk. pose proof Hab as (Hrest & _ & _).
    unfold at_end. rewrite Hrest.
    destruct (match rest b with
              | EmptyString => true
              | String c EmptyString => Ascii.eqb c Str.newline
              | _ => false
              end); [now apply Hk | rewrite !is_Some_none; tauto]. }
  assert (forall (a b : mstate) (k1 : mstate -> option A) (k2 : mstate -> option B),
             same_place a b -> succeed_alike k1 k2 ->
             (is_Some (if xorb (word_before a) (word_after a) then k1 a else None)
              <-> is_Some (if xorb (word_before b) (word_after b) then k2 b else None)))
    as Hwb.
  { intros a b k1 k2 Hab Hk. pose proof Hab as (Hrest & Hprev & _).
    unfold word_before, word_after. rewrite Hrest, Hprev.
    destruct (xorb _ _); [now apply Hk | rewrite !is_Some_none; tauto]. }
  induction fuel as [|fuel IHfuel];
    induction r as [|p|r1 IH1 r2 IH2|r1 IH1 r2 IH2|r1 IH1| | | |n r1 IH1];
    intros a b k1 k2 Hab Hk; cbn [run].
  - now apply Hk.
  - now apply Hchr.
  - apply IH1; [assumption|]. intros a' b' Hab'. now apply IH2.
  - rewrite !is_Some_first. rewrite (IH1 a b k1 k2 Hab Hk), (IH2 a b k1 k2 Hab Hk).
    reflexivity.
  - now apply Hk.
  - now apply Hbol.
  - now apply Heol.
  - now apply Hwb.
  - apply IH1; [assumption|]. intros a' b' (Hr' & Hp' & Hq'). apply Hk.
    unfold same_place. simpl. auto.
  - now apply Hk.
  - now apply Hchr.
  - apply IH1; [assumption|]. intros a' b' Hab'. now apply IH2.
  - rewrite !is_Some_first. rewrite (IH1 a b k1 k2 Hab Hk), (IH2 a b k1 k2 Hab Hk).
    reflexivity.
  - rewrite !is_Some_first.
    assert (is_Some (run (S fuel) r1 a
                       (fun st' => if (pos st' =? pos a)%nat then None
                                   else run fuel (Star r1) st' k1))
            <-> is_Some (run (S fuel) r1 b
                           (fun st' => if (pos st' =? pos b)%nat then None
                                       else run fuel (Star r1) st' k2))) as Hloop.
    { apply IH1; [assumption|]. intros a' b' Hab'. pose proof Hab' as (_ & _ & Hq).
      pose proof Hab as (_ & _ & Hpos).
      rewrite Hq, Hpos. destruct (pos b' =? pos b)%nat; [rewrite !is_Some_none; tauto|].
      now apply IHfuel. }
    cbn [run] in Hloop. rewrite Hloop. now rewrite (Hk a b Hab).
  - now apply Hbol.
  - now apply Heol.
  - now apply Hwb.
  - apply IH1; [assumption|]. intros a' b' (Hr' & Hp' & Hq'). apply Hk.
    unfold same_place. simpl. auto.
Qed.

Lemma run_group {A : Type} (fuel n : nat) (r : regex) (st : mstate)
    (k : mstate -> option A) :
  run fuel (Group n r) st k
  = run fuel r st
      (fun st' => k (MState (rest st') (prev st') (pos st')
                       ((n, (pos st, pos st')) :: caps st'))).
Proof. destruct fuel; reflexivity. Qed.

(** A pattern wrapped in a group matches at the start of a text only if
    the pattern itself does. *)
Lemma group_matches (n : nat) (r : regex) (s : string) (m : rmatch) :
  rmatch_start (Group n r) s = Some m -> matches r s = true.
Proof.
  unfold matches, rmatch_start, match_here. intros H. rewrite run_group in H.
  match goal with
  | |- match ?x with Some _ => true | None => false end = true =>
      assert (is_Some x) as [v ->]; [|reflexivity]
  end.
  match type of H with
  | ?y = Some m =>
      assert (is_Some y) as Hs by (rewrite H; eauto); revert Hs
  end.
  apply run_succeed_alike; [repeat split|].
  intros a b _. simpl. split; intros _; eauto.
Qed.

End GroupFacts.

(** ** The opening balance row of the table extractor *)

Section TableFacts.
Import RecordClaim StandardBank.

(** What [dated_row] does with a balance-forward row. *)
Lemma dated_row_balance_forward (cols : columns) (cells : list string) (date_str : string)
    (ts : list transaction) :
  Str.contains "BALANCE FORWARD" (Str.upper (description_of cols cells)) = true ->
  amount_cell cells (col_withdrawal cols) = EmptyString ->
  amount_cell cells (col_deposit cols) = EmptyString ->
  dated_row cols cells date_str ts =
  if Str.is_empty (amount_cell cells (col_balance cols)) then ts
  else ts ++ [Py.record date_str (description_of cols cells) Py.empty_str Py.empty_str
                (PStr (amount_cell cells (col_balance cols))) "Opening Balance"].
Proof.
  intros Hbf Hd Hc. unfold dated_row. rewrite Hbf, Hd, Hc. simpl.
  now destruct (Str.is_empty (amount_cell cells (col_balance cols))).
Qed.

(** C9, as amended.  In the table-cell extractor a dated row that is not
    a header, whose description holds BALANCE FORWARD and whose debit and
    credit read empty, is kept as a record with the ledger Opening
    Balance, empty debit and credit and the row's balance when its
    balance cell reads as a number; when the balance reads empty the row
    is dropped. *)
Theorem balance_forward_row (cols : columns) (row : list (option string))
    (ts : list transaction) (date_match : Re.rmatch) :
  let cells := cells_of row in
  let description := description_of cols cells in
  let balance := amount_cell cells (col_balance cols) in
  let date_str := Re.group_or_empty (first_cell cells) date_match 1 in
  3 <= length row ->
  is_header cells = false ->
  Re.rmatch_start (Re.Group 1 Pat.date_month) (first_cell cells) = Some date_match ->
  Str.contains "BALANCE FORWARD" (Str.upper description) = true ->
  amount_cell cells (col_withdrawal cols) = EmptyString ->
  amount_cell cells (col_deposit cols) = EmptyString ->
  process_row (cols, ts) row =
  (cols,
   if Str.is_empty balance then ts
   else ts ++ [Py.record date_str description Py.empty_str Py.empty_str (PStr balance)
                 "Opening Balance"]).
Proof.
  intros cells description balance date_str Hlen Hhead Hdate Hbf Hd Hc.
  unfold process_row. fold cells.
  assert ((length row <? 3)%nat = false) as -> by (apply Nat.ltb_ge; lia).
  rewrite Hhead, Hdate, (group_matches _ _ _ _ Hdate), andb_false_r.
  f_equal. now apply dated_row_balance_forward.
Qed.

Definition opening_row : list (option string) :=
  [Some "01 Apr 2024"; Some "01 Apr 2024"; Some "BALANCE FORWARD"; None; None; None;
   Some "12,500.00"].

Lemma balance_forward_row_witness :
  process_row (default_columns, []) opening_row =
  (default_columns,
   [Py.record "01 Apr 2024" "BALANCE FORWARD" Py.empty_str Py.empty_str
      (PStr "12,500.00") "Opening Balance"]).
Proof.
  exact (balance_forward_row default_columns opening_row []
           (Re.RMatch 0 11 [(1, (0, 11))])
           ltac:(simpl; lia) eq_refl eq_refl eq_refl eq_refl eq_refl).
Defined.

(** C9 as stated fails: a dated balance-forward row with empty debit and
    credit cells and an empty balance cell is discarded. *)
Definition opening_row_without_balance : list (option string) :=
  [Some "01 Apr 2024"; Some "01 Apr 2024"; Some "BALANCE FORWARD"; None; None; None;
   None].

Lemma balance_forward_dropped_counterexample :
  description_of default_columns (cells_of opening_row_without_balance)
    = "BALANCE FORWARD" /\
  cell (cells_of opening_row_without_balance) (col_withdrawal default_columns)
    = Some EmptyString /\
  cell (cells_of opening_row_without_balance) (col_deposit default_columns)
    = Some EmptyString /\
  _process_table [opening_row_without_balance] [] = [].
Proof. vm_compute. repeat split. Qed.

End TableFacts.

(** ** Debit and credit of the emitted records *)

Section ExclusivityFacts.
Import RecordClaim.

(** The list [out] is [ts] followed by records that each have exactly one
    of debit and credit. *)
Definition grown_one_sided (ts out : list transaction) : Prop :=
  exists new, out = ts ++ new /\ Forall one_sided new.

Lemma grown_refl (ts : list transaction) : grown_one_sided ts ts.
Proof. exists []. now rewrite app_nil_r. Qed.

Lemma grown_sbi_finalize (ts out : list transaction) (c : candidate) :
  grown_one_sided ts out ->
  grown_one_sided ts (SbiCredit._finalize_sbi_credit_txn c out).
Proof.
  intros (new & -> & Hnew).
  destruct (sbi_credit_finalize c (ts ++ new)) as [-> | (a & _ & _ & _ & _ & ->)].
  - now exists new.
  - eexists (new ++ [_]). split; [now rewrite app_assoc|].
    apply Forall_app. split; [assumption|].
    constructor; [apply card_record_one_sided | constructor].
Qed.

Lemma grown_sbi_scan_line (ts : list transaction) (st : SbiCredit.scan) (line : string) :
  grown_one_sided ts (SbiCredit.emitted st) ->
  grown_one_sided ts (SbiCredit.emitted (SbiCredit.scan_line st line)).
Proof.
  intros H. unfold SbiCredit.scan_line.
  repeat match goal with
         | |- context [if ?b then _ else _] => destruct b
         | |- context [match Re.rmatch_start ?r ?s with _ => _ end] =>
             destruct (Re.rmatch_start r s)
         | |- context [match SbiCredit.current_txn ?s with _ => _ end] =>
             destruct (SbiCredit.current_txn s) eqn:?
         end; simpl; try assumption.
  all: unfold SbiCredit.open_candidate; simpl;
    repeat match goal with
           | |- context [match Re.search ?r ?s with _ => _ end] =>
               destruct (Re.search r s)
           | |- context [match SbiCredit.current_txn ?s with _ => _ end] =>
               destruct (SbiCredit.current_txn s)
           end; simpl; try assumption; now apply grown_sbi_finalize.
Qed.

Lemma grown_sbi_text (text : string) (ts : list transaction) :
  grown_one_sided ts (SbiCredit._process_sbi_credit_text text ts).
Proof.
  unfold SbiCredit._process_sbi_credit_text.
  assert (forall lines st,
             grown_one_sided ts (SbiCredit.emitted st) ->
             grown_one_sided ts
               (SbiCredit.emitted (fold_left SbiCredit.scan_line lines st))) as Hfold.
  { induction lines as [|l lines IH]; intros st Hst; simpl; [assumption|].
    apply IH. now apply grown_sbi_scan_line. }
  specialize (Hfold (Str.lines text) (SbiCredit.Scan false None ts) (grown_refl ts)).
  destruct (SbiCredit.current_txn _); [now apply grown_sbi_finalize | assumption].
Qed.

(** With fewer than three amounts on the line, [yes_bank] fills at most
    one of debit and credit. *)
Lemma place_amounts_one_sided (float_amounts : list float) (desc : string) :
  length float_amounts < 3 ->
  Py.eq_str EmptyString (fst (fst (YesBank.place_amounts float_amounts desc))) = true \/
  Py.eq_str EmptyString (snd (fst (YesBank.place_amounts float_amounts desc))) = true.
Proof.
  intros Hlen. unfold YesBank.place_amounts.
  destruct float_amounts as [|a [|b [|c rest]]]; simpl in *; try lia.
  destruct (YesBank._is_debit_yes desc); [now right | now left].
Qed.

End ExclusivityFacts.

Section ExclusivityTheorems.
Import RecordClaim.

(** C2, as amended.  Every record a line-based credit-card finalizer
    appends has exactly one of debit and credit non-empty, and so has
    every record [sbi_credit] draws from a page text; the Opening Balance
    record of the table extractor has both empty; and a [yes_bank] text
    line with fewer than three amounts fills at most one of the two.  (The
    extractors of the bank-account formats copy the two columns as they
    find them.) *)
Theorem card_records_one_sided :
  (forall (c : candidate) (ts : list transaction),
      SbiCredit._finalize_sbi_credit_txn c ts = ts \/
      exists r, SbiCredit._finalize_sbi_credit_txn c ts = ts ++ [r] /\ one_sided r) /\
  (forall (c : candidate) (ts : list transaction),
      YesCredit._finalize_yes_credit_txn c ts = ts \/
      exists r, YesCredit._finalize_yes_credit_txn c ts = ts ++ [r] /\ one_sided r) /\
  (forall (c : candidate) (ts : list transaction),
      RblCredit._finalize_txn c ts = ts \/
      exists r, RblCredit._finalize_txn c ts = ts ++ [r] /\ one_sided r) /\
  (forall (c : candidate) (ts : list transaction),
      IndusindCredit._finalize c ts = ts \/
      exists r, IndusindCredit._finalize c ts = ts ++ [r] /\ one_sided r) /\
  (forall (c : hdfc_candidate) (ts : list transaction),
      HdfcCredit._finalize_hdfc_credit_txn c ts = ts \/
      exists r, HdfcCredit._finalize_hdfc_credit_txn c ts = ts ++ [r] /\ one_sided r) /\
  (forall (c : one_candidate) (ts : list transaction),
      OneCredit._finalize c ts = ts \/
      exists r, OneCredit._finalize c ts = ts ++ [r] /\ one_sided r) /\
  (forall (text : string) (ts : list transaction),
      exists new, SbiCredit._process_sbi_credit_text text ts = ts ++ new
                  /\ Forall one_sided new) /\
  (forall (cols : StandardBank.columns) (cells : list string) (date_str : string)
          (ts : list transaction),
      Str.contains "BALANCE FORWARD"
        (Str.upper (StandardBank.description_of cols cells)) = true ->
      StandardBank.amount_cell cells (StandardBank.col_withdrawal cols) = EmptyString ->
      StandardBank.amount_cell cells (StandardBank.col_deposit cols) = EmptyString ->
      StandardBank.dated_row cols cells date_str ts = ts \/
      exists r, StandardBank.dated_row cols cells date_str ts = ts ++ [r]
                /\ both_empty r
                /\ r !! "ledger" = Some (PStr "Opening Balance")) /\
  (forall (float_amounts : list float) (desc : string),
      length float_amounts < 3 ->
      Py.eq_str EmptyString (fst (fst (YesBank.place_amounts float_amounts desc))) = true
      \/ Py.eq_str EmptyString (snd (fst (YesBank.place_amounts float_amounts desc)))
         = true).
Proof.
  split; [|split; [|split; [|split; [|split; [|split; [|split; [|split]]]]]]].
  - intros c ts.
    destruct (sbi_credit_finalize c ts) as [H | (a & _ & _ & _ & _ & H)]; [now left|].
    right. eexists. split; [exact H | apply card_record_one_sided].
  - intros c ts.
    destruct (yes_credit_finalize c ts) as [H | (a & _ & _ & _ & _ & H)]; [now left|].
    right. eexists. split; [exact H | apply card_record_one_sided].
  - intros c ts.
    destruct (rbl_credit_finalize c ts) as [H | (a & _ & _ & _ & _ & H)]; [now left|].
    right. eexists. split; [exact H | apply card_record_one_sided].
  - intros c ts.
    destruct (indusind_credit_finalize c ts) as [H | (a & _ & _ & _ & _ & H)];
      [now left|].
    right. eexists. split; [exact H | apply card_record_one_sided].
  - intros c ts.
    destruct (hdfc_credit_finalize c ts) as [H | (_ & _ & H)]; [now left|].
    right. eexists. split; [exact H | apply card_record_one_sided].
  - intros c ts.
    destruct (one_credit_finalize c ts) as [H | (_ & _ & H)]; [now left|].
    right. eexists. split; [exact H | apply card_record_one_sided].
  - intros text ts. apply grown_sbi_text.
  - intros cols cells date_str ts Hbf Hd Hc.
    rewrite (dated_row_balance_forward cols cells date_str ts Hbf Hd Hc).
    destruct (Str.is_empty _); [now left|].
    right. eexists. split; [reflexivity|]. split; [split|]; reflexivity.
  - apply place_amounts_one_sided.
Qed.

Lemma card_records_one_sided_witness :
  StandardBank.dated_row StandardBank.default_columns
    (StandardBank.cells_of opening_row) "01 Apr 2024" []
  = [Py.record "01 Apr 2024" "BALANCE FORWARD" Py.empty_str Py.empty_str
       (PStr "12,500.00") "Opening Balance"] /\
  (StandardBank.dated_row StandardBank.default_columns
     (StandardBank.cells_of opening_row) "01 Apr 2024" [] = [] \/
   exists r, StandardBank.dated_row StandardBank.default_columns
               (StandardBank.cells_of opening_row) "01 Apr 2024" [] = [] ++ [r]
             /\ both_empty r /\ r !! "ledger" = Some (PStr "Opening Balance")).
Proof.
  split; [cbv -[Py.record]; reflexivity|].
  destruct card_records_one_sided as (_ & _ & _ & _ & _ & _ & _ & Hopening & _).
  exact (Hopening StandardBank.default_columns (StandardBank.cells_of opening_row)
           "01 Apr 2024" [] eq_refl eq_refl eq_refl).
Defined.

(** C2 as stated fails in [yes_bank]: a text line with three amounts
    gives a record with both a debit and a credit. *)
Lemma both_sides_filled_counterexample :
  YesBank._process_yes_text "01/04/2024 NEFT ACME 100.00 200.00 300.00" []
  = [Py.record "01/04/2024" "NEFT ACME" (PFloat 100) (PFloat 200) (PFloat 300)
       "Transfer"] /\
  both_filled (Py.record "01/04/2024" "NEFT ACME" (PFloat 100) (PFloat 200) (PFloat 300)
                 "Transfer").
Proof. split; [cbv -[Py.record]; reflexivity | split; reflexivity]. Qed.

End ExclusivityTheorems.

Section BackfillFacts.
Import Normalizer.

Lemma step_balance (running : float) (t : transaction) (v : pyval) :
  step running (<["balance" := v]> t) = step running t.
Proof. unfold step, Py.get. now rewrite !lookup_insert_ne by discriminate. Qed.

Lemma fill_from_again (transactions : list transaction) :
  forall running : float,
    fill_from running (fill_from running transactions) = fill_from running transactions.
Proof.
  induction transactions as [|t rest IH]; intros running; simpl; [reflexivity|].
  now rewrite step_balance, insert_insert_eq, IH.
Qed.

Lemma fill_running_balance_lookup (transactions : list transaction) (i : nat)
    (t : transaction) :
  transactions !! i = Some t ->
  exists t', _fill_running_balance transactions !! i = Some t' /\
             forall k, k <> "balance" -> t' !! k = t !! k.
Proof.
  intros Hi. unfold _fill_running_balance. destruct (has_balance transactions).
  - now exists t.
  - rewrite (fill_from_lookup _ _ _ _ Hi). eexists. split; [reflexivity|].
    intros k Hk. now rewrite lookup_insert_ne.
Qed.

Lemma fill_running_balance_length (transactions : list transaction) :
  length (_fill_running_balance transactions) = length transactions.
Proof.
  unfold _fill_running_balance. destruct (has_balance transactions);
    [reflexivity | apply fill_from_length].
Qed.

End BackfillFacts.

(** X1.  [_fill_running_balance] applied to its own result changes nothing:
    once the balances are filled in, or were there from the start, a
    second pass leaves every record as it is. *)
Theorem fill_running_balance_idempotent (transactions : list transaction) :
  Normalizer._fill_running_balance (Normalizer._fill_running_balance transactions)
  = Normalizer._fill_running_balance transactions.
Proof.
  unfold Normalizer._fill_running_balance.
  destruct (Normalizer.has_balance transactions) eqn:E.
  - now rewrite E.
  - destruct (Normalizer.has_balance (Normalizer.fill_from PyFloat.zero transactions));
      [reflexivity | apply fill_from_again].
Qed.

Section SerialFacts.
Import Detector.

Lemma assign_serials_lookup (txns : list transaction) :
  forall (i0 : Z) (i : nat) (t : transaction),
    txns !! i = Some t ->
    assign_serials i0 txns !! i = Some (<["serial" := PInt (i0 + Z.of_nat i + 1)]> t).
Proof.
  induction txns as [|t0 rest IH]; intros i0 i t Hi; [discriminate|].
  destruct i as [|i]; simpl in *.
  - inversion Hi; subst. do 3 f_equal. lia.
  - rewrite (IH _ _ _ Hi). do 3 f_equal. lia.
Qed.

Lemma assign_serials_length (txns : list transaction) :
  forall i0 : Z, length (assign_serials i0 txns) = length txns.
Proof. induction txns as [|t rest IH]; intros i0; simpl; [reflexivity | now rewrite IH]. Qed.

End SerialFacts.

Section DispatchResults.
Import Detector.

Context {file page : Type}.
Variable open_pdf : file -> outcome (list page).
Variable extract_text : page -> outcome (option string).
Variable parser_func : bank_type -> file -> outcome (list transaction).

(** X2.  What a successful call returns: the records of the detected
    format's parser, in their order and none dropped, each with [serial]
    set to its position counted from 1; apart from [serial] and [balance]
    every key of every record is as the parser left it, and the account
    information is empty. *)
Theorem serials_follow_positions (f : file) (p : parsed) :
  detect_and_parse open_pdf extract_text parser_func f = Returns (Some p) ->
  exists full_text first_page_text txns,
    sample_text open_pdf extract_text f = Returns (full_text, first_page_text) /\
    parser_func (detect_bank_type full_text (Some first_page_text)) f = Returns txns /\
    account_info p = EmptyString /\
    length (transactions p) = length txns /\
    forall (i : nat) (t : transaction),
      txns !! i = Some t ->
      exists t', transactions p !! i = Some t' /\
                 t' !! "serial" = Some (PInt (Z.of_nat i + 1)) /\
                 forall k, k <> "serial" -> k <> "balance" -> t' !! k = t !! k.
Proof.
  unfold detect_and_parse.
  destruct (sample_text open_pdf extract_text f) as [e|[full first]] eqn:Hs.
  { destruct (has (Str.lower e) "password" || has (Str.lower e) "encrypted");
      discriminate. }
  destruct (Str.is_empty (Str.strip full)); [discriminate|].
  destruct (parser_map parser_func (detect_bank_type full (Some first)))
    as [[label parse]|] eqn:Hmap; [|discriminate].
  pose proof (parser_map_some _ _ _ _ Hmap) as ->.
  destruct (parser_func (detect_bank_type full (Some first)) f) as [e|txns] eqn:Hp;
    [discriminate|].
  destruct txns as [|t0 rest] eqn:Ht; [discriminate|]. rewrite <- Ht.
  intros H. inversion H; subst p. clear H.
  exists full, first, txns. simpl.
  split; [reflexivity|]. split; [now rewrite Ht|]. split; [reflexivity|]. split.
  - now rewrite fill_running_balance_length, assign_serials_length.
  - intros i t Hi.
    pose proof (assign_serials_lookup _ 0 _ _ Hi) as Hser.
    destruct (fill_running_balance_lookup _ _ _ Hser) as (t' & Ht' & Hkeys).
    exists t'. split; [exact Ht'|]. split.
    + rewrite Hkeys by discriminate. now rewrite lookup_insert_eq.
    + intros k Hserial Hbalance. rewrite (Hkeys k Hbalance).
      now rewrite lookup_insert_ne.
Qed.

(** X3.  When the call raises.  An exception of the PDF reader, met while
    the file is opened or the first three pages are read, is replaced by
    the password message when its text mentions a password or encryption
    in any case, and passed on otherwise; an exception of the format's
    parser is passed on as it is; nothing else raises. *)
Theorem raises_iff (f : file) (msg : string) :
  detect_and_parse open_pdf extract_text parser_func f = Raises msg
  <->
  (exists e, sample_text open_pdf extract_text f = Raises e /\
             msg = if has (Str.lower e) "password" || has (Str.lower e) "encrypted"
                   then password_message else e)
  \/
  (exists full_text first_page_text,
      sample_text open_pdf extract_text f = Returns (full_text, first_page_text) /\
      Str.is_empty (Str.strip full_text) = false /\
      detect_bank_type full_text (Some first_page_text) <> unknown /\
      parser_func (detect_bank_type full_text (Some first_page_text)) f = Raises msg).
Proof.
  unfold detect_and_parse. split.
  - destruct (sample_text open_pdf extract_text f) as [e|[full first]] eqn:Hs.
    { intros H. left. exists e. split; [reflexivity|].
      destruct (has (Str.lower e) "password" || has (Str.lower e) "encrypted");
        now inversion H. }
    destruct (Str.is_empty (Str.strip full)) eqn:Hblank; [discriminate|].
    destruct (parser_map parser_func (detect_bank_type full (Some first)))
      as [[label parse]|] eqn:Hmap; [|discriminate].
    pose proof (parser_map_some _ _ _ _ Hmap) as ->.
    destruct (parser_func (detect_bank_type full (Some first)) f) as [e|txns] eqn:Hp.
    + intros H. inversion H; subst. right. exists full, first.
      repeat split; try assumption.
      intros Hu. rewrite Hu in Hmap. discriminate.
    + now destruct txns.
  - intros [(e & -> & ->) | (full & first & -> & -> & Hknown & Hp)].
    + now destruct (has (Str.lower e) "password" || has (Str.lower e) "encrypted").
    + destruct (parser_map parser_func (detect_bank_type full (Some first)))
        as [[label parse]|] eqn:Hmap.
      * pose proof (parser_map_some _ _ _ _ Hmap) as ->. now rewrite Hp.
      * now apply parser_map_none in Hmap.
Qed.

End DispatchResults.

(** A statement of one page, read by a parser that returns two records. *)
Definition one_page_reader (_ : unit) : outcome (list string) :=
  Returns ["State Bank of India Account Statement IFS Code SBIN0001234"].

Definition reader_text (p : string) : outcome (option string) := Returns (Some p).

Definition two_records (_ : bank_type) (_ : unit) : outcome (list transaction) :=
  Returns [ {[ "debit" := PStr "10.00" ]}; {[ "credit" := PStr "4.00" ]} ].

Definition two_numbered : Detector.parsed :=
  Detector.Parsed "SBI Bank"
    (Normalizer._fill_running_balance
       (Detector.assign_serials 0
          [ {[ "debit" := PStr "10.00" ]}; {[ "credit" := PStr "4.00" ]} ]))
    EmptyString.

Lemma serials_follow_positions_witness :
  Detector.detect_and_parse one_page_reader reader_text two_records tt
    = Returns (Some two_numbered) /\
  exists t', Detector.transactions two_numbered !! 1 = Some t' /\
             t' !! "serial" = Some (PInt 2) /\
             t' !! "credit" = Some (PStr "4.00").
Proof.
  assert (Detector.detect_and_parse one_page_reader reader_text two_records tt
          = Returns (Some two_numbered)) as H by (vm_compute; reflexivity).
  split; [exact H|].
  destruct (serials_follow_positions _ _ _ _ _ H)
    as (full & first & txns & _ & Hp & _ & _ & Hall).
  unfold two_records in Hp. inversion Hp; subst txns.
  destruct (Hall 1 _ eq_refl) as (t' & Ht' & Hser & Hkeys).
  exists t'. split; [exact Ht'|]. split; [exact Hser|].
  now rewrite Hkeys by discriminate.
Defined.

(** X4.  With a first page that is not empty, the pages after it bear on
    the label in one way only: through the phrase "one credit card".  Two
    full texts that agree on holding that phrase are labelled alike. *)
Theorem later_pages_one_phrase (text text' first_page_text : string) :
  first_page_text <> EmptyString ->
  Detector.has (Str.lower text) "one credit card"
    = Detector.has (Str.lower text') "one credit card" ->
  Detector.detect_bank_type text (Some first_page_text)
    = Detector.detect_bank_type text' (Some first_page_text).
Proof.
  intros Hfp Hone. unfold Detector.detect_bank_type, Detector.or_text.
  destruct first_page_text as [|c fp]; [contradiction|]. simpl Str.is_empty. cbv iota.
  unfold Detector.tier1. now rewrite Hone.
Qed.

Lemma later_pages_one_phrase_witness :
  Detector.detect_bank_type "HDFC BANK Account Statement" (Some "Yes Bank Savings")
  = Detector.detect_bank_type "other pages" (Some "Yes Bank Savings").
Proof.
  apply later_pages_one_phrase; [discriminate | reflexivity].
Defined.

Section AmountTextFacts.

Lemma replace_comma_cons (c : ascii) (s : string) :
  Str.replace "," EmptyString (String c s)
  = if Ascii.eqb "," c then Str.replace "," EmptyString s
    else String c (Str.replace "," EmptyString s).
Proof.
  unfold Str.replace.
  cbn [Str.is_empty Str.replace_from Str.starts_with String.length Nat.sub].
  rewrite andb_true_r. now destruct (Ascii.eqb "," c).
Qed.

Lemma replace_comma_again (s : string) :
  Str.replace "," EmptyString (Str.replace "," EmptyString s)
  = Str.replace "," EmptyString s.
Proof.
  induction s as [|c s IH]; [reflexivity|].
  rewrite replace_comma_cons. destruct (Ascii.eqb "," c) eqn:E; [exact IH|].
  now rewrite replace_comma_cons, E, IH.
Qed.

Lemma to_float_text (s : string) :
  Normalizer._to_float (PStr s)
  = default PyFloat.zero (PyFloat.of_string (Normalizer.clean_amount s)).
Proof.
  unfold Normalizer._to_float. simpl.
  destruct (String.eqb_spec s EmptyString) as [->|Hne]; [reflexivity|].
  now rewrite orb_false_r.
Qed.

End AmountTextFacts.

(** X5.  [_to_float] reads a text the same with and without its commas:
    thousands separators, wherever they stand, do not change the number,
    and a text that is not a number either way reads as 0.0. *)
Theorem to_float_ignores_commas (s : string) :
  Normalizer._to_float (PStr (Str.replace "," EmptyString s))
  = Normalizer._to_float (PStr s).
Proof.
  rewrite !to_float_text. unfold Normalizer.clean_amount.
  now rewrite replace_comma_again.
Qed.

Module HdfcRows.
Import HdfcBank.

(** The words of a row in reading order, and the row's text as the
    summary test reads it. *)
Definition row_words (row : float * list word) : list word :=
  Words.sort_by x0 (snd row).

Definition row_text (row : float * list word) : string :=
  Str.join EmptyString
    (map (fun w => Str.replace " " EmptyString (Str.upper (text w))) (row_words row)).

(** A row that opens a record: no summary keyword, and a date on the left. *)
Definition is_transaction_row (row : float * list word) : bool :=
  negb (Str.contains_any SKIP_KEYWORDS (row_text row))
  && match find_date 0 (row_words row) with Some _ => true | None => false end.

(** The rows of a page in the order the loop visits them. *)
Definition rows_of (words : list word) : list (float * list word) :=
  Words.sort_by fst (_group_words_by_y words).

End HdfcRows.

Section HdfcPageFacts.
Import HdfcBank HdfcRows.

Lemma extend_last_app (extra : string) (ts new : list transaction) :
  new <> [] -> Py.extend_last extra (ts ++ new) = ts ++ Py.extend_last extra new.
Proof.
  intros Hnew. induction ts as [|t ts IH]; [reflexivity|].
  simpl. rewrite IH. destruct (ts ++ new) eqn:E; [|reflexivity].
  apply app_eq_nil in E as [_ E]. contradiction.
Qed.

Lemma extend_last_length (extra : string) (ts : list transaction) :
  length (Py.extend_last extra ts) = length ts.
Proof.
  induction ts as [|t ts IH]; [reflexivity|].
  destruct ts as [|t' ts]; [reflexivity|].
  change (Py.extend_last extra (t :: t' :: ts)) with (t :: Py.extend_last extra (t' :: ts)).
  cbn [length]. f_equal. exact IH.
Qed.

Lemma is_nil_app {A : Type} (a b : list A) :
  b <> [] -> Py.is_nil (a ++ b) = false.
Proof. intros Hb. destruct a; [now destruct b | reflexivity]. Qed.

(** The scan of a page that starts after the records [ts] runs as the
    scan that starts with none: as long as no dated row was met on the
    page, no record is touched. *)
Definition page_alike (ts : list transaction) (a b : scan) : Prop :=
  last_date_y a = last_date_y b /\
  emitted a = ts ++ emitted b /\
  (PrimFloat.ltb PyFloat.zero (last_date_y b) = true -> emitted b <> []).

Lemma scan_row_alike (ts : list transaction) (a b : scan) (row : float * list word) :
  page_alike ts a b -> page_alike ts (scan_row a row) (scan_row b row).
Proof.
  intros Hab. pose proof Hab as (Hy & He & Hpos). unfold scan_row. destruct row as [y ws].
  destruct (Str.contains_any SKIP_KEYWORDS _); [exact Hab|].
  destruct (find_date 0 (Words.sort_by x0 ws)) as [[date_index date_word]|].
  - repeat split; simpl.
    + now rewrite He, app_assoc.
    + intros _ H. now apply app_eq_nil in H as [_ H].
  - rewrite Hy. destruct (PrimFloat.ltb PyFloat.zero (last_date_y b)) eqn:Hl.
    + specialize (Hpos eq_refl).
      assert (Py.is_nil (emitted a) = false) as -> by (rewrite He; now apply is_nil_app).
      assert (Py.is_nil (emitted b) = false) as -> by now destruct (emitted b).
      simpl negb. cbv iota. simpl andb.
      match goal with |- context [if ?c then _ else _] => destruct c end;
        [|exact Hab].
      repeat split; simpl; try assumption.
      * rewrite He. now apply extend_last_app.
      * intros _ H. apply (f_equal (@length _)) in H.
        rewrite extend_last_length in H. now destruct (emitted b).
    + rewrite !andb_false_r. simpl andb. cbv iota. exact Hab.
Qed.

Lemma scan_rows_alike (ts : list transaction) (rows : list (float * list word)) :
  forall a b, page_alike ts a b ->
              page_alike ts (fold_left scan_row rows a) (fold_left scan_row rows b).
Proof.
  induction rows as [|row rows IH]; intros a b Hab; [exact Hab|].
  simpl. apply IH. now apply scan_row_alike.
Qed.

Lemma scan_page_app (ts : list transaction) (words : list word) :
  scan_page ts words = ts ++ scan_page [] words.
Proof.
  unfold scan_page. destruct words as [|w words]; [now rewrite app_nil_r|].
  apply (scan_rows_alike ts).
  repeat split; simpl; [now rewrite app_nil_r | discriminate].
Qed.

Lemma scan_row_count (st : scan) (row : float * list word) :
  length (emitted (scan_row st row))
  = length (emitted st) + (if is_transaction_row row then 1 else 0).
Proof.
  unfold scan_row, is_transaction_row, row_text, row_words. destruct row as [y ws]. simpl snd.
  destruct (Str.contains_any SKIP_KEYWORDS _); cbn [negb andb]; [lia|].
  destruct (find_date 0 (Words.sort_by x0 ws)) as [[date_index date_word]|]; simpl.
  - rewrite length_app. simpl. lia.
  - match goal with |- context [if ?c then _ else _] => destruct c end; simpl;
      [rewrite extend_last_length|]; lia.
Qed.

Lemma scan_rows_count (rows : list (float * list word)) :
  forall st, length (emitted (fold_left scan_row rows st))
             = length (emitted st) + length (List.filter is_transaction_row rows).
Proof.
  induction rows as [|row rows IH]; intros st; simpl; [lia|].
  rewrite IH, scan_row_count. destruct (is_transaction_row row); simpl; lia.
Qed.

End HdfcPageFacts.

(** X6.  [parse_hdfc_bank] reads each page on its own: a page never
    changes a record of an earlier page, not even by a continuation row
    at its top, so the result is the records of the pages, each parsed
    alone, one after the other. *)
Theorem hdfc_pages_independent (pages : list (list word)) :
  HdfcBank.parse_hdfc_bank pages = concat (map (HdfcBank.scan_page []) pages).
Proof.
  unfold HdfcBank.parse_hdfc_bank.
  assert (forall ts, fold_left HdfcBank.scan_page pages ts
                     = ts ++ concat (map (HdfcBank.scan_page []) pages)) as H.
  { induction pages as [|p pages IH]; intros ts; simpl; [now rewrite app_nil_r|].
    now rewrite IH, scan_page_app, app_assoc. }
  apply (H []).
Qed.

(** X7.  On a page every row that holds a date on its left and no summary
    keyword gives exactly one record, whether or not it holds an amount,
    and no other row gives one. *)
Theorem hdfc_one_record_per_dated_row (words : list word) :
  length (HdfcBank.scan_page [] words)
  = length (List.filter HdfcRows.is_transaction_row (HdfcRows.rows_of words)).
Proof.
  unfold HdfcBank.scan_page, HdfcRows.rows_of. destruct words as [|w words]; [reflexivity|].
  now rewrite scan_rows_count.
Qed.

(** ** The records of the credit-card parsers *)

Module CardRecords.
Import RecordClaim.

(** A record as the credit-card parsers build it: a date and a
    description, the amount, which is not zero, on exactly one of the
    debit and credit sides and [''] on the other, an empty balance, and
    the ledger that [ledger_of] gives for the description.  The field
    [key] (the date for some parsers, the description for others) is not
    empty. *)
Definition card_shaped (ledger_of : string -> string) (key : string) (r : transaction)
    : Prop :=
  exists (date desc : string) (amount : float) (credit : bool),
    r = card_record date desc amount credit (ledger_of desc) /\
    PrimFloat.eqb amount PyFloat.zero = false /\
    exists v, r !! key = Some (PStr v) /\ Str.is_empty v = false.

(** The list [out] is [ts] followed by such records. *)
Definition grown (ledger_of : string -> string) (key : string)
    (ts out : list transaction) : Prop :=
  exists new, out = ts ++ new /\ Forall (card_shaped ledger_of key) new.

End CardRecords.

Section CardRecordFacts.
Import RecordClaim CardRecords.

Context (ledger_of : string -> string) (key : string).

Lemma grown_same (ts : list transaction) : grown ledger_of key ts ts.
Proof. exists []. now rewrite app_nil_r. Qed.

Lemma grown_one (ts out : list transaction) (r : transaction) :
  grown ledger_of key ts out -> card_shaped ledger_of key r -> grown ledger_of key ts (out ++ [r]).
Proof.
  intros (new & -> & Hnew) Hr. exists (new ++ [r]). split; [now rewrite app_assoc|].
  apply Forall_app. split; [assumption | now constructor].
Qed.

Lemma grown_trans (a b c : list transaction) :
  grown ledger_of key a b -> grown ledger_of key b c -> grown ledger_of key a c.
Proof.
  intros (n1 & -> & H1) (n2 & -> & H2). exists (n1 ++ n2).
  split; [now rewrite app_assoc | now apply Forall_app].
Qed.

(** The pages of a statement, one after the other. *)
Lemma grown_pages (process : string -> list transaction -> list transaction)
    (pages : list (option string)) :
  (forall text ts, grown ledger_of key ts (process text ts)) ->
  forall ts,
    grown ledger_of key ts
      (fold_left (fun transactions text => process (default EmptyString text) transactions)
         pages ts).
Proof.
  intros Hprocess. induction pages as [|p pages IH]; intros ts; simpl; [apply grown_same|].
  eapply grown_trans; [apply Hprocess | apply IH].
Qed.

Lemma card_shaped_blank_balance (r : transaction) :
  card_shaped ledger_of key r ->
  Normalizer.blank_balance (Py.get r "balance" PNone) = true.
Proof. intros (date & desc & amount & credit & -> & _ & _). now destruct credit. Qed.

Lemma card_shaped_no_balance (rs : list transaction) :
  Forall (card_shaped ledger_of key) rs -> Normalizer.has_balance rs = false.
Proof.
  induction 1 as [|r rs Hr _ IH]; [reflexivity|].
  unfold Normalizer.has_balance in *. simpl.
  now rewrite (card_shaped_blank_balance _ Hr), IH.
Qed.

End CardRecordFacts.

Section CardScans.
Import RecordClaim CardRecords.

Lemma grown_sbi_credit_finalize (ts out : list transaction) (c : candidate) :
  grown SbiCredit._determine_ledger "date" ts out ->
  grown SbiCredit._determine_ledger "date" ts (SbiCredit._finalize_sbi_credit_txn c out).
Proof.
  intros H. destruct (sbi_credit_finalize c out) as [-> | (a & _ & Hz & _ & Hd & ->)];
    [assumption|].
  apply grown_one; [assumption|].
  eexists _, _, _, _. split; [reflexivity|]. split; [assumption|].
  eexists. split; [reflexivity | assumption].
Qed.

Lemma grown_yes_credit_finalize (ts out : list transaction) (c : candidate) :
  grown YesCredit._determine_ledger "date" ts out ->
  grown YesCredit._determine_ledger "date" ts (YesCredit._finalize_yes_credit_txn c out).
Proof.
  intros H. destruct (yes_credit_finalize c out) as [-> | (a & _ & Hz & _ & Hd & ->)];
    [assumption|].
  apply grown_one; [assumption|].
  eexists _, _, _, _. split; [reflexivity|]. split; [assumption|].
  eexists. split; [reflexivity | assumption].
Qed.

Lemma grown_rbl_credit_finalize (ts out : list transaction) (c : candidate) :
  grown RblCredit._determine_ledger "date" ts out ->
  grown RblCredit._determine_ledger "date" ts (RblCredit._finalize_txn c out).
Proof.
  intros H. destruct (rbl_credit_finalize c out) as [-> | (a & _ & Hz & _ & Hd & ->)];
    [assumption|].
  apply grown_one; [assumption|].
  eexists _, _, _, _. split; [reflexivity|]. split; [assumption|].
  eexists. split; [reflexivity | assumption].
Qed.

Lemma grown_indusind_credit_finalize (ts out : list transaction) (c : candidate) :
  grown IndusindCredit._determine_ledger "date" ts out ->
  grown IndusindCredit._determine_ledger "date" ts (IndusindCredit._finalize c out).
Proof.
  intros H.
  destruct (indusind_credit_finalize c out) as [-> | (a & _ & Hz & _ & Hd & ->)];
    [assumption|].
  apply grown_one; [assumption|].
  eexists _, _, _, _. split; [reflexivity|]. split; [assumption|].
  eexists. split; [reflexivity | assumption].
Qed.

Lemma grown_hdfc_credit_finalize (ts out : list transaction) (c : hdfc_candidate) :
  grown HdfcCredit._determine_ledger "description" ts out ->
  grown HdfcCredit._determine_ledger "description" ts (HdfcCredit._finalize_hdfc_credit_txn c out).
Proof.
  intros H. destruct (hdfc_credit_finalize c out) as [-> | (Hz & Hd & ->)]; [assumption|].
  apply grown_one; [assumption|].
  eexists _, _, _, _. split; [reflexivity|]. split; [assumption|].
  eexists. split; [reflexivity | assumption].
Qed.

Lemma grown_one_credit_finalize (ts out : list transaction) (c : one_candidate) :
  grown OneCredit._determine_ledger "description" ts out ->
  grown OneCredit._determine_ledger "description" ts (OneCredit._finalize c out).
Proof.
  intros H. destruct (one_credit_finalize c out) as [-> | (Hz & Hd & ->)]; [assumption|].
  apply grown_one; [assumption|].
  eexists _, _, _, _. split; [reflexivity|]. split; [assumption|].
  eexists. split; [reflexivity | assumption].
Qed.

(** Each turn of a scan leaves the list as it is or hands it to the
    finalizer once. *)
Ltac scan_cases :=
  repeat match goal with
         | |- context [if ?b then _ else _] => destruct b
         | |- context [match Re.rmatch_start ?r ?s with _ => _ end] =>
             destruct (Re.rmatch_start r s)
         | |- context [match Re.search ?r ?s with _ => _ end] =>
             destruct (Re.search r s)
         end.

Lemma grown_sbi_credit_line (ts : list transaction) (st : SbiCredit.scan) (line : string) :
  grown SbiCredit._determine_ledger "date" ts (SbiCredit.emitted st) ->
  grown SbiCredit._determine_ledger "date" ts (SbiCredit.emitted (SbiCredit.scan_line st line)).
Proof.
  intros H. unfold SbiCredit.scan_line, SbiCredit.open_candidate.
  destruct st as [flag [c|] out]; simpl in *; scan_cases; simpl;
    try assumption; now apply grown_sbi_credit_finalize.
Qed.

Lemma grown_yes_credit_line (ts : list transaction) (st : YesCredit.scan) (line : string) :
  grown YesCredit._determine_ledger "date" ts (YesCredit.emitted st) ->
  grown YesCredit._determine_ledger "date" ts (YesCredit.emitted (YesCredit.scan_line st line)).
Proof.
  intros H. unfold YesCredit.scan_line.
  destruct st as [flag [c|] out]; simpl in *; scan_cases; simpl;
    try assumption; now apply grown_yes_credit_finalize.
Qed.

Lemma grown_rbl_credit_line (ts : list transaction) (st : RblCredit.scan) (line : string) :
  grown RblCredit._determine_ledger "date" ts (RblCredit.emitted st) ->
  grown RblCredit._determine_ledger "date" ts (RblCredit.emitted (RblCredit.scan_line st line)).
Proof.
  intros H. unfold RblCredit.scan_line, RblCredit.flush.
  destruct st as [flag [c|] out]; simpl in *; scan_cases; simpl;
    try assumption; now apply grown_rbl_credit_finalize.
Qed.

Lemma grown_indusind_credit_line (ts : list transaction) (st : IndusindCredit.scan)
    (line : string) :
  grown IndusindCredit._determine_ledger "date" ts (IndusindCredit.emitted st) ->
  grown IndusindCredit._determine_ledger "date" ts
    (IndusindCredit.emitted (IndusindCredit.scan_line st line)).
Proof.
  intros H. unfold IndusindCredit.scan_line, IndusindCredit.flush.
  destruct st as [flag [c|] out]; simpl in *; scan_cases; simpl;
    try assumption; now apply grown_indusind_credit_finalize.
Qed.

Lemma grown_hdfc_credit_line (ts : list transaction) (st : HdfcCredit.scan) (line : string) :
  grown HdfcCredit._determine_ledger "description" ts (HdfcCredit.emitted st) ->
  grown HdfcCredit._determine_ledger "description" ts (HdfcCredit.emitted (HdfcCredit.scan_line st line)).
Proof.
  intros H. unfold HdfcCredit.scan_line, HdfcCredit.flush.
  destruct st as [flag [c|] out]; simpl in *; scan_cases; simpl;
    try assumption; now apply grown_hdfc_credit_finalize.
Qed.

Lemma grown_one_credit_line (ts : list transaction) (st : OneCredit.scan) (line : string) :
  grown OneCredit._determine_ledger "description" ts (OneCredit.emitted st) ->
  grown OneCredit._determine_ledger "description" ts (OneCredit.emitted (OneCredit.scan_line st line)).
Proof.
  intros H. unfold OneCredit.scan_line, OneCredit.flush.
  destruct st as [flag [c|] out]; simpl in *; scan_cases; simpl;
    try assumption; now apply grown_one_credit_finalize.
Qed.

End CardScans.

Section CardTexts.
Import RecordClaim CardRecords.

Lemma grown_lines {S : Type} (ledger_of : string -> string) (key : string) (emitted : S -> list transaction)
    (step : S -> string -> S) (ts : list transaction) :
  (forall st line, grown ledger_of key ts (emitted st) ->
                   grown ledger_of key ts (emitted (step st line))) ->
  forall lines st, grown ledger_of key ts (emitted st) ->
                   grown ledger_of key ts (emitted (fold_left step lines st)).
Proof.
  intros Hstep. induction lines as [|l lines IH]; intros st Hst; simpl; [assumption|].
  apply IH. now apply Hstep.
Qed.

Lemma grown_sbi_credit_text (text : string) (ts : list transaction) :
  grown SbiCredit._determine_ledger "date" ts (SbiCredit._process_sbi_credit_text text ts).
Proof.
  unfold SbiCredit._process_sbi_credit_text.
  pose proof (grown_lines _ _ SbiCredit.emitted SbiCredit.scan_line ts
                (grown_sbi_credit_line ts) (Str.lines text)
                (SbiCredit.Scan false None ts) (grown_same _ _ ts)) as H.
  destruct (SbiCredit.current_txn _); [now apply grown_sbi_credit_finalize | assumption].
Qed.

Lemma grown_yes_credit_text (text : string) (ts : list transaction) :
  grown YesCredit._determine_ledger "date" ts (YesCredit._process_yes_credit_text text ts).
Proof.
  unfold YesCredit._process_yes_credit_text.
  pose proof (grown_lines _ _ YesCredit.emitted YesCredit.scan_line ts
                (grown_yes_credit_line ts) (Str.lines text)
                (YesCredit.Scan false None ts) (grown_same _ _ ts)) as H.
  destruct (YesCredit.current_txn _); [now apply grown_yes_credit_finalize | assumption].
Qed.

Lemma grown_rbl_credit_text (text : string) (ts : list transaction) :
  grown RblCredit._determine_ledger "date" ts (RblCredit._process_rbl_credit_text text ts).
Proof.
  unfold RblCredit._process_rbl_credit_text, RblCredit.flush.
  pose proof (grown_lines _ _ RblCredit.emitted RblCredit.scan_line ts
                (grown_rbl_credit_line ts) (Str.lines text)
                (RblCredit.Scan false None ts) (grown_same _ _ ts)) as H.
  destruct (RblCredit.current_txn _); [now apply grown_rbl_credit_finalize | assumption].
Qed.

Lemma grown_indusind_credit_text (text : string) (ts : list transaction) :
  grown IndusindCredit._determine_ledger "date" ts (IndusindCredit._process_text text ts).
Proof.
  unfold IndusindCredit._process_text, IndusindCredit.flush.
  pose proof (grown_lines _ _ IndusindCredit.emitted IndusindCredit.scan_line ts
                (grown_indusind_credit_line ts) (Str.lines text)
                (IndusindCredit.Scan false None ts) (grown_same _ _ ts)) as H.
  destruct (IndusindCredit.current_txn _);
    [now apply grown_indusind_credit_finalize | assumption].
Qed.

Lemma grown_hdfc_credit_text (text : string) (ts : list transaction) :
  grown HdfcCredit._determine_ledger "description" ts (HdfcCredit._process_hdfc_credit_text text ts).
Proof.
  unfold HdfcCredit._process_hdfc_credit_text, HdfcCredit.flush.
  pose proof (grown_lines _ _ HdfcCredit.emitted HdfcCredit.scan_line ts
                (grown_hdfc_credit_line ts) (Str.lines text)
                (HdfcCredit.Scan false None ts) (grown_same _ _ ts)) as H.
  destruct (HdfcCredit.current_txn _); [now apply grown_hdfc_credit_finalize | assumption].
Qed.

Lemma grown_one_credit_text (text : string) (ts : list transaction) :
  grown OneCredit._determine_ledger "description" ts (OneCredit._process_text text ts).
Proof.
  unfold OneCredit._process_text, OneCredit.flush.
  pose proof (grown_lines _ _ OneCredit.emitted OneCredit.scan_line ts
                (grown_one_credit_line ts) (Str.lines text)
                (OneCredit.Scan false None ts) (grown_same _ _ ts)) as H.
  destruct (OneCredit.current_txn _); [now apply grown_one_credit_finalize | assumption].
Qed.

(** From the pages to the statement. *)
Lemma card_statement (ledger_of : string -> string) (key : string)
    (process : string -> list transaction -> list transaction)
    (pages : list (option string)) :
  (forall text ts, grown ledger_of key ts (process text ts)) ->
  let parsed :=
    fold_left (fun transactions text => process (default EmptyString text) transactions)
      pages [] in
  Forall (card_shaped ledger_of key) parsed /\ Normalizer.has_balance parsed = false.
Proof.
  intros Hprocess parsed.
  destruct (grown_pages ledger_of key process pages Hprocess []) as (new & Hnew & Hall).
  simpl in Hnew. fold parsed in Hnew. rewrite Hnew.
  split; [assumption | now apply (card_shaped_no_balance ledger_of key)].
Qed.

End CardTexts.

(** X8.  [sbi_credit]: a page text only adds records to the list, and
    every record of a parsed statement is a card record: a date that is
    not empty, a non-zero amount on exactly one of the debit and credit
    sides, [''] on the other, an empty balance, and the ledger of its own
    description.  No record of the statement carries a balance, so the
    dispatcher computes every one of them. *)
Theorem sbi_credit_records (text : string) (ts : list transaction)
    (pages : list (option string)) :
  CardRecords.grown SbiCredit._determine_ledger "date" ts
    (SbiCredit._process_sbi_credit_text text ts) /\
  Forall (CardRecords.card_shaped SbiCredit._determine_ledger "date")
    (SbiCredit.parse_sbi_credit pages) /\
  Normalizer.has_balance (SbiCredit.parse_sbi_credit pages) = false.
Proof.
  split; [apply grown_sbi_credit_text|].
  apply (card_statement _ _ SbiCredit._process_sbi_credit_text pages grown_sbi_credit_text).
Qed.

(** X9.  [yes_credit]: the same of its page texts and statements. *)
Theorem yes_credit_records (text : string) (ts : list transaction)
    (pages : list (option string)) :
  CardRecords.grown YesCredit._determine_ledger "date" ts
    (YesCredit._process_yes_credit_text text ts) /\
  Forall (CardRecords.card_shaped YesCredit._determine_ledger "date")
    (YesCredit.parse_yes_credit pages) /\
  Normalizer.has_balance (YesCredit.parse_yes_credit pages) = false.
Proof.
  split; [apply grown_yes_credit_text|].
  apply (card_statement _ _ YesCredit._process_yes_credit_text pages grown_yes_credit_text).
Qed.

(** X10.  [rbl_credit]: the same of its page texts and statements. *)
Theorem rbl_credit_records (text : string) (ts : list transaction)
    (pages : list (option string)) :
  CardRecords.grown RblCredit._determine_ledger "date" ts
    (RblCredit._process_rbl_credit_text text ts) /\
  Forall (CardRecords.card_shaped RblCredit._determine_ledger "date")
    (RblCredit.parse_rbl_credit pages) /\
  Normalizer.has_balance (RblCredit.parse_rbl_credit pages) = false.
Proof.
  split; [apply grown_rbl_credit_text|].
  apply (card_statement _ _ RblCredit._process_rbl_credit_text pages grown_rbl_credit_text).
Qed.

(** X11.  [indusind_credit]: the same of its page texts and statements. *)
Theorem indusind_credit_records (text : string) (ts : list transaction)
    (pages : list (option string)) :
  CardRecords.grown IndusindCredit._determine_ledger "date" ts
    (IndusindCredit._process_text text ts) /\
  Forall (CardRecords.card_shaped IndusindCredit._determine_ledger "date")
    (IndusindCredit.parse_indusind_credit pages) /\
  Normalizer.has_balance (IndusindCredit.parse_indusind_credit pages) = false.
Proof.
  split; [apply grown_indusind_credit_text|].
  apply (card_statement _ _ IndusindCredit._process_text pages grown_indusind_credit_text).
Qed.

(** X12.  [hdfc_credit]: the same of its page texts and statements, with the
    description, not the date, known to be not empty. *)
Theorem hdfc_credit_records (text : string) (ts : list transaction)
    (pages : list (option string)) :
  CardRecords.grown HdfcCredit._determine_ledger "description" ts
    (HdfcCredit._process_hdfc_credit_text text ts) /\
  Forall (CardRecords.card_shaped HdfcCredit._determine_ledger "description")
    (HdfcCredit.parse_hdfc_credit pages) /\
  Normalizer.has_balance (HdfcCredit.parse_hdfc_credit pages) = false.
Proof.
  split; [apply grown_hdfc_credit_text|].
  apply (card_statement _ _ HdfcCredit._process_hdfc_credit_text pages
           grown_hdfc_credit_text).
Qed.

(** X13.  [one_credit]: the same of its page texts and statements, with the
    description, not the date, known to be not empty. *)
Theorem one_credit_records (text : string) (ts : list transaction)
    (pages : list (option string)) :
  CardRecords.grown OneCredit._determine_ledger "description" ts (OneCredit._process_text text ts) /\
  Forall (CardRecords.card_shaped OneCredit._determine_ledger "description")
    (OneCredit.parse_one_credit pages) /\
  Normalizer.has_balance (OneCredit.parse_one_credit pages) = false.
Proof.
  split; [apply grown_one_credit_text|].
  apply (card_statement _ _ OneCredit._process_text pages grown_one_credit_text).
Qed.

Module Undated.

(** No line of the text, stripped, starts with a date of the pattern. *)
Definition undated (date_pattern : Re.regex) (text : string) : Prop :=
  Forall (fun line => Re.matches date_pattern (Str.strip line) = false) (Str.lines text).

End Undated.

Section UndatedFacts.
Import Undated.

Lemma matches_false (r : Re.regex) (s : string) :
  Re.matches r s = false -> Re.rmatch_start r s = None.
Proof. unfold Re.matches. now destruct (Re.rmatch_start r s). Qed.

(** A scan that has no open candidate and meets no dated line keeps
    none and emits nothing. *)
Lemma quiet_lines {S : Type} (current : S -> bool) (emitted : S -> list transaction)
    (step : S -> string -> S) (date_pattern : Re.regex) :
  (forall st line,
      current st = false -> Re.matches date_pattern (Str.strip line) = false ->
      current (step st line) = false /\ emitted (step st line) = emitted st) ->
  forall lines st,
    current st = false ->
    Forall (fun line => Re.matches date_pattern (Str.strip line) = false) lines ->
    current (fold_left step lines st) = false
    /\ emitted (fold_left step lines st) = emitted st.
Proof.
  intros Hstep. induction lines as [|l lines IH]; intros st Hst Hall; simpl; [now split|].
  inversion Hall as [|? ? Hl Hrest]; subst.
  destruct (Hstep st l Hst Hl) as [Hc He].
  destruct (IH _ Hc Hrest) as [Hc' He']. split; [assumption | now rewrite He'].
Qed.

Definition is_open {A : Type} (c : option A) : bool :=
  match c with Some _ => true | None => false end.

Ltac quiet_line Hm :=
  rewrite ?Hm, ?(matches_false _ _ Hm); cbn [andb orb negb];
  repeat match goal with
         | |- context [if ?b then _ else _] => destruct b
         end; simpl; split; reflexivity.

Lemma sbi_credit_quiet (st : SbiCredit.scan) (line : string) :
  is_open (SbiCredit.current_txn st) = false ->
  Re.matches SbiCredit.date_pattern (Str.strip line) = false ->
  is_open (SbiCredit.current_txn (SbiCredit.scan_line st line)) = false
  /\ SbiCredit.emitted (SbiCredit.scan_line st line) = SbiCredit.emitted st.
Proof.
  intros Hc Hm. unfold SbiCredit.scan_line.
  destruct st as [flag [c|] out]; [discriminate|]. cbn [SbiCredit.current_txn
    SbiCredit.emitted SbiCredit.in_transaction_section].
  quiet_line Hm.
Qed.

Lemma yes_credit_quiet (st : YesCredit.scan) (line : string) :
  is_open (YesCredit.current_txn st) = false ->
  Re.matches YesCredit.date_pattern (Str.strip line) = false ->
  is_open (YesCredit.current_txn (YesCredit.scan_line st line)) = false
  /\ YesCredit.emitted (YesCredit.scan_line st line) = YesCredit.emitted st.
Proof.
  intros Hc Hm. unfold YesCredit.scan_line.
  destruct st as [flag [c|] out]; [discriminate|]. cbn [YesCredit.current_txn
    YesCredit.emitted YesCredit.in_transactions].
  quiet_line Hm.
Qed.

Lemma rbl_credit_quiet (st : RblCredit.scan) (line : string) :
  is_open (RblCredit.current_txn st) = false ->
  Re.matches RblCredit.date_pattern (Str.strip line) = false ->
  is_open (RblCredit.current_txn (RblCredit.scan_line st line)) = false
  /\ RblCredit.emitted (RblCredit.scan_line st line) = RblCredit.emitted st.
Proof.
  intros Hc Hm. unfold RblCredit.scan_line, RblCredit.flush.
  destruct st as [flag [c|] out]; [discriminate|]. cbn [RblCredit.current_txn
    RblCredit.emitted RblCredit.in_transactions].
  quiet_line Hm.
Qed.

Lemma indusind_credit_quiet (st : IndusindCredit.scan) (line : string) :
  is_open (IndusindCredit.current_txn st) = false ->
  Re.matches IndusindCredit.date_pattern (Str.strip line) = false ->
  is_open (IndusindCredit.current_txn (IndusindCredit.scan_line st line)) = false
  /\ IndusindCredit.emitted (IndusindCredit.scan_line st line) = IndusindCredit.emitted st.
Proof.
  intros Hc Hm. unfold IndusindCredit.scan_line, IndusindCredit.flush.
  destruct st as [flag [c|] out]; [discriminate|]. cbn [IndusindCredit.current_txn
    IndusindCredit.emitted IndusindCredit.in_transactions].
  quiet_line Hm.
Qed.

Lemma hdfc_credit_quiet (st : HdfcCredit.scan) (line : string) :
  is_open (HdfcCredit.current_txn st) = false ->
  Re.matches HdfcCredit.date_pattern (Str.strip line) = false ->
  is_open (HdfcCredit.current_txn (HdfcCredit.scan_line st line)) = false
  /\ HdfcCredit.emitted (HdfcCredit.scan_line st line) = HdfcCredit.emitted st.
Proof.
  intros Hc Hm. unfold HdfcCredit.scan_line, HdfcCredit.flush.
  destruct st as [flag [c|] out]; [discriminate|]. cbn [HdfcCredit.current_txn
    HdfcCredit.emitted HdfcCredit.in_transactions].
  quiet_line Hm.
Qed.

Lemma one_credit_quiet (st : OneCredit.scan) (line : string) :
  is_open (OneCredit.current_txn st) = false ->
  Re.matches OneCredit.date_pattern (Str.strip line) = false ->
  is_open (OneCredit.current_txn (OneCredit.scan_line st line)) = false
  /\ OneCredit.emitted (OneCredit.scan_line st line) = OneCredit.emitted st.
Proof.
  intros Hc Hm. unfold OneCredit.scan_line, OneCredit.flush.
  destruct st as [flag [c|] out]; [discriminate|]. cbn [OneCredit.current_txn
    OneCredit.emitted OneCredit.in_transactions].
  quiet_line Hm.
Qed.

End UndatedFacts.

(** X14.  A text none of whose lines starts with a date gives no record,
    whatever section headers and amounts it holds: each of the six
    credit-card text processors returns the list it was given. *)
Theorem no_dated_line_no_record (text : string) (ts : list transaction) :
  (Undated.undated SbiCredit.date_pattern text ->
   SbiCredit._process_sbi_credit_text text ts = ts) /\
  (Undated.undated YesCredit.date_pattern text ->
   YesCredit._process_yes_credit_text text ts = ts) /\
  (Undated.undated RblCredit.date_pattern text ->
   RblCredit._process_rbl_credit_text text ts = ts) /\
  (Undated.undated IndusindCredit.date_pattern text ->
   IndusindCredit._process_text text ts = ts) /\
  (Undated.undated HdfcCredit.date_pattern text ->
   HdfcCredit._process_hdfc_credit_text text ts = ts) /\
  (Undated.undated OneCredit.date_pattern text ->
   OneCredit._process_text text ts = ts).
Proof.
  split; [|split; [|split; [|split; [|split]]]]; intros Hall.
  - unfold SbiCredit._process_sbi_credit_text.
    destruct (quiet_lines (fun st => is_open (SbiCredit.current_txn st)) SbiCredit.emitted
                SbiCredit.scan_line _ sbi_credit_quiet (Str.lines text)
                (SbiCredit.Scan false None ts) eq_refl Hall) as [Hc He].
    now destruct (SbiCredit.current_txn _).
  - unfold YesCredit._process_yes_credit_text.
    destruct (quiet_lines (fun st => is_open (YesCredit.current_txn st)) YesCredit.emitted
                YesCredit.scan_line _ yes_credit_quiet (Str.lines text)
                (YesCredit.Scan false None ts) eq_refl Hall) as [Hc He].
    now destruct (YesCredit.current_txn _).
  - unfold RblCredit._process_rbl_credit_text, RblCredit.flush.
    destruct (quiet_lines (fun st => is_open (RblCredit.current_txn st)) RblCredit.emitted
                RblCredit.scan_line _ rbl_credit_quiet (Str.lines text)
                (RblCredit.Scan false None ts) eq_refl Hall) as [Hc He].
    now destruct (RblCredit.current_txn _).
  - unfold IndusindCredit._process_text, IndusindCredit.flush.
    destruct (quiet_lines (fun st => is_open (IndusindCredit.current_txn st))
                IndusindCredit.emitted IndusindCredit.scan_line _ indusind_credit_quiet
                (Str.lines text) (IndusindCredit.Scan false None ts) eq_refl Hall)
      as [Hc He].
    now destruct (IndusindCredit.current_txn _).
  - unfold HdfcCredit._process_hdfc_credit_text, HdfcCredit.flush.
    destruct (quiet_lines (fun st => is_open (HdfcCredit.current_txn st)) HdfcCredit.emitted
                HdfcCredit.scan_line _ hdfc_credit_quiet (Str.lines text)
                (HdfcCredit.Scan false None ts) eq_refl Hall) as [Hc He].
    now destruct (HdfcCredit.current_txn _).
  - unfold OneCredit._process_text, OneCredit.flush.
    destruct (quiet_lines (fun st => is_open (OneCredit.current_txn st)) OneCredit.emitted
                OneCredit.scan_line _ one_credit_quiet (Str.lines text)
                (OneCredit.Scan false None ts) eq_refl Hall) as [Hc He].
    now destruct (OneCredit.current_txn _).
Qed.

(** A text with a section header and an amount but no dated line. *)
Definition undated_text : string :=
  "Domestic Transactions" +:+ String Str.newline EmptyString +:+ "UBER TRIP 250.00 Dr".

Lemma no_dated_line_no_record_witness :
  SbiCredit._process_sbi_credit_text undated_text [] = [] /\
  OneCredit._process_text undated_text [] = [].
Proof.
  pose proof (no_dated_line_no_record undated_text []) as (Hsbi & _ & _ & _ & _ & Hone).
  split; [apply Hsbi | apply Hone]; unfold Undated.undated;
    (let l := eval vm_compute in (Str.lines undated_text) in
     change (Str.lines undated_text) with l);
    repeat (constructor; [vm_compute; reflexivity|]); constructor.
Defined.

Module DatedLines.

(** The line opens a record: stripped, it is not empty, holds none of
    the skipped keywords and starts with a date. *)
Definition opens_record (skip : list string) (date_pattern : Re.regex)
    (raw_line : string) : bool :=
  let line := Str.strip raw_line in
  negb (Str.is_empty line)
  && negb (Str.contains_any skip (Str.lower line))
  && Re.matches date_pattern line.

(** The state of a scan that has appended [new] to [ts] and holds [n]
    records, the open one counted. *)
Definition counted (ts : list transaction) (n : nat)
    (st : option pending * list transaction) : Prop :=
  exists new, snd st = ts ++ new /\
              length new + (if is_open (fst st) then 1 else 0) = n.

End DatedLines.

Section DatedLineFacts.
Import DatedLines.

Lemma matches_true (r : Re.regex) (s : string) :
  Re.matches r s = true -> exists m, Re.rmatch_start r s = Some m.
Proof. unfold Re.matches. destruct (Re.rmatch_start r s); [eauto | discriminate]. Qed.

Lemma yes_text_line (ts : list transaction) (n : nat)
    (st : option pending * list transaction) (line : string) :
  counted ts n st ->
  counted ts
    (n + if opens_record YesBank.skip_keywords YesBank.date_pattern line then 1 else 0)
    (YesBank.scan_line st line).
Proof.
  intros (new & Hout & Hlen). destruct st as [cur out]. simpl in Hout, Hlen. subst out.
  unfold YesBank.scan_line, opens_record.
  destruct (Str.is_empty (Str.strip line)); cbn [negb andb];
    [exists new; split; [reflexivity | simpl; lia]|].
  destruct (Str.contains_any YesBank.skip_keywords _); cbn [negb andb];
    [exists new; split; [reflexivity | simpl; lia]|].
  destruct (Re.matches YesBank.date_pattern (Str.strip line)) eqn:Hm.
  - destruct (matches_true _ _ Hm) as [m ->].
    destruct cur as [p|]; simpl in *.
    + exists (new ++ [pending_record p]). rewrite app_assoc, length_app. simpl.
      split; [reflexivity | lia].
    + exists new. split; [reflexivity | simpl; lia].
  - rewrite (matches_false _ _ Hm).
    destruct cur as [p|]; simpl in *; exists new; (split; [reflexivity | simpl; lia]).
Qed.

Lemma standard_text_line (ts : list transaction) (n : nat)
    (st : option pending * list transaction) (line : string) :
  counted ts n st ->
  counted ts
    (n + if opens_record StandardBank.text_skip_keywords StandardBank.text_date_pattern line
         then 1 else 0)
    (StandardBank.scan_line st line).
Proof.
  intros (new & Hout & Hlen). destruct st as [cur out]. simpl in Hout, Hlen. subst out.
  unfold StandardBank.scan_line, opens_record.
  destruct (Str.is_empty (Str.strip line)); cbn [negb andb];
    [exists new; split; [reflexivity | simpl; lia]|].
  destruct (Str.contains_any StandardBank.text_skip_keywords _); cbn [negb andb];
    [exists new; split; [reflexivity | simpl; lia]|].
  destruct (Re.matches StandardBank.text_date_pattern (Str.strip line)) eqn:Hm.
  - destruct (matches_true _ _ Hm) as [m ->].
    destruct cur as [p|]; simpl in *.
    + exists (new ++ [pending_record p]). rewrite app_assoc, length_app. simpl.
      split; [reflexivity | lia].
    + exists new. split; [reflexivity | simpl; lia].
  - rewrite (matches_false _ _ Hm).
    destruct cur as [p|]; simpl in *; exists new; (split; [reflexivity | simpl; lia]).
Qed.

Lemma counted_lines (ts : list transaction)
    (step : option pending * list transaction -> string -> option pending * list transaction)
    (opens : string -> bool) :
  (forall n st line, counted ts n st ->
                     counted ts (n + if opens line then 1 else 0) (step st line)) ->
  forall lines n st,
    counted ts n st ->
    counted ts (n + length (List.filter opens lines)) (fold_left step lines st).
Proof.
  intros Hstep. induction lines as [|l lines IH]; intros n st Hst; simpl.
  - now rewrite Nat.add_0_r.
  - specialize (IH _ _ (Hstep _ _ l Hst)).
    destruct (opens l); simpl in *; [now rewrite <- Nat.add_assoc in IH|].
    now rewrite Nat.add_0_r in IH.
Qed.

End DatedLineFacts.

(** The text path only adds records. *)
Lemma yes_text_appends (text : string) (ts : list transaction) :
  exists new, YesBank._process_yes_text text ts = ts ++ new.
Proof.
  unfold YesBank._process_yes_text.
  destruct (counted_lines ts YesBank.scan_line _ (yes_text_line ts) (Str.lines text) 0
              (None, ts)) as (new & Hout & _).
  { exists []. split; [now rewrite app_nil_r | reflexivity]. }
  destruct (fold_left YesBank.scan_line (Str.lines text) (None, ts)) as [[p|] out];
    simpl in Hout; subst out.
  - exists (new ++ [pending_record p]). now rewrite app_assoc.
  - now exists new.
Qed.

(** X15.  The text path of [yes_bank] only adds records, and it adds
    exactly one for each line that, stripped, is not empty, holds no
    skipped keyword and starts with a date: no dated line is dropped,
    whatever amounts it holds, and no other line gives a record. *)
Theorem yes_text_one_record_per_dated_line (text : string) (ts : list transaction) :
  exists new,
    YesBank._process_yes_text text ts = ts ++ new /\
    length new
    = length (List.filter
                (DatedLines.opens_record YesBank.skip_keywords YesBank.date_pattern)
                (Str.lines text)).
Proof.
  unfold YesBank._process_yes_text.
  destruct (counted_lines ts YesBank.scan_line _ (yes_text_line ts) (Str.lines text) 0
              (None, ts)) as (new & Hout & Hlen).
  { exists []. split; [now rewrite app_nil_r | reflexivity]. }
  destruct (fold_left YesBank.scan_line (Str.lines text) (None, ts)) as [[p|] out];
    simpl in Hout, Hlen; subst out.
  - exists (new ++ [pending_record p]). rewrite app_assoc, length_app. simpl.
    split; [reflexivity | lia].
  - exists new. split; [reflexivity | lia].
Qed.

(** The text path only adds records. *)
Lemma standard_text_appends (text : string) (ts : list transaction) :
  exists new, StandardBank._process_text text ts = ts ++ new.
Proof.
  unfold StandardBank._process_text.
  destruct (counted_lines ts StandardBank.scan_line _ (standard_text_line ts) (Str.lines text) 0
              (None, ts)) as (new & Hout & _).
  { exists []. split; [now rewrite app_nil_r | reflexivity]. }
  destruct (fold_left StandardBank.scan_line (Str.lines text) (None, ts)) as [[p|] out];
    simpl in Hout; subst out.
  - exists (new ++ [pending_record p]). now rewrite app_assoc.
  - now exists new.
Qed.

(** X16.  The text path of [standard_bank] does the same with its own
    keywords and date pattern; unlike the table path it keeps a balance
    forward line even when the line holds no amount. *)
Theorem standard_text_one_record_per_dated_line (text : string) (ts : list transaction) :
  exists new,
    StandardBank._process_text text ts = ts ++ new /\
    length new
    = length (List.filter
                (DatedLines.opens_record StandardBank.text_skip_keywords
                   StandardBank.text_date_pattern)
                (Str.lines text)).
Proof.
  unfold StandardBank._process_text.
  destruct (counted_lines ts StandardBank.scan_line _ (standard_text_line ts)
              (Str.lines text) 0 (None, ts)) as (new & Hout & Hlen).
  { exists []. split; [now rewrite app_nil_r | reflexivity]. }
  destruct (fold_left StandardBank.scan_line (Str.lines text) (None, ts)) as [[p|] out];
    simpl in Hout, Hlen; subst out.
  - exists (new ++ [pending_record p]). rewrite app_assoc, length_app. simpl.
    split; [reflexivity | lia].
  - exists new. split; [reflexivity | lia].
Qed.

Module Growth.

(** [t'] is [t] itself, or [t] with more text at the end of its
    description and every other field as it was. *)
Definition extended (t t' : transaction) : Prop :=
  t' = t \/
  exists d extra, t !! "description" = Some (PStr d) /\
                  t' = <["description" := PStr (d +:+ extra)]> t.

(** [out] holds the records of [ts], in their places: all but the last as
    they were and the last extended at most; more records may follow. *)
Definition kept (ts out : list transaction) : Prop :=
  exists old new, out = old ++ new /\
                  Forall2 extended ts old /\
                  removelast old = removelast ts.

End Growth.

Section GrowthFacts.
Import Growth.

Lemma append_assoc3 (a b c : string) : (a +:+ b) +:+ c = a +:+ (b +:+ c).
Proof.
  induction a as [|x a IH]; [reflexivity|].
  change (String x ((a +:+ b) +:+ c) = String x (a +:+ (b +:+ c))). now rewrite IH.
Qed.

Lemma extended_refl (t : transaction) : extended t t.
Proof. now left. Qed.

Lemma extended_trans (a b c : transaction) :
  extended a b -> extended b c -> extended a c.
Proof.
  intros [-> | (d & e & Hd & ->)] [-> | (d' & e' & Hd' & ->)].
  - now left.
  - right. now exists d', e'.
  - right. now exists d, e.
  - right. rewrite lookup_insert_eq in Hd'. inversion Hd'; subst d'.
    exists d, (e +:+ e'). split; [assumption|].
    now rewrite insert_insert_eq, append_assoc3.
Qed.

Lemma extend_description_extended (extra : string) (t : transaction) :
  extended t (Py.extend_description extra t).
Proof.
  unfold Py.extend_description. destruct (t !! "description") as [[|d| |]|] eqn:E;
    try now left.
  right. now exists d, (" " +:+ extra).
Qed.

Lemma forall2_extended_refl (ts : list transaction) : Forall2 extended ts ts.
Proof. induction ts; constructor; [apply extended_refl | assumption]. Qed.

Lemma kept_refl (ts : list transaction) : kept ts ts.
Proof.
  exists ts, []. split; [now rewrite app_nil_r|]. split; [apply forall2_extended_refl|].
  reflexivity.
Qed.

Lemma kept_append (ts out : list transaction) (r : transaction) :
  kept ts out -> kept ts (out ++ [r]).
Proof.
  intros (old & new & -> & Hold & Hlast). exists old, (new ++ [r]).
  split; [now rewrite app_assoc | now split].
Qed.

Lemma kept_app (ts out more : list transaction) :
  kept ts out -> kept ts (out ++ more).
Proof.
  intros (old & new & -> & Hold & Hlast). exists old, (new ++ more).
  split; [now rewrite app_assoc | now split].
Qed.

(** [extend_last] changes the last record only, and extends it. *)
Lemma extend_last_last (extra : string) (ts old : list transaction) :
  Forall2 extended ts old -> removelast old = removelast ts ->
  Forall2 extended ts (Py.extend_last extra old)
  /\ removelast (Py.extend_last extra old) = removelast ts.
Proof.
  intros H. induction H as [|t o ts old Hto Hrest IH]; intros Hlast; [now split|].
  destruct old as [|o' old].
  - inversion Hrest; subst. simpl. split; [|reflexivity].
    constructor; [|constructor].
    eapply extended_trans; [exact Hto | apply extend_description_extended].
  - destruct ts as [|t' ts]; [inversion Hrest|].
    change (removelast (o :: o' :: old)) with (o :: removelast (o' :: old)) in Hlast.
    change (removelast (t :: t' :: ts)) with (t :: removelast (t' :: ts)) in Hlast.
    injection Hlast as Ho Hlast'. destruct (IH Hlast') as [IH1 IH2].
    change (Py.extend_last extra (o :: o' :: old))
      with (o :: Py.extend_last extra (o' :: old)).
    split; [constructor; [exact Hto | exact IH1]|].
    destruct (Py.extend_last extra (o' :: old)) as [|x xs] eqn:E.
    { apply (f_equal (@length _)) in E. rewrite extend_last_length in E. discriminate. }
    change (removelast (o :: x :: xs)) with (o :: removelast (x :: xs)).
    change (removelast (t :: t' :: ts)) with (t :: removelast (t' :: ts)).
    now rewrite IH2, Ho.
Qed.

Lemma kept_extend_last (extra : string) (ts out : list transaction) :
  kept ts out -> kept ts (Py.extend_last extra out).
Proof.
  intros (old & new & -> & Hold & Hlast).
  destruct new as [|n new].
  - rewrite app_nil_r. destruct (extend_last_last extra _ _ Hold Hlast) as [H1 H2].
    exists (Py.extend_last extra old), []. now rewrite app_nil_r.
  - exists old, (Py.extend_last extra (n :: new)).
    split; [now apply extend_last_app | now split].
Qed.

Lemma kept_length (ts out : list transaction) : kept ts out -> length ts <= length out.
Proof.
  intros (old & new & -> & Hold & _). rewrite length_app.
  apply Forall2_length in Hold. lia.
Qed.

Lemma kept_nonempty (ts out : list transaction) :
  kept ts out -> ts <> [] -> Py.is_nil out = false.
Proof.
  intros H Hne. apply kept_length in H. destruct out; [|reflexivity].
  destruct ts; [contradiction | simpl in H; lia].
Qed.

(** The table rows of [standard_bank]. *)
Lemma standard_row_kept (ts : list transaction)
    (st : StandardBank.columns * list transaction) (row : list (option string)) :
  kept ts (snd st) -> kept ts (snd (StandardBank.process_row st row)).
Proof.
  intros H. destruct st as [cols out]. unfold StandardBank.process_row.
  destruct (length row <? 3)%nat; [assumption|].
  destruct (StandardBank.is_header _); [assumption|].
  destruct (_ && _); [assumption|].
  destruct (Re.rmatch_start _ _) as [m|].
  - cbn [snd]. unfold StandardBank.dated_row.
    repeat match goal with
           | |- context [if ?b then _ else _] => destruct b
           end; try assumption; now apply kept_append.
  - destruct (StandardBank.cell _ _) as [c|]; [|assumption].
    destruct (_ && _); [|assumption]. cbn [snd]. now apply kept_extend_last.
Qed.

Lemma standard_table_kept (table : list (list (option string))) (ts out : list transaction) :
  kept ts out -> kept ts (StandardBank._process_table table out).
Proof.
  unfold StandardBank._process_table.
  generalize StandardBank.default_columns as cols.
  revert out. induction table as [|row table IH]; intros out cols H; [assumption|].
  cbn [fold_left]. destruct (StandardBank.process_row (cols, out) row) as [cols' out'] eqn:E.
  apply IH. change out' with (snd (cols', out')). rewrite <- E.
  now apply standard_row_kept.
Qed.

Lemma standard_page_kept (ts out : list transaction) (p : table_page) :
  kept ts out -> kept ts (StandardBank.page_step out p).
Proof.
  intros H. unfold StandardBank.page_step. destruct (page_tables p) as [|t tables].
  - destruct (standard_text_appends
                (default EmptyString (page_text p)) out) as (new & ->).
    now apply kept_app.
  - generalize (t :: tables) as l. intros l. revert out H.
    induction l as [|table l IH]; intros out H; [assumption|].
    simpl. apply IH. now apply standard_table_kept.
Qed.

(** The table rows of [yes_bank]. *)
Lemma yes_row_kept (ts : list transaction)
    (st : YesBank.columns * list transaction) (row : list (option string)) :
  kept ts (snd st) -> kept ts (snd (YesBank.process_row st row)).
Proof.
  intros H. destruct st as [cols out]. unfold YesBank.process_row.
  destruct (length row <? 4)%nat; [assumption|].
  destruct (YesBank.is_header _); [assumption|].
  destruct (Str.contains_any _ _); [assumption|].
  destruct (Re.rmatch_start _ _) as [m|]; cbn [snd].
  - unfold YesBank.dated_row. destruct (negb _); [now apply kept_append | assumption].
  - unfold YesBank.continuation_row.
    destruct (_ && _); [now apply kept_extend_last | assumption].
Qed.

Lemma yes_table_kept (table : list (list (option string))) (ts out : list transaction) :
  kept ts out -> kept ts (YesBank._process_yes_table table out).
Proof.
  unfold YesBank._process_yes_table.
  generalize YesBank.default_columns as cols.
  revert out. induction table as [|row table IH]; intros out cols H; [assumption|].
  cbn [fold_left]. destruct (YesBank.process_row (cols, out) row) as [cols' out'] eqn:E.
  apply IH. change out' with (snd (cols', out')). rewrite <- E.
  now apply yes_row_kept.
Qed.

Lemma yes_tables_kept (tables : list (list (list (option string))))
    (ts out : list transaction) :
  kept ts out ->
  kept ts (fold_left (fun ts table => YesBank._process_yes_table table ts) tables out).
Proof.
  revert out. induction tables as [|table tables IH]; intros out H; [assumption|].
  simpl. apply IH. now apply yes_table_kept.
Qed.

Lemma yes_page_kept (ts out : list transaction) (p : table_page) :
  kept ts out -> kept ts (YesBank.page_step out p).
Proof.
  intros H. unfold YesBank.page_step.
  pose proof (yes_tables_kept (page_tables p) ts out H) as Ht.
  destruct (Py.is_nil _); [|assumption].
  destruct (yes_text_appends (default EmptyString (page_text p))
              (fold_left (fun ts table => YesBank._process_yes_table table ts)
                 (page_tables p) out)) as (new & ->).
  now apply kept_app.
Qed.

Lemma pages_kept (page_step : list transaction -> table_page -> list transaction)
    (pages : list table_page) :
  (forall ts out p, kept ts out -> kept ts (page_step out p)) ->
  forall ts out, kept ts out -> kept ts (fold_left page_step pages out).
Proof.
  intros Hstep. induction pages as [|p pages IH]; intros ts out H; [assumption|].
  simpl. apply IH. now apply Hstep.
Qed.

End GrowthFacts.

(** X17.  Reading more pages of a [standard_bank] statement never removes,
    moves or rewrites a record already found: the records of the pages
    read so far stay in their places, all but the last exactly as they
    were, and the last with, at most, text added at the end of its
    description by continuation rows. *)
Theorem standard_statement_grows (pages more : list table_page) :
  Growth.kept (StandardBank.parse_standard_bank pages)
    (StandardBank.parse_standard_bank (pages ++ more)).
Proof.
  unfold StandardBank.parse_standard_bank. rewrite fold_left_app.
  apply pages_kept; [apply standard_page_kept | apply kept_refl].
Qed.

(** X18.  The same of [yes_bank], tables and text fallback together. *)
Theorem yes_statement_grows (pages more : list table_page) :
  Growth.kept (YesBank.parse_yes_bank pages) (YesBank.parse_yes_bank (pages ++ more)).
Proof.
  unfold YesBank.parse_yes_bank. rewrite fold_left_app.
  apply pages_kept; [apply yes_page_kept | apply kept_refl].
Qed.

(** X19.  In [yes_bank] the text of a page is a fallback for as long as no
    record has been found: once the list holds a record, page texts are
    not read any more, and two runs of pages with the same tables give
    the same result. *)
Theorem yes_text_only_while_empty (pages pages' : list table_page)
    (ts : list transaction) :
  ts <> [] ->
  map page_tables pages = map page_tables pages' ->
  fold_left YesBank.page_step pages ts = fold_left YesBank.page_step pages' ts.
Proof.
  intros Hne. revert pages' ts Hne.
  induction pages as [|p pages IH]; intros [|p' pages'] ts Hne Htables;
    try discriminate; [reflexivity|].
  simpl in Htables. inversion Htables as [[Hp Hrest]]. simpl.
  assert (forall q, page_tables q = page_tables p' ->
                    YesBank.page_step ts q
                    = fold_left (fun ts table => YesBank._process_yes_table table ts)
                        (page_tables p') ts) as Hstep.
  { intros q Hq. unfold YesBank.page_step. rewrite Hq.
    now rewrite (kept_nonempty ts _ (yes_tables_kept (page_tables p') ts ts (kept_refl ts))
                   Hne). }
  rewrite (Hstep p Hp), (Hstep p' eq_refl).
  apply IH; [|assumption].
  intros Hnil.
  pose proof (kept_nonempty ts _ (yes_tables_kept (page_tables p') ts ts (kept_refl ts))
                Hne) as Hk.
  now rewrite Hnil in Hk.
Qed.

Definition page_with_text : table_page :=
  TablePage [] (Some "01/04/2024 NEFT ACME 100.00 200.00 300.00").

Definition page_without_text : table_page := TablePage [] None.

Lemma yes_text_only_while_empty_witness :
  fold_left YesBank.page_step [page_with_text] [Py.record "d" "x" PNone PNone PNone "l"]
  = fold_left YesBank.page_step [page_without_text]
      [Py.record "d" "x" PNone PNone PNone "l"].
Proof.
  apply yes_text_only_while_empty; [discriminate | reflexivity].
Defined.

Module Case.


End Case.

Section CaseFacts.





End CaseFacts.


(** ** What a match says about the text *)

Module Path.
Import Re.

(** [path r st st']: one way for the matcher to go through [r], from the
    state [st] to the state [st']. *)
Inductive path : regex -> mstate -> mstate -> Prop :=
| path_eps (st : mstate) : path Eps st st
| path_chr (p : ascii -> bool) (st : mstate) (c : ascii) (s' : string) :
    rest st = String c s' -> p c = true ->
    path (Chr p) st (MState s' (Some c) (S (pos st)) (caps st))
| path_seq (a b : regex) (st st1 st2 : mstate) :
    path a st st1 -> path b st1 st2 -> path (Seq a b) st st2
| path_alt_l (a b : regex) (st st' : mstate) : path a st st' -> path (Alt a b) st st'
| path_alt_r (a b : regex) (st st' : mstate) : path b st st' -> path (Alt a b) st st'
| path_star_nil (a : regex) (st : mstate) : path (Star a) st st
| path_star_cons (a : regex) (st st1 st2 : mstate) :
    path a st st1 -> path (Star a) st1 st2 -> path (Star a) st st2
| path_bol (st : mstate) : pos st = 0 -> path Bol st st
| path_eol (st : mstate) : at_end st = true -> path Eol st st
| path_wordb (st : mstate) :
    xorb (word_before st) (word_after st) = true -> path WordB st st
| path_group (n : nat) (a : regex) (st st1 : mstate) :
    path a st st1 ->
    path (Group n a) st
      (MState (rest st1) (prev st1) (pos st1) ((n, (pos st, pos st1)) :: caps st1)).

(** From [st] to [st'] the text [u] was read and no group was closed. *)
Definition reads (st st' : mstate) (u : string) : Prop :=
  rest st = u +:+ rest st' /\
  pos st' = pos st + String.length u /\
  caps st' = caps st.

(** Every character of the text satisfies [p]. *)
Fixpoint all_chars (p : ascii -> bool) (s : string) : bool :=
  match s with
  | EmptyString => true
  | String c s' => p c && all_chars p s'
  end.

(** An amount as the patterns of the parsers cut it: digits and commas, at
    least one, a dot, two digits. *)
Definition amount_text (u : string) : Prop :=
  exists (w : string) (d1 d2 : ascii),
    u = w +:+ String "." (String d1 (String d2 EmptyString)) /\
    w <> EmptyString /\
    all_chars (fun c => Str.is_digit c || Ascii.eqb c ",") w = true /\
    Str.is_digit d1 = true /\ Str.is_digit d2 = true.

End Path.

Section PathFacts.
Import Re Path.

(** The matcher only succeeds along a path. *)
Lemma run_path {A : Type} (fuel : nat) :
  forall (r : regex) (st : mstate) (k : mstate -> option A) (x : A),
    run fuel r st k = Some x -> exists st', path r st st' /\ k st' = Some x.
Proof.
  induction fuel as [|fuel IHfuel];
    induction r as [|p|r1 IH1 r2 IH2|r1 IH1 r2 IH2|r1 IH1| | | |n r1 IH1];
    intros st k x H; cbn [run] in H.
  - exists st. split; [constructor | assumption].
  - destruct (rest st) as [|c s'] eqn:E; [discriminate|].
    destruct (p c) eqn:Ep; [|discriminate].
    eexists. split; [now apply (path_chr p st c s') | assumption].
  - destruct (IH1 _ _ _ H) as (st1 & H1 & Hk1).
    destruct (IH2 _ _ _ Hk1) as (st2 & H2 & Hk2).
    exists st2. split; [now apply (path_seq _ _ _ st1) | assumption].
  - match type of H with
    | match ?y with _ => _ end = _ => destruct y eqn:E
    end.
    + inversion H; subst. destruct (IH1 _ _ _ E) as (st' & H1 & Hk).
      exists st'. split; [now apply path_alt_l | assumption].
    + destruct (IH2 _ _ _ H) as (st' & H2 & Hk).
      exists st'. split; [now apply path_alt_r | assumption].
  - exists st. split; [constructor | assumption].
  - destruct (pos st =? 0)%nat eqn:E; [|discriminate].
    exists st. split; [constructor; now apply Nat.eqb_eq | assumption].
  - destruct (at_end st) eqn:E; [|discriminate].
    exists st. split; [now constructor | assumption].
  - destruct (xorb _ _) eqn:E; [|discriminate].
    exists st. split; [now constructor | assumption].
  - destruct (IH1 _ _ _ H) as (st1 & H1 & Hk).
    eexists. split; [apply path_group; exact H1 | assumption].
  - exists st. split; [constructor | assumption].
  - destruct (rest st) as [|c s'] eqn:E; [discriminate|].
    destruct (p c) eqn:Ep; [|discriminate].
    eexists. split; [now apply (path_chr p st c s') | assumption].
  - destruct (IH1 _ _ _ H) as (st1 & H1 & Hk1).
    destruct (IH2 _ _ _ Hk1) as (st2 & H2 & Hk2).
    exists st2. split; [now apply (path_seq _ _ _ st1) | assumption].
  - match type of H with
    | match ?y with _ => _ end = _ => destruct y eqn:E
    end.
    + inversion H; subst. destruct (IH1 _ _ _ E) as (st' & H1 & Hk).
      exists st'. split; [now apply path_alt_l | assumption].
    + destruct (IH2 _ _ _ H) as (st' & H2 & Hk).
      exists st'. split; [now apply path_alt_r | assumption].
  - match type of H with
    | match ?y with _ => _ end = _ => destruct y eqn:E
    end.
    + inversion H; subst. 
      change (run (S fuel) r1 st
                (fun st' => if (pos st' =? pos st)%nat then None
                            else run fuel (Star r1) st' k) = Some x) in E.
      destruct (IH1 _ _ _ E) as (st1 & H1 & Hk1).
      destruct (pos st1 =? pos st)%nat; [discriminate|].
      destruct (IHfuel _ _ _ _ Hk1) as (st2 & H2 & Hk2).
      exists st2. split; [now apply (path_star_cons _ _ st1) | assumption].
    + exists st. split; [constructor | assumption].
  - destruct (pos st =? 0)%nat eqn:E; [|discriminate].
    exists st. split; [constructor; now apply Nat.eqb_eq | assumption].
  - destruct (at_end st) eqn:E; [|discriminate].
    exists st. split; [now constructor | assumption].
  - destruct (xorb _ _) eqn:E; [|discriminate].
    exists st. split; [now constructor | assumption].
  - destruct (IH1 _ _ _ H) as (st1 & H1 & Hk).
    eexists. split; [apply path_group; exact H1 | assumption].
Qed.

End PathFacts.

Module Groups.
Import Re.

(** The pattern closes no group. *)
Fixpoint group_free (r : regex) : bool :=
  match r with
  | Seq a b | Alt a b => group_free a && group_free b
  | Star a => group_free a
  | Group _ _ => false
  | _ => true
  end.

(** The pattern is an amount in group 1, after a part that closes no
    group. *)
Fixpoint ends_with_amount (r : regex) : Prop :=
  match r with
  | Group n a => n = 1 /\ a = Pat.amount
  | Seq a b => group_free a = true /\ ends_with_amount b
  | _ => False
  end.

End Groups.

Section TextFacts.

Lemma append_cons (c : ascii) (a b : string) : String c a +:+ b = String c (a +:+ b).
Proof. reflexivity. Qed.

Lemma append_nil_l (a : string) : EmptyString +:+ a = a.
Proof. reflexivity. Qed.

Lemma append_nil_r (a : string) : a +:+ EmptyString = a.
Proof. induction a as [|c a IH]; [reflexivity|]. now rewrite append_cons, IH. Qed.

Lemma length_append (a b : string) :
  String.length (a +:+ b) = String.length a + String.length b.
Proof. induction a as [|c a IH]; [reflexivity|]. rewrite append_cons. simpl. now rewrite IH. Qed.

Lemma take_append (u r : string) : Str.take (String.length u) (u +:+ r) = u.
Proof. induction u as [|c u IH]; [now destruct r|]. rewrite append_cons. simpl. now rewrite IH. Qed.

Lemma drop_append (u r : string) : Str.drop (String.length u) (u +:+ r) = r.
Proof. induction u as [|c u IH]; [reflexivity|]. rewrite append_cons. simpl. exact IH. Qed.

Lemma drop_add (i j : nat) (s : string) : Str.drop (i + j) s = Str.drop j (Str.drop i s).
Proof.
  revert s. induction i as [|i IH]; intros s; [reflexivity|].
  destruct s as [|c s]; simpl; [now destruct j | apply IH].
Qed.

Lemma drop_next (c : ascii) (s' orig : string) (i : nat) :
  String c s' = Str.drop i orig -> s' = Str.drop (S i) orig.
Proof.
  intros H. replace (S i) with (i + 1) by lia. rewrite drop_add, <- H. reflexivity.
Qed.

(** The text between two places of [orig], when what was read from the
    first is known. *)
Lemma slice_read (orig u r : string) (i : nat) :
  Str.drop i orig = u +:+ r -> Str.slice i (i + String.length u) orig = u.
Proof.
  intros H. unfold Str.slice. replace (i + String.length u - i) with (String.length u) by lia.
  rewrite H. apply take_append.
Qed.

End TextFacts.

Section ReadFacts.
Import Re Path Groups.

Lemma reads_refl (st : mstate) : reads st st EmptyString.
Proof. repeat split. simpl. lia. Qed.

Lemma reads_trans (st st1 st2 : mstate) (u v : string) :
  reads st st1 u -> reads st1 st2 v -> reads st st2 (u +:+ v).
Proof.
  intros (Hr1 & Hp1 & Hc1) (Hr2 & Hp2 & Hc2). repeat split.
  - now rewrite Hr1, Hr2, append_assoc3.
  - rewrite Hp2, Hp1, length_append. lia.
  - now rewrite Hc2.
Qed.

Lemma path_chr_reads (p : ascii -> bool) (st st' : mstate) :
  path (Chr p) st st' -> exists c, p c = true /\ reads st st' (String c EmptyString).
Proof.
  intros H. inversion H as [|? ? c s' Hrest Hp| | | | | | | | |]; subst.
  exists c. split; [assumption|]. repeat split; simpl; [assumption | lia].
Qed.

Lemma path_star_chr_reads (p : ascii -> bool) (st st' : mstate) :
  path (Star (Chr p)) st st' -> exists w, all_chars p w = true /\ reads st st' w.
Proof.
  intros H. remember (Star (Chr p)) as r eqn:Er.
  induction H as [| | | | | |a st st1 st2 H1 _ H2 IH2| | | |]; inversion Er; subst.
  - exists EmptyString. split; [reflexivity | apply reads_refl].
  - destruct (path_chr_reads _ _ _ H1) as (c & Hc & Hr1).
    destruct (IH2 eq_refl) as (w & Hw & Hr2).
    exists (String c w). split; [simpl; now rewrite Hc, Hw|].
    apply (reads_trans _ _ _ (String c EmptyString) w Hr1 Hr2).
Qed.

(** A pattern that closes no group reads some text and leaves the groups
    as they were. *)
Lemma path_reads (r : regex) (st st' : mstate) :
  path r st st' -> group_free r = true -> exists u, reads st st' u.
Proof.
  induction 1 as [st|p st c s' Hrest Hp|a b st st1 st2 _ IH1 _ IH2|a b st st' _ IH
                 |a b st st' _ IH|a st|a st st1 st2 _ IH1 _ IH2|st|st|st|n a st st1 _ IH];
    simpl; intros Hfree.
  - exists EmptyString. apply reads_refl.
  - exists (String c EmptyString). repeat split; simpl; [assumption | lia].
  - apply andb_prop in Hfree as [Ha Hb].
    destruct (IH1 Ha) as (u & Hu). destruct (IH2 Hb) as (v & Hv).
    exists (u +:+ v). now apply (reads_trans _ st1).
  - apply andb_prop in Hfree as [Ha _]. now apply IH.
  - apply andb_prop in Hfree as [_ Hb]. now apply IH.
  - exists EmptyString. apply reads_refl.
  - destruct (IH1 Hfree) as (u & Hu). destruct (IH2 Hfree) as (v & Hv).
    exists (u +:+ v). now apply (reads_trans _ st1).
  - exists EmptyString. apply reads_refl.
  - exists EmptyString. apply reads_refl.
  - exists EmptyString. apply reads_refl.
  - discriminate.
Qed.

(** What the amount pattern reads is an amount text. *)
Lemma amount_path (st st' : mstate) :
  path Pat.amount st st' -> exists u, amount_text u /\ reads st st' u.
Proof.
  intros H. cbv [Pat.amount Seqs Plus Rep char digit] in H.
  inversion H as [| |? ? ? st1 ? Hhead Htail| | | | | | | |]; subst. clear H.
  inversion Hhead as [| |? ? ? st0 ? Hfirst Hmore| | | | | | | |]; subst. clear Hhead.
  inversion Htail as [| |? ? ? st2 ? Hdot Hdigits| | | | | | | |]; subst. clear Htail.
  inversion Hdigits as [| |? ? ? st3 ? Hd1 Hrest| | | | | | | |]; subst. clear Hdigits.
  inversion Hrest as [| |? ? ? st4 ? Hd2 Heps| | | | | | | |]; subst. clear Hrest.
  inversion Heps; subst. clear Heps.
  destruct (path_chr_reads _ _ _ Hfirst) as (c & Hc & R0).
  destruct (path_star_chr_reads _ _ _ Hmore) as (w & Hw & R1).
  destruct (path_chr_reads _ _ _ Hdot) as (dot & Hdotc & R2).
  destruct (path_chr_reads _ _ _ Hd1) as (d1 & Hd1c & R3).
  destruct (path_chr_reads _ _ _ Hd2) as (d2 & Hd2c & R4).
  apply Ascii.eqb_eq in Hdotc. subst dot.
  exists (String c w +:+ String "." (String d1 (String d2 EmptyString))). split.
  - exists (String c w), d1, d2. repeat split; try assumption; [discriminate|].
    simpl. now rewrite Hc, Hw.
  - pose proof (reads_trans _ _ _ _ _ R0 R1) as R01.
    pose proof (reads_trans _ _ _ _ _ R3 R4) as R34.
    pose proof (reads_trans _ _ _ _ _ R2 R34) as R234.
    exact (reads_trans _ _ _ _ _ R01 R234).
Qed.

(** The groups of a match of a pattern that ends with the amount group:
    one group, and its text is an amount text. *)
Lemma amount_group_path (r : regex) (orig : string) :
  forall st st',
    path r st st' -> ends_with_amount r ->
    rest st = Str.drop (pos st) orig ->
    exists u, amount_text u /\
              caps st' = (1, (pos st' - String.length u, pos st')) :: caps st /\
              Str.slice (pos st' - String.length u) (pos st') orig = u.
Proof.
  induction r as [|p|a _ b IHb|a _ b _|a _| | | |n a _]; intros st st' H Hends Horig;
    try contradiction.
  - destruct Hends as [Hfree Hends].
    inversion H as [| |? ? ? st1 ? Ha Hb| | | | | | | |]; subst.
    destruct (path_reads _ _ _ Ha Hfree) as (u0 & Hr0 & Hp0 & Hc0).
    assert (rest st1 = Str.drop (pos st1) orig) as Horig1.
    { rewrite Hp0, drop_add, <- Horig, Hr0. now rewrite drop_append. }
    destruct (IHb _ _ Hb Hends Horig1) as (u & Hu & Hcaps & Hslice).
    exists u. split; [assumption|]. split; [now rewrite Hcaps, Hc0 | assumption].
  - destruct Hends as [-> ->].
    inversion H as [| | | | | | | | | |? ? ? st1 Ha]; subst.
    destruct (amount_path _ _ Ha) as (u & Hu & Hr & Hp & Hc).
    exists u. split; [assumption|]. simpl.
    replace (pos st1 - String.length u) with (pos st) by lia.
    split; [now rewrite Hc|].
    rewrite Hp. apply (slice_read orig u (rest st1)). now rewrite <- Horig.
Qed.

End ReadFacts.

Section MatchFacts.
Import Re Path Groups.

Lemma match_here_path (advance : bool) (r : regex) (s : string) (before : option ascii)
    (at_pos : nat) (m : rmatch) :
  match_here advance r s before at_pos = Some m ->
  exists st', path r (MState s before at_pos []) st' /\
              m = RMatch at_pos (pos st') (caps st').
Proof.
  unfold match_here. intros H. destruct (run_path _ _ _ _ _ H) as (st' & Hpath & Hk).
  exists st'. split; [assumption|].
  destruct (advance && (pos st' =? at_pos)%nat); [discriminate | now inversion Hk].
Qed.

(** Every match [finditer] lists was found at some place of the text. *)
Lemma finditer_from_found (r : regex) (orig : string) (m : rmatch) :
  forall (s : string) (skip : nat) (before : option ascii) (at_pos : nat),
    s = Str.drop at_pos orig ->
    In m (finditer_from r skip s before at_pos) ->
    exists advance s1 before1 at1,
      s1 = Str.drop at1 orig /\ match_here advance r s1 before1 at1 = Some m.
Proof.
  assert (forall s before at_pos,
             s = Str.drop at_pos orig -> In m (matches_here r s before at_pos) ->
             exists advance s1 before1 at1,
               s1 = Str.drop at1 orig /\ match_here advance r s1 before1 at1 = Some m)
    as Hhere.
  { intros s before at_pos Hs. unfold matches_here.
    destruct (match_here false r s before at_pos) as [m0|] eqn:E0; [|intros []].
    destruct (m_end m0 =? at_pos)%nat.
    - destruct (match_here true r s before at_pos) as [m1|] eqn:E1.
      + intros [<- | [<- | []]]; [now exists false, s, before, at_pos
                                 | now exists true, s, before, at_pos].
      + intros [<- | []]. now exists false, s, before, at_pos.
    - intros [<- | []]. now exists false, s, before, at_pos. }
  induction s as [|c s' IH]; intros skip before at_pos Hs Hin.
  - destruct skip; simpl in Hin; [|contradiction].
    rewrite app_nil_r in Hin. exact (Hhere _ _ _ Hs Hin).
  - destruct skip; cbn [finditer_from] in Hin.
    + apply in_app_or in Hin as [Hin | Hin]; [exact (Hhere _ _ _ Hs Hin)|].
      apply (IH _ _ _ (drop_next _ _ _ _ Hs) Hin).
    + apply (IH _ _ _ (drop_next _ _ _ _ Hs) Hin).
Qed.

(** The first group of a match of a pattern that ends with the amount
    group is an amount text. *)
Lemma finditer_amount (r : regex) (s : string) (m : rmatch) :
  ends_with_amount r -> In m (finditer r s) ->
  amount_text (group_or_empty s m 1).
Proof.
  intros Hends Hin.
  destruct (finditer_from_found r s m s 0 None 0 eq_refl Hin)
    as (advance & s1 & before1 & at1 & Hs1 & Hm).
  destruct (match_here_path _ _ _ _ _ _ Hm) as (st' & Hpath & ->).
  destruct (amount_group_path r s _ _ Hpath Hends Hs1) as (u & Hu & Hcaps & Hslice).
  unfold group_or_empty, group. cbn [m_caps]. rewrite Hcaps. simpl.
  now rewrite Hslice.
Qed.

Lemma findall1_amount (r : regex) (s a : string) :
  ends_with_amount r -> In a (findall1 r s) -> amount_text a.
Proof.
  intros Hends Hin. unfold findall1 in Hin. apply in_map_iff in Hin as (m & <- & Hm).
  exact (finditer_amount r s m Hends Hm).
Qed.

End MatchFacts.

Section NumberTexts.
Import Path.

(** A character of a plain decimal number: a digit or the dot. *)
Definition numeric_char (c : ascii) : bool := Str.is_digit c || Ascii.eqb c ".".

Lemma numeric_char_plain (c : ascii) :
  numeric_char c = true ->
  Str.is_space c = false /\
  (Str.code c =? 95)%N = false /\
  (forall s, PyFloat.split_sign (String c s) = (false, String c s)) /\
  Ascii.eqb (Str.lower_char c) "i" = false /\
  Ascii.eqb (Str.lower_char c) "n" = false.
Proof.
  destruct c as [[] [] [] [] [] [] [] []]; intros H; try discriminate H;
    repeat split; reflexivity.
Qed.

Lemma digit_numeric (c : ascii) : Str.is_digit c = true -> numeric_char c = true.
Proof. unfold numeric_char. now intros ->. Qed.

Lemma all_numeric_app (a b : string) :
  all_chars numeric_char (a +:+ b) = all_chars numeric_char a && all_chars numeric_char b.
Proof.
  induction a as [|c a IH]; [reflexivity|].
  rewrite append_cons. simpl. now rewrite IH, andb_assoc.
Qed.

Lemma all_digits_numeric (s : string) :
  PyFloat.all_digits s = true -> all_chars numeric_char s = true.
Proof.
  induction s as [|c s IH]; [reflexivity|]. simpl.
  intros [Hc Hs]%andb_prop. now rewrite (digit_numeric _ Hc), IH.
Qed.

(** A character that is neither a blank nor an underscore. *)
Definition plain_char (c : ascii) : bool :=
  negb (Str.is_space c) && negb (Str.code c =? 95)%N.

Lemma numeric_plain (c : ascii) : numeric_char c = true -> plain_char c = true.
Proof.
  intros H. destruct (numeric_char_plain c H) as (Hs & Hu & _).
  unfold plain_char. now rewrite Hs, Hu.
Qed.

Lemma all_numeric_plain (s : string) :
  all_chars numeric_char s = true -> all_chars plain_char s = true.
Proof.
  induction s as [|c s IH]; [reflexivity|]. simpl.
  intros [Hc Hs]%andb_prop. now rewrite (numeric_plain _ Hc), IH.
Qed.

(** [strip] leaves a text without blanks as it is, and takes a final
    newline from it. *)
Lemma rstrip_plain (s : string) : all_chars plain_char s = true -> Str.rstrip s = s.
Proof.
  induction s as [|c s IH]; [reflexivity|]. simpl.
  intros [Hc Hs]%andb_prop. rewrite (IH Hs).
  apply andb_prop in Hc as [Hc _]. apply negb_true_iff in Hc.
  now rewrite Hc, andb_false_r.
Qed.

Lemma lstrip_plain (s : string) : all_chars plain_char s = true -> Str.lstrip s = s.
Proof.
  destruct s as [|c s]; [reflexivity|]. simpl.
  intros [[Hc _]%andb_prop _]%andb_prop. apply negb_true_iff in Hc. now rewrite Hc.
Qed.

Lemma strip_plain (s : string) : all_chars plain_char s = true -> Str.strip s = s.
Proof. intros H. unfold Str.strip. now rewrite (lstrip_plain _ H), rstrip_plain. Qed.

Lemma rstrip_plain_newline (s : string) :
  all_chars plain_char s = true ->
  Str.rstrip (s +:+ String Str.newline EmptyString) = s.
Proof.
  induction s as [|c s IH]; [reflexivity|]. rewrite append_cons. simpl.
  intros [Hc Hs]%andb_prop. rewrite (IH Hs).
  apply andb_prop in Hc as [Hc _]. apply negb_true_iff in Hc.
  now rewrite Hc, andb_false_r.
Qed.

Lemma strip_plain_newline (s : string) :
  all_chars plain_char s = true ->
  Str.strip (s +:+ String Str.newline EmptyString) = s.
Proof.
  intros H. unfold Str.strip. destruct s as [|c s]; [reflexivity|].
  assert (Str.lstrip (String c s +:+ String Str.newline EmptyString)
          = String c s +:+ String Str.newline EmptyString) as ->.
  { rewrite append_cons. simpl in *.
    apply andb_prop in H as [[Hc _]%andb_prop _]. apply negb_true_iff in Hc.
    now rewrite Hc. }
  now apply rstrip_plain_newline.
Qed.

Lemma drop_underscores_plain (s : string) :
  all_chars plain_char s = true ->
  forall prev, PyFloat.drop_underscores prev s = Some s.
Proof.
  induction s as [|c s IH]; [reflexivity|]. simpl.
  intros [Hc Hs]%andb_prop prev.
  apply andb_prop in Hc as [_ Hc]. apply negb_true_iff in Hc.
  now rewrite Hc, (IH Hs).
Qed.

Lemma span_digits_digit (c : ascii) (s : string) :
  Str.is_digit c = true ->
  PyFloat.span_digits (String c s)
  = (String c (fst (PyFloat.span_digits s)), snd (PyFloat.span_digits s)).
Proof. intros H. simpl. rewrite H. now destruct (PyFloat.span_digits s). Qed.

Lemma span_digits_app (ds : string) (c : ascii) (tail : string) :
  PyFloat.all_digits ds = true -> Str.is_digit c = false ->
  PyFloat.span_digits (ds +:+ String c tail) = (ds, String c tail).
Proof.
  intros Hds Hc. induction ds as [|d ds IH].
  - simpl. now rewrite Hc.
  - simpl in Hds. apply andb_prop in Hds as [Hd Hds].
    rewrite append_cons, (span_digits_digit _ _ Hd), (IH Hds). reflexivity.
Qed.

(** A plain decimal with two decimals reads as a number. *)
Lemma plain_decimal_reads (neg : bool) (ds : string) (d1 d2 : ascii) :
  PyFloat.all_digits ds = true -> Str.is_digit d1 = true -> Str.is_digit d2 = true ->
  exists x,
    PyFloat.parse_number neg (ds +:+ String "." (String d1 (String d2 EmptyString)))
    = Some x.
Proof.
  intros Hds H1 H2. unfold PyFloat.parse_number.
  rewrite (span_digits_app ds "." _ Hds eq_refl).
  cbv iota beta.
  rewrite (span_digits_digit d1 _ H1), (span_digits_digit d2 _ H2).
  cbn [PyFloat.span_digits fst snd Str.is_empty PyFloat.parse_exponent].
  rewrite andb_false_r. eauto.
Qed.

Lemma decimal_text_reads (ds : string) (d1 d2 : ascii) :
  PyFloat.all_digits ds = true -> Str.is_digit d1 = true -> Str.is_digit d2 = true ->
  exists x,
    PyFloat.of_string (ds +:+ String "." (String d1 (String d2 EmptyString))) = Some x.
Proof.
  intros Hds H1 H2.
  set (t := ds +:+ String "." (String d1 (String d2 EmptyString))).
  assert (all_chars numeric_char t = true) as Hall.
  { unfold t. rewrite all_numeric_app, (all_digits_numeric _ Hds). simpl.
    now rewrite (digit_numeric _ H1), (digit_numeric _ H2). }
  unfold PyFloat.of_string.
  rewrite (strip_plain _ (all_numeric_plain _ Hall)),
    (drop_underscores_plain _ (all_numeric_plain _ Hall)).
  assert (exists c t', t = String c t' /\ numeric_char c = true) as (c & t' & Ht & Hc).
  { unfold t. destruct ds as [|d ds];
      [now exists "."%char, (String d1 (String d2 EmptyString))|].
    exists d, (ds +:+ String "." (String d1 (String d2 EmptyString))).
    split; [reflexivity|]. simpl in Hds. apply andb_prop in Hds as [Hd _].
    now apply digit_numeric. }
  destruct (numeric_char_plain c Hc) as (_ & _ & Hsign & Hi & Hn).
  rewrite Ht, Hsign. 
  change (Str.lower (String c t')) with (String (Str.lower_char c) (Str.lower t')).
  cbn [String.eqb]. rewrite Hi, Hn. cbn [andb orb]. rewrite <- Ht.
  now apply plain_decimal_reads.
Qed.

(** The commas of an amount text. *)
Lemma replace_comma_app (a b : string) :
  Str.replace "," EmptyString (a +:+ b)
  = Str.replace "," EmptyString a +:+ Str.replace "," EmptyString b.
Proof.
  induction a as [|c a IH]; [reflexivity|].
  rewrite append_cons, !replace_comma_cons, IH. now destruct (Ascii.eqb "," c).
Qed.

Lemma replace_comma_digits (w : string) :
  all_chars (fun c => Str.is_digit c || Ascii.eqb c ",") w = true ->
  PyFloat.all_digits (Str.replace "," EmptyString w) = true.
Proof.
  induction w as [|c w IH]; [reflexivity|]. simpl all_chars.
  intros [Hc Hw]%andb_prop. rewrite replace_comma_cons.
  destruct (Ascii.eqb "," c) eqn:E; [now apply IH|].
  simpl. rewrite (IH Hw), andb_true_r.
  apply orb_prop in Hc as [Hc | Hc]; [assumption|].
  rewrite Ascii.eqb_sym in Hc. congruence.
Qed.

Lemma digit_not_comma (c : ascii) : Str.is_digit c = true -> Ascii.eqb "," c = false.
Proof. destruct c as [[] [] [] [] [] [] [] []]; intros H; try discriminate H; reflexivity. Qed.

(** An amount text, its commas removed, reads as a number. *)
Lemma amount_text_reads (u : string) :
  amount_text u -> exists x, PyFloat.of_string (Str.replace "," EmptyString u) = Some x.
Proof.
  intros (w & d1 & d2 & -> & _ & Hw & H1 & H2).
  rewrite replace_comma_app, !replace_comma_cons.
  rewrite (digit_not_comma _ H1), (digit_not_comma _ H2).
  cbn [Ascii.eqb Bool.eqb]. cbv iota.
  change (Str.replace "," EmptyString EmptyString) with EmptyString.
  apply decimal_text_reads; [now apply replace_comma_digits | assumption | assumption].
Qed.

End NumberTexts.

Section SignedNumbers.
Import Re Path.

Lemma all_plain_app (a b : string) :
  all_chars plain_char (a +:+ b) = all_chars plain_char a && all_chars plain_char b.
Proof.
  induction a as [|c a IH]; [reflexivity|].
  rewrite append_cons. simpl. now rewrite IH, andb_assoc.
Qed.

Lemma all_digits_chars (s : string) : all_chars Str.is_digit s = PyFloat.all_digits s.
Proof. induction s as [|c s IH]; [reflexivity|]. simpl. now rewrite IH. Qed.

(** A decimal with two decimals, with or without a minus sign before it
    and a newline after it, reads as a number. *)
Lemma signed_decimal_reads (neg nl : bool) (ds : string) (d1 d2 : ascii) :
  PyFloat.all_digits ds = true ->
  Str.is_digit d1 = true -> Str.is_digit d2 = true ->
  exists x,
    PyFloat.of_string
      ((if neg then "-" else EmptyString)
       +:+ (ds +:+ String "." (String d1 (String d2 EmptyString)))
       +:+ (if nl then String Str.newline EmptyString else EmptyString))
    = Some x.
Proof.
  intros Hds H1 H2.
  set (t := ds +:+ String "." (String d1 (String d2 EmptyString))).
  assert (all_chars numeric_char t = true) as Hall.
  { unfold t. rewrite all_numeric_app, (all_digits_numeric _ Hds). simpl.
    now rewrite (digit_numeric _ H1), (digit_numeric _ H2). }
  set (body := (if neg then "-" else EmptyString) +:+ t).
  assert (all_chars plain_char body = true) as Hplain.
  { unfold body. rewrite all_plain_app, (all_numeric_plain _ Hall).
    now destruct neg. }
  assert (Str.strip (body +:+ (if nl then String Str.newline EmptyString
                                else EmptyString)) = body) as Hstrip.
  { destruct nl; [now apply strip_plain_newline|].
    rewrite append_nil_r. now apply strip_plain. }
  unfold PyFloat.of_string.
  replace ((if neg then "-" else EmptyString) +:+ t
           +:+ (if nl then String Str.newline EmptyString else EmptyString))
    with (body +:+ (if nl then String Str.newline EmptyString else EmptyString))
    by (unfold body; now rewrite append_assoc3).
  rewrite Hstrip, (drop_underscores_plain _ Hplain).
  assert (exists c t', t = String c t' /\ numeric_char c = true) as (c & t' & Ht & Hc).
  { unfold t. destruct ds as [|d ds];
      [now exists "."%char, (String d1 (String d2 EmptyString))|].
    exists d, (ds +:+ String "." (String d1 (String d2 EmptyString))).
    split; [reflexivity|]. simpl in Hds. apply andb_prop in Hds as [Hd _].
    now apply digit_numeric. }
  destruct (numeric_char_plain c Hc) as (_ & _ & Hsign & Hi & Hn).
  assert (PyFloat.split_sign body = (neg, t)) as ->.
  { unfold body. destruct neg; [reflexivity|]. rewrite append_nil_l, Ht. apply Hsign. }
  rewrite Ht.
  change (Str.lower (String c t')) with (String (Str.lower_char c) (Str.lower t')).
  cbn [String.eqb]. rewrite Hi, Hn. cbn [andb orb]. rewrite <- Ht.
  now apply plain_decimal_reads.
Qed.

Lemma at_end_rest (st : mstate) :
  at_end st = true ->
  exists nl : bool,
    rest st = if nl then String Str.newline EmptyString else EmptyString.
Proof.
  unfold at_end. destruct (rest st) as [|c [|c' s]]; intros H; try discriminate.
  - now exists false.
  - apply Ascii.eqb_eq in H. subst c. now exists true.
Qed.

(** What [^-?\d+\.\d{2}$] accepts. *)
Lemma hdfc_amount_shape (clean : string) :
  Re.matches HdfcBank.amount_re clean = true ->
  exists (neg nl : bool) (ds : string) (d1 d2 : ascii),
    clean = (if neg then "-" else EmptyString)
            +:+ (ds +:+ String "." (String d1 (String d2 EmptyString)))
            +:+ (if nl then String Str.newline EmptyString else EmptyString) /\
    ds <> EmptyString /\ PyFloat.all_digits ds = true /\
    Str.is_digit d1 = true /\ Str.is_digit d2 = true.
Proof.
  intros H. apply matches_true in H as (m & H). unfold rmatch_start in H.
  destruct (match_here_path _ _ _ _ _ _ H) as (st' & Hpath & _). clear H m.
  cbv [HdfcBank.amount_re Seqs Opt Plus Rep char digit] in Hpath.
  inversion Hpath as [| |? ? ? st1 ? Hbol H1| | | | | | | |]; subst. clear Hpath.
  inversion Hbol; subst. clear Hbol.
  inversion H1 as [| |? ? ? st2 ? Hsign H2| | | | | | | |]; subst. clear H1.
  inversion H2 as [| |? ? ? st3 ? Hdigits H3| | | | | | | |]; subst. clear H2.
  inversion Hdigits as [| |? ? ? st2' ? Hfirst Hmore| | | | | | | |]; subst. clear Hdigits.
  inversion H3 as [| |? ? ? st4 ? Hdot H4| | | | | | | |]; subst. clear H3.
  inversion H4 as [| |? ? ? st5 ? Htwo Heol| | | | | | | |]; subst. clear H4.
  inversion Htwo as [| |? ? ? st4' ? Hd1 Hd2e| | | | | | | |]; subst. clear Htwo.
  inversion Hd2e as [| |? ? ? st4'' ? Hd2 Heps| | | | | | | |]; subst. clear Hd2e.
  inversion Heps; subst. clear Heps.
  inversion Heol as [| | | | | | | |? Hend| |]; subst. clear Heol.
  destruct (at_end_rest _ Hend) as (nl & Hnl).
  destruct (path_chr_reads _ _ _ Hfirst) as (c & Hc & R0).
  destruct (path_star_chr_reads _ _ _ Hmore) as (w & Hw & R1).
  destruct (path_chr_reads _ _ _ Hdot) as (dot & Hdotc & R2).
  destruct (path_chr_reads _ _ _ Hd1) as (d1 & Hd1c & R3).
  destruct (path_chr_reads _ _ _ Hd2) as (d2 & Hd2c & R4).
  apply Ascii.eqb_eq in Hdotc. subst dot.
  pose proof (reads_trans _ _ _ _ _ R0 R1) as R01.
  pose proof (reads_trans _ _ _ _ _ R3 R4) as R34.
  pose proof (reads_trans _ _ _ _ _ R2 R34) as R234.
  pose proof (reads_trans _ _ _ _ _ R01 R234) as (Rnum & _ & _).
  rewrite Hnl in Rnum.
  assert (exists neg : bool,
             clean = (if neg then "-" else EmptyString) +:+ rest st2) as (neg & Hclean).
  { inversion Hsign as [| | |? ? ? ? Hminus|? ? ? ? Hnone| | | | | |]; subst.
    - destruct (path_chr_reads _ _ _ Hminus) as (minus & Hm & (Rm & _ & _)).
      apply Ascii.eqb_eq in Hm. subst minus. exists true. exact Rm.
    - inversion Hnone; subst. now exists false. }
  exists neg, nl, (String c w), d1, d2. split.
  - rewrite Hclean, Rnum. reflexivity.
  - split; [discriminate|]. split; [|now split].
    simpl. now rewrite Hc, <- all_digits_chars, Hw.
Qed.

End SignedNumbers.

(** X21.  [float] cannot raise on an amount the parsers cut from a line
    with their amount patterns: every text that [[\d,]+\.\d{2}] takes as
    group 1, commas removed, reads as a number, and so does every text
    that the amount test of [hdfc_bank] accepts.  The conversions of
    [yes_bank], [standard_bank], [one_credit], [hdfc_credit] and
    [hdfc_bank] always succeed. *)
Theorem amount_texts_read (s : string) :
  (forall a, In a (Re.findall1 YesBank.amount_pattern s) ->
             exists x, PyFloat.of_string (Str.replace "," EmptyString a) = Some x) /\
  (forall a, In a (Re.findall1 StandardBank.amount_pattern s) ->
             exists x, PyFloat.of_string (Str.replace "," EmptyString a) = Some x) /\
  (forall a, In a (Re.findall1 OneCredit.amount_pattern s) ->
             exists x, PyFloat.of_string (Str.replace "," EmptyString a) = Some x) /\
  (forall a, In a (Re.findall1 HdfcCredit.amount_pattern s) ->
             exists x, PyFloat.of_string (Str.replace "," EmptyString a) = Some x) /\
  (forall m, In m (Re.finditer HdfcCredit.signed_amount_re s) ->
             exists x, PyFloat.of_string
                         (Str.replace "," EmptyString (Re.group_or_empty s m 1)) = Some x) /\
  (Re.matches HdfcBank.amount_re s = true -> exists x, PyFloat.of_string s = Some x).
Proof.
  split; [|split; [|split; [|split; [|split]]]].
  - intros a Ha. apply amount_text_reads.
    apply (findall1_amount YesBank.amount_pattern s a); [now split | assumption].
  - intros a Ha. apply amount_text_reads.
    apply (findall1_amount StandardBank.amount_pattern s a); [now split | assumption].
  - intros a Ha. apply amount_text_reads.
    apply (findall1_amount OneCredit.amount_pattern s a); [now split | assumption].
  - intros a Ha. apply amount_text_reads.
    apply (findall1_amount HdfcCredit.amount_pattern s a); [|assumption].
    cbv [HdfcCredit.amount_pattern Re.Seqs]. simpl. repeat split.
  - intros m Hm. apply amount_text_reads.
    apply (finditer_amount HdfcCredit.signed_amount_re s m); [|assumption].
    cbv [HdfcCredit.signed_amount_re Re.Seqs]. simpl. repeat split.
  - intros H.
    destruct (hdfc_amount_shape s H) as (neg & nl & ds & d1 & d2 & -> & Hne & Hds & H1 & H2).
    now apply signed_decimal_reads.
Qed.

(** ** The amounts the word parsers accept *)

Section AcceptedAmounts.
Import Re Path.

Lemma all_chars_impl (p q : ascii -> bool) (s : string) :
  (forall c, p c = true -> q c = true) -> all_chars p s = true -> all_chars q s = true.
Proof.
  intros Hpq. induction s as [|c s IH]; [reflexivity|]. simpl.
  intros [Hc Hs]%andb_prop. now rewrite (Hpq _ Hc), IH.
Qed.

Lemma all_chars_app (p : ascii -> bool) (a b : string) :
  all_chars p (a +:+ b) = all_chars p a && all_chars p b.
Proof.
  induction a as [|c a IH]; [reflexivity|].
  rewrite append_cons. simpl. now rewrite IH, andb_assoc.
Qed.

(** What [strip] removes is white space. *)
Lemma rstrip_all (p : ascii -> bool) (s : string) :
  all_chars p (Str.rstrip s) = true ->
  all_chars (fun c => Str.is_space c || p c) s = true.
Proof.
  induction s as [|c s IH]; [reflexivity|]. cbn [Str.rstrip all_chars].
  destruct (Str.is_empty (Str.rstrip s)) eqn:Hempty.
  - destruct (Str.rstrip s); [|discriminate].
    destruct (Str.is_space c) eqn:Hc; cbn [andb orb all_chars].
    + intros _. now apply IH.
    + intros [Hp _]%andb_prop. rewrite Hp. now apply IH.
  - cbn [andb all_chars]. intros [Hp Hs]%andb_prop. rewrite Hp, orb_true_r. now apply IH.
Qed.

Lemma lstrip_all (p : ascii -> bool) (s : string) :
  all_chars (fun c => Str.is_space c || p c) (Str.lstrip s) = true ->
  all_chars (fun c => Str.is_space c || p c) s = true.
Proof.
  induction s as [|c s IH]; [reflexivity|]. cbn [Str.lstrip all_chars].
  destruct (Str.is_space c) eqn:Hc.
  - intros H. cbn [orb andb]. now apply IH.
  - cbn [all_chars]. now rewrite Hc.
Qed.

Lemma strip_all (p : ascii -> bool) (s : string) :
  all_chars p (Str.strip s) = true ->
  all_chars (fun c => Str.is_space c || p c) s = true.
Proof. intros H. apply lstrip_all, rstrip_all, H. Qed.

(** A text in which the first character of [old] does not occur holds no
    [old]. *)
Lemma replace_absent (first : ascii) (more new s : string) :
  all_chars (fun c => negb (Ascii.eqb first c)) s = true ->
  Str.replace (String first more) new s = s.
Proof.
  unfold Str.replace. cbn [Str.is_empty].
  induction s as [|c s IH]; [reflexivity|]. simpl all_chars.
  intros [Hc Hs]%andb_prop. apply negb_true_iff in Hc.
  cbn [Str.replace_from Str.starts_with]. rewrite Hc. cbn [andb].
  now rewrite IH.
Qed.

(** White space, digits and the dot: the characters of an amount without
    its commas. *)
Definition blank_or_numeric (c : ascii) : bool := Str.is_space c || numeric_char c.

Lemma blank_or_numeric_marks (c : ascii) :
  blank_or_numeric c = true ->
  negb (Ascii.eqb (ascii_of_N 226) c) = true /\ negb (Ascii.eqb "R" c) = true.
Proof.
  destruct c as [[] [] [] [] [] [] [] []]; intros H; try discriminate H; now split.
Qed.

Lemma numeric_or_newline (c : ascii) :
  numeric_char c = true \/ c = Str.newline -> blank_or_numeric c = true.
Proof.
  unfold blank_or_numeric. intros [H | ->]; [now rewrite H, orb_true_r | reflexivity].
Qed.

(** Such a text holds no currency mark: the two last replacements of
    [Normalizer.clean_amount] leave it as it is. *)
Lemma no_marks (t : string) :
  all_chars blank_or_numeric t = true ->
  Str.replace "Rs." EmptyString (Str.replace Normalizer.rupee EmptyString t) = t.
Proof.
  intros H. unfold Normalizer.rupee.
  rewrite (replace_absent (ascii_of_N 226)).
  - apply replace_absent.
    apply (all_chars_impl blank_or_numeric); [|assumption].
    intros c Hc. now apply blank_or_numeric_marks.
  - apply (all_chars_impl blank_or_numeric); [|assumption].
    intros c Hc. now apply blank_or_numeric_marks.
Qed.

(** A decimal with two decimals, a newline after it or not. *)
Definition decimal (nl : bool) (ds : string) (d1 d2 : ascii) : string :=
  (ds +:+ String "." (String d1 (String d2 EmptyString)))
  +:+ (if nl then String Str.newline EmptyString else EmptyString).

Lemma decimal_chars (nl : bool) (ds : string) (d1 d2 : ascii) :
  PyFloat.all_digits ds = true -> Str.is_digit d1 = true -> Str.is_digit d2 = true ->
  all_chars blank_or_numeric (decimal nl ds d1 d2) = true.
Proof.
  intros Hds H1 H2. unfold decimal. rewrite !all_chars_app.
  apply andb_true_intro. split; [apply andb_true_intro; split|].
  - apply (all_chars_impl numeric_char);
      [intros c Hc; apply numeric_or_newline; now left|].
    now apply all_digits_numeric.
  - simpl. unfold blank_or_numeric.
    rewrite (digit_numeric _ H1), (digit_numeric _ H2). now rewrite !orb_true_r.
  - now destruct nl.
Qed.

Lemma decimal_reads (nl : bool) (ds : string) (d1 d2 : ascii) :
  PyFloat.all_digits ds = true -> Str.is_digit d1 = true -> Str.is_digit d2 = true ->
  exists x, PyFloat.of_string (decimal nl ds d1 d2) = Some x.
Proof.
  intros Hds H1 H2.
  destruct (signed_decimal_reads false nl ds d1 d2 Hds H1 H2) as (x & Hx).
  exists x. rewrite <- Hx. unfold decimal. now rewrite append_nil_l.
Qed.

Lemma strip_decimal (nl : bool) (ds : string) (d1 d2 : ascii) :
  PyFloat.all_digits ds = true -> Str.is_digit d1 = true -> Str.is_digit d2 = true ->
  Str.strip (decimal nl ds d1 d2) = decimal false ds d1 d2.
Proof.
  intros Hds H1 H2. unfold decimal.
  assert (all_chars plain_char (ds +:+ String "." (String d1 (String d2 EmptyString)))
          = true) as Hplain.
  { apply all_numeric_plain. rewrite all_numeric_app, (all_digits_numeric _ Hds). simpl.
    now rewrite (digit_numeric _ H1), (digit_numeric _ H2). }
  rewrite append_nil_r.
  destruct nl; [now apply strip_plain_newline|].
  rewrite append_nil_r. now apply strip_plain.
Qed.

(** What [^\d+\.\d{2}$] accepts. *)
Lemma sbi_amount_shape (clean : string) :
  Re.matches SbiBank.amount_re clean = true ->
  exists (nl : bool) (ds : string) (d1 d2 : ascii),
    clean = decimal nl ds d1 d2 /\
    PyFloat.all_digits ds = true /\ Str.is_digit d1 = true /\ Str.is_digit d2 = true.
Proof.
  intros H. apply matches_true in H as (m & H). unfold rmatch_start in H.
  destruct (match_here_path _ _ _ _ _ _ H) as (st' & Hpath & _). clear H m.
  cbv [SbiBank.amount_re Seqs Plus Rep char digit] in Hpath.
  inversion Hpath as [| |? ? ? st1 ? Hbol H1| | | | | | | |]; subst. clear Hpath.
  inversion Hbol; subst. clear Hbol.
  inversion H1 as [| |? ? ? st3 ? Hdigits H3| | | | | | | |]; subst. clear H1.
  inversion Hdigits as [| |? ? ? st2' ? Hfirst Hmore| | | | | | | |]; subst. clear Hdigits.
  inversion H3 as [| |? ? ? st4 ? Hdot H4| | | | | | | |]; subst. clear H3.
  inversion H4 as [| |? ? ? st5 ? Htwo Heol| | | | | | | |]; subst. clear H4.
  inversion Htwo as [| |? ? ? st4' ? Hd1 Hd2e| | | | | | | |]; subst. clear Htwo.
  inversion Hd2e as [| |? ? ? st4'' ? Hd2 Heps| | | | | | | |]; subst. clear Hd2e.
  inversion Heps; subst. clear Heps.
  inversion Heol as [| | | | | | | |? Hend| |]; subst. clear Heol.
  destruct (at_end_rest _ Hend) as (nl & Hnl).
  destruct (path_chr_reads _ _ _ Hfirst) as (c & Hc & R0).
  destruct (path_star_chr_reads _ _ _ Hmore) as (w & Hw & R1).
  destruct (path_chr_reads _ _ _ Hdot) as (dot & Hdotc & R2).
  destruct (path_chr_reads _ _ _ Hd1) as (d1 & Hd1c & R3).
  destruct (path_chr_reads _ _ _ Hd2) as (d2 & Hd2c & R4).
  apply Ascii.eqb_eq in Hdotc. subst dot.
  pose proof (reads_trans _ _ _ _ _ R0 R1) as R01.
  pose proof (reads_trans _ _ _ _ _ R3 R4) as R34.
  pose proof (reads_trans _ _ _ _ _ R2 R34) as R234.
  pose proof (reads_trans _ _ _ _ _ R01 R234) as (Rnum & _ & _).
  rewrite Hnl in Rnum. simpl in Rnum.
  exists nl, (String c w), d1, d2. split; [exact Rnum|].
  split; [|now split]. simpl. now rewrite Hc, <- all_digits_chars, Hw.
Qed.

(** What [^[\d,]+\.\d{2}$] accepts. *)
Lemma rbl_amount_shape (txt : string) :
  Re.matches RblBank.amount_re txt = true ->
  exists (nl : bool) (u : string),
    amount_text u /\
    txt = u +:+ (if nl then String Str.newline EmptyString else EmptyString).
Proof.
  intros H. apply matches_true in H as (m & H). unfold rmatch_start in H.
  destruct (match_here_path _ _ _ _ _ _ H) as (st' & Hpath & _). clear H m.
  cbv [RblBank.amount_re Seqs] in Hpath.
  inversion Hpath as [| |? ? ? st1 ? Hbol H1| | | | | | | |]; subst. clear Hpath.
  inversion Hbol; subst. clear Hbol.
  inversion H1 as [| |? ? ? st2 ? Hamount H2| | | | | | | |]; subst. clear H1.
  inversion H2 as [| | | | | | | |? Hend| |]; subst. clear H2.
  destruct (at_end_rest _ Hend) as (nl & Hnl).
  destruct (amount_path _ _ Hamount) as (u & Hu & (Hr & _ & _)).
  exists nl, u. split; [assumption|]. rewrite Hnl in Hr. exact Hr.
Qed.

Lemma replace_comma_newline (nl : bool) :
  Str.replace "," EmptyString (if nl then String Str.newline EmptyString else EmptyString)
  = if nl then String Str.newline EmptyString else EmptyString.
Proof. now destruct nl. Qed.

(** [Normalizer._to_float] reads what [_is_amount] accepts. *)
Lemma sbi_amount_reads (txt : string) :
  SbiBank._is_amount txt = true ->
  exists x, PyFloat.of_string (Normalizer.clean_amount txt) = Some x.
Proof.
  unfold SbiBank._is_amount. intros H.
  destruct (sbi_amount_shape _ H) as (nl & ds & d1 & d2 & Hshape & Hds & H1 & H2).
  unfold Normalizer.clean_amount.
  rewrite no_marks.
  - rewrite Hshape. now apply decimal_reads.
  - apply (all_chars_impl (fun c => Str.is_space c || blank_or_numeric c)).
    + intros c Hc. unfold blank_or_numeric in *.
      destruct (Str.is_space c); [reflexivity | exact Hc].
    + apply strip_all. rewrite Hshape. now apply decimal_chars.
Qed.

(** [Normalizer._to_float] reads what the amount pattern of [rbl_bank]
    accepts. *)
Lemma rbl_amount_reads (txt : string) :
  Re.matches RblBank.amount_re txt = true ->
  exists x, PyFloat.of_string (Normalizer.clean_amount txt) = Some x.
Proof.
  intros H.
  destruct (rbl_amount_shape _ H) as (nl & u & (w & d1 & d2 & -> & _ & Hw & H1 & H2) & ->).
  unfold Normalizer.clean_amount.
  rewrite !replace_comma_app, replace_comma_newline, !replace_comma_cons.
  rewrite (digit_not_comma _ H1), (digit_not_comma _ H2).
  cbn [Ascii.eqb Bool.eqb]. cbv iota.
  change (Str.replace "," EmptyString EmptyString) with EmptyString.
  pose proof (replace_comma_digits _ Hw) as Hds.
  fold (decimal nl (Str.replace "," EmptyString w) d1 d2).
  rewrite (no_marks (decimal nl (Str.replace "," EmptyString w) d1 d2))
    by now apply decimal_chars.
  rewrite strip_decimal by assumption. now apply decimal_reads.
Qed.

End AcceptedAmounts.

(** ** The records of the parsers that read words by position *)

Module WordRecords.

(** A debit, a credit or a balance as [sbi_bank] and [rbl_bank] store it:
    [''], or a text that the amount test [accepts] took, which [float]
    then reads once [Normalizer._to_float] has cleaned it. *)
Definition amount_cell (accepts : string -> bool) (v : string) : Prop :=
  v = EmptyString \/
  (accepts v = true /\
   exists x, PyFloat.of_string (Normalizer.clean_amount v) = Some x).

(** The six keys, all texts, the three amounts such cells and not all
    of them empty. *)
Definition row_shaped (accepts : string -> bool) (ledger : string -> Prop)
    (r : transaction) : Prop :=
  exists date desc debit credit balance l,
    r = Py.record date desc (PStr debit) (PStr credit) (PStr balance) l /\
    ledger l /\
    amount_cell accepts debit /\ amount_cell accepts credit /\
    amount_cell accepts balance /\
    (debit <> EmptyString \/ credit <> EmptyString \/ balance <> EmptyString).

(** A record as the parser returns it: the ledger is the one that
    [ledger_of] gives for the description the record carries. *)
Definition word_shaped (accepts : string -> bool) (ledger_of : string -> string)
    (r : transaction) : Prop :=
  exists date desc debit credit balance,
    r = Py.record date desc (PStr debit) (PStr credit) (PStr balance) (ledger_of desc) /\
    amount_cell accepts debit /\ amount_cell accepts credit /\
    amount_cell accepts balance /\
    (debit <> EmptyString \/ credit <> EmptyString \/ balance <> EmptyString).

(** The [amounts] dictionary of a row: its keys are among the three
    columns and its values are texts the amount test took. *)
Definition cells_ok (accepts : string -> bool) (amounts : gmap string string) : Prop :=
  forall col v,
    amounts !! col = Some v ->
    (col = "debit" \/ col = "credit" \/ col = "balance") /\ accepts v = true.

(** Before the last loop of the parser the ledger may be any text. *)
Definition any_ledger (_ : string) : Prop := True.

End WordRecords.

Section WordRecordFacts.
Import WordRecords.

Context (accepts : string -> bool).
Hypothesis accepts_reads :
  forall v, accepts v = true ->
            exists x, PyFloat.of_string (Normalizer.clean_amount v) = Some x.
Hypothesis accepts_nonempty : accepts EmptyString = false.

Lemma record_description (date d d' : string) (a b c : pyval) (l : string) :
  <["description" := PStr d']> (Py.record date d a b c l) = Py.record date d' a b c l.
Proof.
  unfold Py.record.
  rewrite (insert_insert_ne _ "description" "date") by discriminate.
  now rewrite insert_insert_eq.
Qed.

Lemma record_ledger (date d : string) (a b c : pyval) (l l' : string) :
  <["ledger" := PStr l']> (Py.record date d a b c l) = Py.record date d a b c l'.
Proof.
  unfold Py.record.
  rewrite (insert_insert_ne _ "ledger" "date") by discriminate.
  rewrite (insert_insert_ne _ "ledger" "description") by discriminate.
  rewrite (insert_insert_ne _ "ledger" "debit") by discriminate.
  rewrite (insert_insert_ne _ "ledger" "credit") by discriminate.
  rewrite (insert_insert_ne _ "ledger" "balance") by discriminate.
  now rewrite insert_insert_eq.
Qed.

Lemma record_lookup_description (date d : string) (a b c : pyval) (l : string) :
  Py.record date d a b c l !! "description" = Some (PStr d).
Proof.
  unfold Py.record. rewrite lookup_insert_ne by discriminate. apply lookup_insert_eq.
Qed.

Lemma record_lookup_date (date d : string) (a b c : pyval) (l : string) :
  Py.record date d a b c l !! "date" = Some (PStr date).
Proof. unfold Py.record. apply lookup_insert_eq. Qed.

Lemma cells_ok_empty : cells_ok accepts ∅.
Proof. intros col v H. now rewrite lookup_empty in H. Qed.

Lemma cells_ok_insert (amounts : gmap string string) (col v : string) :
  cells_ok accepts amounts ->
  col = "debit" \/ col = "credit" \/ col = "balance" ->
  accepts v = true ->
  cells_ok accepts (<[col := v]> amounts).
Proof.
  intros Hok Hcol Hv k u. destruct (decide (k = col)) as [->|Hne].
  - rewrite lookup_insert_eq. intros [= <-]. now split.
  - rewrite lookup_insert_ne by congruence. apply Hok.
Qed.

Lemma cell_of (amounts : gmap string string) (col : string) :
  cells_ok accepts amounts ->
  amount_cell accepts (default EmptyString (amounts !! col)).
Proof.
  intros Hok. destruct (amounts !! col) as [v|] eqn:E; [|now left].
  right. destruct (Hok _ _ E) as [_ Hv]. split; [exact Hv | now apply accepts_reads].
Qed.

Lemma cells_some (amounts : gmap string string) :
  cells_ok accepts amounts -> amounts <> ∅ ->
  default EmptyString (amounts !! "debit") <> EmptyString \/
  default EmptyString (amounts !! "credit") <> EmptyString \/
  default EmptyString (amounts !! "balance") <> EmptyString.
Proof.
  intros Hok Hne. destruct (map_choose _ Hne) as (col & v & Hv).
  destruct (Hok _ _ Hv) as [Hcol Hacc].
  assert (v <> EmptyString) as Hnonempty by (intros ->; congruence).
  destruct Hcol as [-> | [-> | ->]]; rewrite Hv; auto.
Qed.

(** The record of a row with amounts. *)
Lemma cells_record (ledger : string -> Prop) (amounts : gmap string string)
    (date desc l : string) :
  cells_ok accepts amounts -> amounts <> ∅ -> ledger l ->
  row_shaped accepts ledger
    (Py.record date desc
       (PStr (default EmptyString (amounts !! "debit")))
       (PStr (default EmptyString (amounts !! "credit")))
       (PStr (default EmptyString (amounts !! "balance"))) l).
Proof.
  intros Hok Hne Hl.
  exists date, desc, (default EmptyString (amounts !! "debit")),
    (default EmptyString (amounts !! "credit")),
    (default EmptyString (amounts !! "balance")), l.
  split; [reflexivity|]. split; [assumption|].
  split; [now apply cell_of|]. split; [now apply cell_of|].
  split; [now apply cell_of | now apply cells_some].
Qed.

(** A longer description leaves the record such a record, whatever the
    ledger may have been. *)
Lemma extend_description_shaped (ledger : string -> Prop) (extra : string)
    (r : transaction) :
  row_shaped accepts ledger r ->
  row_shaped accepts ledger (Py.extend_description extra r).
Proof.
  intros (date & desc & debit & credit & balance & l & -> & Hl & Hd & Hc & Hb & Hsome).
  unfold Py.extend_description. rewrite record_lookup_description, record_description.
  now exists date, (desc +:+ " " +:+ extra), debit, credit, balance, l.
Qed.

Lemma extend_last_shaped (ledger : string -> Prop) (extra : string)
    (ts : list transaction) :
  Forall (row_shaped accepts ledger) ts ->
  Forall (row_shaped accepts ledger) (Py.extend_last extra ts).
Proof.
  induction 1 as [|t ts Ht Hts IH]; [constructor|].
  destruct ts as [|t' ts].
  - constructor; [now apply extend_description_shaped | constructor].
  - change (Py.extend_last extra (t :: t' :: ts))
      with (t :: Py.extend_last extra (t' :: ts)).
    now constructor.
Qed.

(** The closest column is one of the three. *)
Lemma min_from_fst {A : Type} (items : list (A * float)) :
  forall best,
    fst (Words.min_from best items) = fst best \/
    In (fst (Words.min_from best items)) (map fst items).
Proof.
  induction items as [|d items IH]; intros best; [now left|]. simpl.
  destruct (IH (if PrimFloat.ltb (snd d) (snd best) then d else best)) as [H | H];
    [|now right; right].
  destruct (PrimFloat.ltb (snd d) (snd best)); [right; left; now rewrite H | now left].
Qed.

Lemma rbl_column (right_edge : float) (col : string) :
  RblBank.amount_column right_edge = Some col ->
  col = "debit" \/ col = "credit" \/ col = "balance".
Proof.
  unfold RblBank.amount_column.
  match goal with |- context [Words.min_from ?b ?l] =>
    destruct (min_from_fst l b) as [H | H];
    destruct (PrimFloat.leb (snd (Words.min_from b l)) RblBank.COL_TOL);
    try discriminate; intros [= <-]
  end.
  - left. exact H.
  - simpl in H. destruct H as [<- | [<- | []]]; auto.
Qed.

Lemma sbi_column (right_edge d c b : float) (col : string) :
  SbiBank._classify_col right_edge d c b = Some col ->
  col = "debit" \/ col = "credit" \/ col = "balance".
Proof.
  unfold SbiBank._classify_col.
  match goal with |- context [Words.min_from ?b ?l] =>
    destruct (min_from_fst l b) as [H | H];
    destruct (PrimFloat.leb (snd (Words.min_from b l)) SbiBank._COL_TOLERANCE);
    try discriminate; intros [= <-]
  end.
  - left. exact H.
  - simpl in H. destruct H as [<- | [<- | []]]; auto.
Qed.

End WordRecordFacts.

Section RblRecords.
Import WordRecords.

Let accepts : string -> bool := Re.matches RblBank.amount_re.

Lemma rbl_classify_cells (rw : list word) :
  forall amounts others,
    cells_ok accepts amounts ->
    cells_ok accepts (fst (RblBank.classify_row rw amounts others)).
Proof.
  induction rw as [|w rw IH]; intros amounts others Hok; [exact Hok|]. simpl.
  destruct (Re.matches RblBank.amount_re (Str.strip (text w))) eqn:Hacc; [|now apply IH].
  destruct (RblBank.amount_column (x1 w)) as [col|] eqn:Hcol; [|now apply IH].
  apply IH. apply cells_ok_insert; [assumption | now apply (rbl_column (x1 w)) | assumption].
Qed.

Lemma rbl_row_shaped (header_y : option Z) (ts : list transaction) (row : Z * list word) :
  Forall (row_shaped accepts any_ledger) ts ->
  Forall (row_shaped accepts any_ledger) (RblBank.process_row header_y ts row).
Proof.
  intros Hts. destruct row as [y ws]. unfold RblBank.process_row.
  destruct (Words.at_or_above header_y y); [assumption|].
  cbv zeta.
  destruct (Re.found RblBank.skip_re _); [assumption|].
  pose proof (rbl_classify_cells (Words.sort_by x0 ws) ∅ [] (cells_ok_empty _)) as Hok.
  destruct (RblBank.classify_row (Words.sort_by x0 ws) ∅ []) as [amounts others].
  simpl in Hok.
  destruct (bool_decide (amounts = ∅)) eqn:Hempty.
  - destruct (negb (Py.is_nil ts) && negb (Py.is_nil (RblBank.continuation_words others)));
      [|assumption].
    now apply extend_last_shaped.
  - apply bool_decide_eq_false in Hempty.
    apply Forall_app. split; [assumption|]. constructor; [|constructor].
    now apply (cells_record accepts rbl_amount_reads eq_refl any_ledger).
Qed.

Lemma rbl_rows_shaped (header_y : option Z) (rows : list (Z * list word)) :
  forall ts,
    Forall (row_shaped accepts any_ledger) ts ->
    Forall (row_shaped accepts any_ledger) (fold_left (RblBank.process_row header_y) rows ts).
Proof.
  induction rows as [|row rows IH]; intros ts Hts; [assumption|].
  cbn [fold_left]. apply IH. now apply rbl_row_shaped.
Qed.

Lemma rbl_page_shaped (words : list word) (ts ts' : list transaction) :
  RblBank._process_page_words words ts = Some ts' ->
  Forall (row_shaped accepts any_ledger) ts ->
  Forall (row_shaped accepts any_ledger) ts'.
Proof.
  unfold RblBank._process_page_words. destruct words as [|w words]; [now intros [= <-]|].
  destruct (RblBank.find_header (w :: words)) as [header_y|]; [|discriminate].
  destruct (Words.rows_by_round (w :: words) []) as [rows|]; [|discriminate].
  intros [= <-]. apply rbl_rows_shaped.
Qed.

Lemma rbl_pages_shaped (pages : list (list word)) :
  forall ts ts',
    RblBank.read_pages pages ts = Some ts' ->
    Forall (row_shaped accepts any_ledger) ts ->
    Forall (row_shaped accepts any_ledger) ts'.
Proof.
  induction pages as [|words pages IH]; intros ts ts'; simpl; [now intros [= <-]|].
  destruct (RblBank._process_page_words words ts) as [ts1|] eqn:Hpage; [|discriminate].
  intros Hrest Hts. apply (IH _ _ Hrest). now apply (rbl_page_shaped words ts).
Qed.

Lemma rbl_clean_shaped (r : transaction) :
  row_shaped accepts any_ledger r ->
  word_shaped accepts RblBank._determine_ledger (RblBank.clean_record r).
Proof.
  intros (date & desc & debit & credit & balance & l & -> & _ & Hd & Hc & Hb & Hsome).
  unfold RblBank.clean_record. rewrite record_lookup_description.
  cbv zeta. rewrite record_description, record_ledger.
  now eexists date, _, debit, credit, balance.
Qed.

End RblRecords.

(** X22.  Every record that [parse_rbl_bank] returns has the six keys with
    text values; its ledger is [_determine_ledger] of the description it
    carries at the end, rows added after it included; each of its debit,
    credit and balance is [''] or a text the amount pattern took, which
    [Normalizer._to_float] then reads as a number; and at least one of the
    three is not empty. *)
Theorem rbl_bank_records (pages : list (list word)) (ts : list transaction) :
  RblBank.parse_rbl_bank pages = Some ts ->
  Forall (WordRecords.word_shaped (Re.matches RblBank.amount_re) RblBank._determine_ledger)
    ts.
Proof.
  unfold RblBank.parse_rbl_bank.
  destruct (RblBank.read_pages pages []) as [raw|] eqn:Hraw; [|discriminate].
  intros [= <-]. apply Forall_map.
  pose proof (rbl_pages_shaped pages [] raw Hraw ltac:(constructor)) as Hshaped.
  eapply Forall_impl; [exact Hshaped|]. intros r Hr. now apply rbl_clean_shaped.
Qed.

Section SbiRecords.
Import WordRecords.

Lemma sbi_classify_cells (d c b : float) (rw : list word) :
  forall amounts others,
    cells_ok SbiBank._is_amount amounts ->
    cells_ok SbiBank._is_amount (fst (SbiBank.classify_row d c b rw amounts others)).
Proof.
  induction rw as [|w rw IH]; intros amounts others Hok; [exact Hok|]. simpl.
  destruct (SbiBank._is_amount (Str.strip (text w))) eqn:Hacc; [|now apply IH].
  destruct (SbiBank._classify_col (x1 w) d c b) as [col|] eqn:Hcol; [|now apply IH].
  apply IH.
  apply cells_ok_insert; [assumption | now apply (sbi_column (x1 w) d c b) | assumption].
Qed.

Lemma sbi_row_shaped (cols : SbiBank.columns) (header_y : option Z) (st : SbiBank.scan)
    (row : Z * list word) :
  Forall (row_shaped SbiBank._is_amount any_ledger) (SbiBank.emitted st) ->
  Forall (row_shaped SbiBank._is_amount any_ledger)
    (SbiBank.emitted (SbiBank.process_row cols header_y st row)).
Proof.
  intros Hts. destruct row as [y ws]. unfold SbiBank.process_row.
  destruct (Words.at_or_above header_y y); [assumption|].
  cbv zeta.
  destruct (Re.found SbiBank.skip_re _); [assumption|].
  pose proof (sbi_classify_cells (SbiBank.debit_x1 cols) (SbiBank.credit_x1 cols)
                (SbiBank.balance_x1 cols) (Words.sort_by x0 ws) ∅ []
                (cells_ok_empty _)) as Hok.
  destruct (SbiBank.classify_row _ _ _ (Words.sort_by x0 ws) ∅ []) as [amounts others].
  simpl in Hok.
  destruct (bool_decide (amounts = ∅)) eqn:Hempty.
  - destruct (Py.is_nil (SbiBank.emitted st)); [assumption|].
    destruct (SbiBank.continuation_parts others [] (SbiBank.state_last_year st))
      as [extra_parts state_year].
    cbn [SbiBank.emitted].
    destruct (Str.is_empty (Str.strip (Str.join " " extra_parts))); [assumption|].
    now apply extend_last_shaped.
  - apply bool_decide_eq_false in Hempty.
    destruct (SbiBank.read_date 0 others [] (SbiBank.last_year st) [])
      as [[date_parts year] consumed].
    destruct (SbiBank.read_description 0 others consumed [] year) as [desc_parts year'].
    cbn [SbiBank.emitted].
    apply Forall_app. split; [assumption|]. constructor; [|constructor].
    now apply (cells_record SbiBank._is_amount sbi_amount_reads eq_refl any_ledger).
Qed.

Lemma sbi_rows_shaped (cols : SbiBank.columns) (header_y : option Z)
    (rows : list (Z * list word)) :
  forall st,
    Forall (row_shaped SbiBank._is_amount any_ledger) (SbiBank.emitted st) ->
    Forall (row_shaped SbiBank._is_amount any_ledger)
      (SbiBank.emitted (fold_left (SbiBank.process_row cols header_y) rows st)).
Proof.
  induction rows as [|row rows IH]; intros st Hst; [assumption|].
  cbn [fold_left]. apply IH. now apply sbi_row_shaped.
Qed.

Lemma sbi_page_shaped (words : list word) (before after : SbiBank.page_result) :
  SbiBank._process_page words before = Some after ->
  Forall (row_shaped SbiBank._is_amount any_ledger) (SbiBank.transactions_after before) ->
  Forall (row_shaped SbiBank._is_amount any_ledger) (SbiBank.transactions_after after).
Proof.
  unfold SbiBank._process_page. destruct words as [|w words]; [now intros [= <-]|].
  destruct (SbiBank.read_header (w :: words) _ None) as [[cols header_y]|]; [|discriminate].
  destruct (Words.rows_by_round (w :: words) []) as [rows|]; [|discriminate].
  intros [= <-] Hbefore. cbn [SbiBank.transactions_after].
  now apply sbi_rows_shaped.
Qed.

Lemma sbi_pages_shaped (pages : list (list word)) :
  forall before after,
    SbiBank.read_pages pages before = Some after ->
    Forall (row_shaped SbiBank._is_amount any_ledger) (SbiBank.transactions_after before) ->
    Forall (row_shaped SbiBank._is_amount any_ledger) (SbiBank.transactions_after after).
Proof.
  induction pages as [|words pages IH]; intros before after; simpl; [now intros [= <-]|].
  destruct (SbiBank._process_page words before) as [mid|] eqn:Hpage; [|discriminate].
  intros Hrest Hbefore. apply (IH _ _ Hrest). now apply (sbi_page_shaped words before).
Qed.

Lemma sbi_finish_shaped (r : transaction) :
  row_shaped SbiBank._is_amount any_ledger r ->
  word_shaped SbiBank._is_amount SbiBank._determine_ledger (SbiBank.finish_record r).
Proof.
  intros (date & desc & debit & credit & balance & l & -> & _ & Hd & Hc & Hb & Hsome).
  unfold SbiBank.finish_record. rewrite record_lookup_description.
  cbv zeta. rewrite record_description, record_ledger.
  now eexists date, _, debit, credit, balance.
Qed.

End SbiRecords.

(** X23.  Every record that [parse_sbi_bank] returns has the six keys with
    text values; its ledger is [_determine_ledger] of the description it
    carries at the end, the rows added after it and the last cleaning
    included; each of its debit, credit and balance is [''] or a text
    that [_is_amount] took, which [Normalizer._to_float] then reads as a
    number; and at least one of the three is not empty. *)
Theorem sbi_bank_records (pages : list (list word)) (ts : list transaction) :
  SbiBank.parse_sbi_bank pages = Some ts ->
  Forall (WordRecords.word_shaped SbiBank._is_amount SbiBank._determine_ledger) ts.
Proof.
  unfold SbiBank.parse_sbi_bank.
  destruct (SbiBank.read_pages pages _) as [result|] eqn:Hraw; [|discriminate].
  intros [= <-]. apply Forall_map.
  pose proof (sbi_pages_shaped pages _ result Hraw ltac:(constructor)) as Hshaped.
  eapply Forall_impl; [exact Hshaped|]. intros r Hr. now apply sbi_finish_shaped.
Qed.

(** A page of an RBL statement: the header, a row with a date, a
    description, a withdrawal and a balance, and a row that continues the
    description. *)
Definition rbl_sample_page : list word :=
  [ Word "Transaction Date" 20 90 80;
    Word "01/04/2024" 20 62 100; Word "UPI/SWIGGY" 80 150 100;
    Word "250.00" 505 537 100; Word "1,750.00" 720 766 100;
    Word "ORDER 42" 80 130 112 ].

Definition rbl_sample_record : transaction :=
  Py.record "01/04/2024" "UPI/SWIGGY ORDER 42" (PStr "250.00") (PStr EmptyString)
    (PStr "1,750.00") "Food & Dining".

Lemma rbl_bank_records_witness :
  RblBank.parse_rbl_bank [rbl_sample_page] = Some [rbl_sample_record] /\
  Forall (WordRecords.word_shaped (Re.matches RblBank.amount_re) RblBank._determine_ledger)
    [rbl_sample_record].
Proof.
  assert (RblBank.parse_rbl_bank [rbl_sample_page] = Some [rbl_sample_record]) as H
    by (vm_compute; reflexivity).
  split; [exact H | exact (rbl_bank_records _ _ H)].
Defined.

(** A page of an SBI statement: the header of the debit column, a row
    with a date in three words, a description, a debit and a balance, and
    a row that continues the description; then a page without words. *)
Definition sbi_sample_page : list word :=
  [ Word "Debit" 390 414 80;
    Word "1" 40 45 100; Word "Apr" 50 65 100; Word "2024" 70 90 100;
    Word "ATM" 150 170 100; Word "WDL" 175 200 100;
    Word "2,000.00" 380 414 100; Word "8,000.00" 520 557 100;
    Word "MUMBAI" 150 190 112 ].

Definition sbi_sample_record : transaction :=
  Py.record "1 Apr 2024" "ATM WDL MUMBAI" (PStr "2,000.00") (PStr EmptyString)
    (PStr "8,000.00") "Cash".

Lemma sbi_bank_records_witness :
  SbiBank.parse_sbi_bank [sbi_sample_page; []] = Some [sbi_sample_record] /\
  Forall (WordRecords.word_shaped SbiBank._is_amount SbiBank._determine_ledger)
    [sbi_sample_record].
Proof.
  assert (SbiBank.parse_sbi_bank [sbi_sample_page; []] = Some [sbi_sample_record]) as H
    by (vm_compute; reflexivity).
  split; [exact H | exact (sbi_bank_records _ _ H)].
Defined.

(** ** When the word parsers return *)

Module Tops.

(** A float that [round] takes: not a NaN and not an infinity. *)
Definition finite (x : float) : bool :=
  match Prim2SF x with
  | S754_zero _ | S754_finite _ _ _ => true
  | _ => false
  end.

(** Every word of every page has such a top. *)
Definition finite_tops (pages : list (list word)) : Prop :=
  Forall (Forall (fun w => finite (top w) = true)) pages.

End Tops.

Section ReturnFacts.
Import Tops.

Lemma round_int_finite (x : float) : is_Some (PyFloat.round_int x) <-> finite x = true.
Proof.
  unfold PyFloat.round_int, finite.
  destruct (Prim2SF x); split; intros H;
    first [reflexivity | discriminate | now eauto | destruct H; discriminate].
Qed.

Lemma round_int_none (x : float) : PyFloat.round_int x = None <-> finite x = false.
Proof.
  pose proof (round_int_finite x) as H.
  destruct (PyFloat.round_int x) as [y|], (finite x); split; intros E;
    try reflexivity; try discriminate.
  - destruct H as [H _]. now specialize (H (mk_is_Some _ _ eq_refl)).
  - destruct H as [_ H]. destruct (H eq_refl) as [? ?]. discriminate.
Qed.

Lemma rows_by_round_some (words : list word) :
  forall rows,
    is_Some (Words.rows_by_round words rows) <->
    Forall (fun w => finite (top w) = true) words.
Proof.
  induction words as [|w words IH]; intros rows; simpl.
  - split; [constructor | eauto].
  - destruct (PyFloat.round_int (top w)) as [y|] eqn:Hy.
    + rewrite IH. split.
      * intros H. constructor; [|assumption]. apply round_int_finite. now rewrite Hy.
      * now inversion 1.
    + split; [intros [? ?]; discriminate|].
      inversion 1 as [|? ? Hw _]; subst. apply round_int_finite in Hw.
      rewrite Hy in Hw. destruct Hw as [? ?]. discriminate.
Qed.

Lemma find_header_some (words : list word) :
  Forall (fun w => finite (top w) = true) words -> is_Some (RblBank.find_header words).
Proof.
  induction 1 as [|w words Hw _ IH]; simpl; [eauto|].
  destruct (_ || _); [|assumption].
  apply round_int_finite in Hw as [y ->]. eauto.
Qed.

Lemma read_header_some (words : list word) :
  Forall (fun w => finite (top w) = true) words ->
  forall cols header_y, is_Some (SbiBank.read_header words cols header_y).
Proof.
  induction 1 as [|w words Hw _ IH]; intros cols header_y; simpl; [eauto|].
  destruct (_ && _).
  - apply round_int_finite in Hw as [y ->]. apply IH.
  - destruct (_ && _); [apply IH|]. destruct (_ && _); apply IH.
Qed.

Lemma rbl_page_returns (words : list word) (ts : list transaction) :
  is_Some (RblBank._process_page_words words ts) <->
  Forall (fun w => finite (top w) = true) words.
Proof.
  unfold RblBank._process_page_words. destruct words as [|w words].
  - split; [constructor | eauto].
  - split.
    + destruct (RblBank.find_header (w :: words)); [|intros [? ?]; discriminate].
      destruct (Words.rows_by_round (w :: words) []) eqn:Hrows;
        [|intros [? ?]; discriminate].
      intros _. apply (rows_by_round_some _ []). now rewrite Hrows.
    + intros H. destruct (find_header_some _ H) as [h ->].
      apply (rows_by_round_some _ []) in H as [rows ->]. eauto.
Qed.

Lemma rbl_pages_return (pages : list (list word)) :
  forall ts, is_Some (RblBank.read_pages pages ts) <-> finite_tops pages.
Proof.
  unfold finite_tops.
  induction pages as [|words pages IH]; intros ts; simpl.
  - split; [constructor | eauto].
  - pose proof (rbl_page_returns words ts) as Hpage.
    destruct (RblBank._process_page_words words ts) as [ts'|].
    + rewrite IH. split.
      * intros H. constructor; [|assumption]. apply Hpage. eauto.
      * now inversion 1.
    + split; [intros [? ?]; discriminate|].
      inversion 1 as [|? ? Hw _]; subst. apply Hpage in Hw as [? ?]. discriminate.
Qed.

Lemma sbi_page_returns (words : list word) (before : SbiBank.page_result) :
  is_Some (SbiBank._process_page words before) <->
  Forall (fun w => finite (top w) = true) words.
Proof.
  unfold SbiBank._process_page. destruct words as [|w words].
  - split; [constructor | eauto].
  - split.
    + destruct (SbiBank.read_header (w :: words) _ None) as [[cols header_y]|];
        [|intros [? ?]; discriminate].
      destruct (Words.rows_by_round (w :: words) []) eqn:Hrows;
        [|intros [? ?]; discriminate].
      intros _. apply (rows_by_round_some _ []). now rewrite Hrows.
    + intros H.
      destruct (read_header_some _ H
                  (default SbiBank.default_columns (SbiBank.col_x1 before)) None)
        as [[cols header_y] ->].
      apply (rows_by_round_some _ []) in H as [rows ->]. eauto.
Qed.

Lemma sbi_pages_return (pages : list (list word)) :
  forall before, is_Some (SbiBank.read_pages pages before) <-> finite_tops pages.
Proof.
  unfold finite_tops.
  induction pages as [|words pages IH]; intros before; simpl.
  - split; [constructor | eauto].
  - pose proof (sbi_page_returns words before) as Hpage.
    destruct (SbiBank._process_page words before) as [after|].
    + rewrite IH. split.
      * intros H. constructor; [|assumption]. apply Hpage. eauto.
      * now inversion 1.
    + split; [intros [? ?]; discriminate|].
      inversion 1 as [|? ? Hw _]; subst. apply Hpage in Hw as [? ?]. discriminate.
Qed.

End ReturnFacts.

(** X24.  [parse_sbi_bank] and [parse_rbl_bank] return a list exactly when
    the top of every word of every page is a finite number: [round]
    raises on a top that is a NaN or an infinity, in the search for the
    header or in the grouping of the words into rows, and no other step
    of the two parsers fails. *)
Theorem word_parsers_return (pages : list (list word)) :
  (is_Some (SbiBank.parse_sbi_bank pages) <-> Tops.finite_tops pages) /\
  (is_Some (RblBank.parse_rbl_bank pages) <-> Tops.finite_tops pages).
Proof.
  split.
  - rewrite <- (sbi_pages_return pages
                  (SbiBank.PageResult [] None EmptyString EmptyString)).
    unfold SbiBank.parse_sbi_bank.
    destruct (SbiBank.read_pages pages _); split; intros [? ?]; eauto; discriminate.
  - rewrite <- (rbl_pages_return pages []). unfold RblBank.parse_rbl_bank.
    destruct (RblBank.read_pages pages []); split; intros [? ?]; eauto; discriminate.
Qed.
